(** * my-chat-app: the Socket.IO chat server, embedded and verified

    The repository holds three drafts of one server:

    - the current server ([user_connect], [get_dm_partners],
      [change_nickname], [global_message], [delete_global_message],
      [load_dms], [send_dm], [delete_dm], [disconnect]) with a [users]
      table, a [direct_messages] table, the in-memory [onlineUsers] map
      and the in-memory [globalMessages] array;
    - an earlier user-registry draft ([request_user_data],
      [setup_nickname], [change_nickname] with a fourteen day window and
      a "same nickname" guard), embedded in [Module Registry];
    - the first draft (src/server.js), keyed by nicknames, embedded in
      [Module Legacy] as far as the feed and the DM thread go.

    Every handler is a computation in a small monad [M]: it reads its
    inputs (clock, socket id, store faults) from an [Env], threads the
    process state and the socket's [currentUserId], can throw, and writes
    the trace of what it does in program order: each [await pool.query]
    is a [Suspend], each write to [onlineUsers] a [PresenceWrite], each
    emit and each callback an entry of its own.  A handler is embedded
    as one atomic run: no other handler is interleaved at its awaits.

    Payload fields are taken at the type the handlers use them at (user
    ids, nicknames and bodies are strings, message ids numbers); the one
    field whose JavaScript value decides a test, the [senderId] of
    [delete_global_message], keeps [null] and [undefined].  The store is
    the two tables as lists of rows; a statement that violates a key or
    the UNIQUE index rejects, like a store fault, and an INSERT that is
    rejected has drawn its id from the sequence all the same.  The order
    of rows that a statement does not fix (no ORDER BY, or equal keys)
    is the store's choice at each statement: the handler reads it from
    its [Env]. *)

From Stdlib Require Import List String ZArith Lia Bool Arith.
From Stdlib Require Import Sorting.Sorted Sorting.Permutation.
Import ListNotations.

Local Open Scope string_scope.
Local Open Scope Z_scope.
Local Open Scope list_scope.

(** ** JavaScript values the handlers test *)

(** A user id as it arrives in a payload: [null], [undefined] (the key is
    missing) or a string. *)
Inductive js_id :=
| js_null
| js_undefined
| js_str (s : string).

(** [!!s] for a string: the empty string is falsy. *)
Definition truthy_str (s : string) : bool := negb (String.eqb s "").

(** [!!currentUserId]; the variable is [null] (here [None]) or a string. *)
Definition truthy (c : option string) : bool :=
  match c with
  | Some s => truthy_str s
  | None => false
  end.

(** [currentUserId === senderId]. *)
Definition strict_eq (c : option string) (v : js_id) : bool :=
  match c, v with
  | None, js_null => true
  | Some a, js_str b => String.eqb a b
  | _, _ => false
  end.

(** [type || 'text'] for an optional string field. *)
Definition or_text (t : option string) : string :=
  match t with
  | Some s => if truthy_str s then s else "text"
  | None => "text"
  end.

(** ** A JavaScript [Map] with string keys: insertion ordered *)

Section JsMap.
Context {V : Type}.

Fixpoint map_get (k : string) (m : list (string * V)) : option V :=
  match m with
  | [] => None
  | (k', v) :: m' => if String.eqb k' k then Some v else map_get k m'
  end.

(** [set] overwrites in place, a new key goes to the end. *)
Fixpoint map_set (k : string) (v : V) (m : list (string * V)) : list (string * V) :=
  match m with
  | [] => [(k, v)]
  | (k', v') :: m' =>
      if String.eqb k' k then (k, v) :: m' else (k', v') :: map_set k v m'
  end.

Definition map_delete (k : string) (m : list (string * V)) : list (string * V) :=
  filter (fun kv => negb (String.eqb (fst kv) k)) m.

(** [Array.from(m.keys())]. *)
Definition map_keys (m : list (string * V)) : list string := map fst m.
End JsMap.

(** ** The handler monad *)

(** What a handler invocation reads from outside. *)
Record Env := mkEnv {
  socket_id : string;          (* socket.id *)
  date_now : Z;                (* Date.now(), milliseconds *)
  date_iso : string;           (* new Date().toISOString() *)
  db_now : Z;                  (* NOW() of the statement, milliseconds *)
  store_fails : nat -> bool;   (* the k-th pool.query of this run rejects *)
  dm_rank : nat -> Z -> Z;     (* where the k-th pool.query of this run finds
                                  the message with this id: rows a statement
                                  leaves unordered come ascending in it *)
  nickname_rank : nat -> string -> Z   (* the same for rows of nicknames *)
}.

Inductive outcome (A : Type) :=
| Normal (a : A)
| Thrown.
Arguments Normal {A} a.
Arguments Thrown {A}.

Section Monad.
(** [W]: the process state; [Ev]: the outbound events; [Rp]: what a
    callback is called with. *)
Context {W Ev Rp : Type}.

Inductive effect :=
| Suspend                           (* await pool.query(...) *)
| PresenceWrite (uid : string)      (* onlineUsers.set / .delete *)
| IoEmit (e : Ev)                   (* io.emit: every connection *)
| SocketEmit (e : Ev)               (* socket.emit: this connection *)
| ToEmit (sid : string) (e : Ev)    (* io.to(sid).emit *)
| Callback (r : Rp).

Record Machine := mkMachine {
  world : W;
  currentUserId : option string;
  issued : nat                      (* queries issued so far in this run *)
}.

Definition M (A : Type) : Type :=
  Env -> Machine -> outcome A * Machine * list effect.

Definition ret {A} (a : A) : M A := fun _ m => (Normal a, m, []).

Definition bind {A B} (c : M A) (k : A -> M B) : M B :=
  fun env m =>
    match c env m with
    | (Normal a, m1, t1) =>
        let '(r, m2, t2) := k a env m1 in (r, m2, t1 ++ t2)
    | (Thrown, m1, t1) => (Thrown, m1, t1)
    end.

Definition throw {A} : M A := fun _ m => (Thrown, m, []).

(** [try { body } catch (err) { handler }]: what [body] did before it
    threw stays done. *)
Definition try_catch (body handler : M unit) : M unit :=
  fun env m =>
    match body env m with
    | (Normal a, m1, t1) => (Normal a, m1, t1)
    | (Thrown, m1, t1) =>
        let '(r, m2, t2) := handler env m1 in (r, m2, t1 ++ t2)
    end.

Definition ask : M Env := fun env m => (Normal env, m, []).
Definition get_world : M W := fun _ m => (Normal (world m), m, []).
Definition put_world (w : W) : M unit :=
  fun _ m => (Normal tt, mkMachine w (currentUserId m) (issued m), []).
Definition get_current : M (option string) :=
  fun _ m => (Normal (currentUserId m), m, []).
Definition set_current (c : option string) : M unit :=
  fun _ m => (Normal tt, mkMachine (world m) c (issued m), []).
Definition tell (e : effect) : M unit := fun _ m => (Normal tt, m, [e]).

(** The number of the next [pool.query] of this run, from 0. *)
Definition next_query : M nat := fun _ m => (Normal (issued m), m, []).

(** [await pool.query(...)]: a suspension, then either a rejection (a
    store fault, or a constraint the statement violates: [q] gives
    [None]) that leaves the store as it was, or the statement's rows
    and the store after it. *)
Definition query {A} (q : Z -> W -> option (A * W)) : M A :=
  fun env m =>
    let m' := mkMachine (world m) (currentUserId m) (S (issued m)) in
    if store_fails env (issued m) then (Thrown, m', [Suspend])
    else match q (db_now env) (world m) with
         | Some (a, w') =>
             (Normal a, mkMachine w' (currentUserId m) (S (issued m)), [Suspend])
         | None => (Thrown, m', [Suspend])
         end.

(** [await pool.query(...)] of a statement that leaves its mark on the
    store even when a constraint rejects it. *)
Definition query_marking {A} (q : Z -> W -> option A * W) : M A :=
  fun env m =>
    if store_fails env (issued m)
    then (Thrown, mkMachine (world m) (currentUserId m) (S (issued m)), [Suspend])
    else match q (db_now env) (world m) with
         | (Some a, w') =>
             (Normal a, mkMachine w' (currentUserId m) (S (issued m)), [Suspend])
         | (None, w') =>
             (Thrown, mkMachine w' (currentUserId m) (S (issued m)), [Suspend])
         end.
End Monad.

Arguments effect : clear implicits.
Arguments Machine : clear implicits.
Arguments M : clear implicits.

Declare Scope handler_scope.
Delimit Scope handler_scope with handler.
Notation "x <- c ;; k" := (bind c (fun x => k))
  (at level 61, c at next level, right associativity) : handler_scope.
Notation "c ;;; k" := (bind c (fun _ => k))
  (at level 61, right associativity) : handler_scope.


Local Open Scope handler_scope.

(** ** SQL helpers *)

(** A stable sort: ascending in [key], rows with equal keys in the order
    they came in. *)
Fixpoint insert_by {A} (key : A -> Z) (x : A) (l : list A) : list A :=
  match l with
  | [] => [x]
  | y :: l' => if key x <=? key y then x :: l else y :: insert_by key x l'
  end.

Definition order_by {A} (key : A -> Z) (l : list A) : list A :=
  fold_right (insert_by key) [] l.

(** Ascending in [key]. *)
Definition key_le {A} (key : A -> Z) (x y : A) : Prop := key x <= key y.

(** The rows of a statement before its ORDER BY, if it has one: in the
    order the store finds them, ascending in [rank]. *)
Definition as_found {A} (rank : A -> Z) (rows : list A) : list A :=
  order_by rank rows.

(** [ORDER BY key]: ascending in [key]; rows with equal keys stay as the
    store found them. *)
Definition sorted_by {A} (key : A -> Z) (rank : A -> Z) (rows : list A) : list A :=
  order_by key (as_found rank rows).

(** [SELECT DISTINCT]: each value once. *)
Fixpoint distinct (l : list string) : list string :=
  match l with
  | [] => []
  | x :: l' => x :: filter (fun y => negb (String.eqb y x)) (distinct l')
  end.

Definition mem_str (x : string) (l : list string) : bool :=
  existsb (String.eqb x) l.

(** [rowCount > 0]. *)
Definition some_row {A} (rows : list A) : bool :=
  match rows with
  | [] => false
  | _ :: _ => true
  end.

(** ** The store of the current server *)

(** users(user_id TEXT PRIMARY KEY, nickname TEXT UNIQUE NOT NULL,
          change_timestamps TIMESTAMPTZ[], last_seen TIMESTAMPTZ) *)
Record User := mkUser {
  user_id : string;
  nickname : string;
  change_timestamps : list Z;
  last_seen : Z
}.

(** direct_messages(id SERIAL PRIMARY KEY, sender_id, receiver_id
      REFERENCES users(user_id), message, type, timestamp) *)
Record DirectMessage := mkDirectMessage {
  dm_id : Z;
  dm_sender_id : string;
  dm_receiver_id : string;
  dm_message : string;
  dm_type : string;
  dm_timestamp : Z
}.

Record Db := mkDb {
  users : list User;
  direct_messages : list DirectMessage;
  dm_seq : Z                      (* last value of the id sequence *)
}.

(** A row of the [load_dms] query. *)
Record LoadedDm := mkLoadedDm {
  ld_id : Z;
  ld_message : string;
  ld_type : string;
  ld_timestamp : Z;
  ld_sender_nickname : string;
  ld_receiver_nickname : string
}.

Definition has_id (uid : string) (u : User) : bool := String.eqb (user_id u) uid.
Definition has_nickname (nick : string) (u : User) : bool := String.eqb (nickname u) nick.

(** SELECT * FROM users WHERE user_id = $1 *)
Definition select_user (uid : string) (d : Db) : list User :=
  filter (has_id uid) (users d).

(** SELECT 1 FROM users WHERE nickname = $1 AND user_id != $2 *)
Definition select_nickname_other (nick uid : string) (d : Db) : list User :=
  filter (fun u => has_nickname nick u && negb (has_id uid u)) (users d).

(** SELECT 1 FROM users WHERE nickname = $1
    SELECT user_id FROM users WHERE nickname = $1 *)
Definition select_nickname (nick : string) (d : Db) : list User :=
  filter (has_nickname nick) (users d).

(** The rows of an UPDATE ... WHERE user_id = [uid] that writes [nick]
    hit the UNIQUE index when another user holds [nick]. *)
Definition unique_violation (nick uid : string) (d : Db) : bool :=
  some_row (select_user uid d) && some_row (select_nickname_other nick uid d).

(** SET nickname = [nick], last_seen = [now] *)
Definition connect_row (nick : string) (now : Z) (u : User) : User :=
  mkUser (user_id u) nick (change_timestamps u) now.

(** SET nickname = [nick],
        change_timestamps = array_append(change_timestamps, [now]) *)
Definition rename_row (nick : string) (now : Z) (u : User) : User :=
  mkUser (user_id u) nick (change_timestamps u ++ [now]) (last_seen u).

(** UPDATE users SET ... WHERE user_id = [uid] *)
Definition update_where (uid : string) (set : User -> User) (us : list User)
  : list User :=
  map (fun u => if has_id uid u then set u else u) us.

(** UPDATE users SET nickname = $1, last_seen = NOW() WHERE user_id = $2 *)
Definition update_connect (nick uid : string) (now : Z) (d : Db) : option (unit * Db) :=
  if unique_violation nick uid d then None
  else
    Some (tt, mkDb (update_where uid (connect_row nick now) (users d))
                (direct_messages d) (dm_seq d)).

(** INSERT INTO users(user_id, nickname, last_seen) VALUES($1, $2, NOW())
    RETURNING * *)
Definition insert_user (uid nick : string) (now : Z) (d : Db) : option (list User * Db) :=
  if some_row (select_user uid d) || some_row (select_nickname nick d) then None
  else
    let u := mkUser uid nick [] now in
    Some ([u], mkDb (users d ++ [u]) (direct_messages d) (dm_seq d)).

(** UPDATE users SET nickname = $1,
      change_timestamps = array_append(change_timestamps, NOW())
    WHERE user_id = $2 RETURNING * *)
Definition update_rename (nick uid : string) (now : Z) (d : Db) : option (list User * Db) :=
  if unique_violation nick uid d then None
  else
    let us := update_where uid (rename_row nick now) (users d) in
    Some (filter (has_id uid) us, mkDb us (direct_messages d) (dm_seq d)).

(** SELECT DISTINCT nickname FROM users WHERE user_id IN (
      SELECT receiver_id FROM direct_messages WHERE sender_id = $1
      UNION
      SELECT sender_id FROM direct_messages WHERE receiver_id = $1) *)
Definition select_dm_partners (rank : string -> Z) (uid : string) (d : Db)
  : list string :=
  let sent := map dm_receiver_id
    (filter (fun m => String.eqb (dm_sender_id m) uid) (direct_messages d)) in
  let received := map dm_sender_id
    (filter (fun m => String.eqb (dm_receiver_id m) uid) (direct_messages d)) in
  as_found rank
    (distinct (map nickname
       (filter (fun u => mem_str (user_id u) (sent ++ received)) (users d)))).

(** WHERE (dm.sender_id = $1 AND dm.receiver_id = $2)
       OR (dm.sender_id = $2 AND dm.receiver_id = $1) *)
Definition between (a b : string) (m : DirectMessage) : bool :=
  (String.eqb (dm_sender_id m) a && String.eqb (dm_receiver_id m) b)
  || (String.eqb (dm_sender_id m) b && String.eqb (dm_receiver_id m) a).

(** direct_messages dm JOIN users sender ON dm.sender_id = sender.user_id
                       JOIN users receiver ON dm.receiver_id = receiver.user_id *)
Definition join_users (d : Db) (m : DirectMessage) : list LoadedDm :=
  flat_map (fun sender =>
    map (fun receiver =>
           mkLoadedDm (dm_id m) (dm_message m) (dm_type m) (dm_timestamp m)
             (nickname sender) (nickname receiver))
        (select_user (dm_receiver_id m) d))
    (select_user (dm_sender_id m) d).

(** SELECT dm.id, dm.message, dm.type, dm.timestamp,
           sender.nickname as sender_nickname,
           receiver.nickname as receiver_nickname
    FROM ... WHERE ... ORDER BY timestamp *)
Definition select_thread (rank : Z -> Z) (a b : string) (d : Db) : list LoadedDm :=
  sorted_by ld_timestamp (fun r => rank (ld_id r))
    (flat_map (join_users d) (filter (between a b) (direct_messages d))).

(** INSERT INTO direct_messages(sender_id, receiver_id, message, type)
    VALUES($1, $2, $3, $4) RETURNING id, timestamp
    The id is drawn from the sequence when the row is formed, before the
    foreign keys are checked: a rejected INSERT has used it up. *)
Definition insert_dm (sender receiver msg ty : string) (now : Z) (d : Db)
  : option (list (Z * Z)) * Db :=
  let i := dm_seq d + 1 in
  if some_row (select_user sender d) && some_row (select_user receiver d) then
    (Some [(i, now)],
     mkDb (users d)
          (direct_messages d ++ [mkDirectMessage i sender receiver msg ty now]) i)
  else (None, mkDb (users d) (direct_messages d) i).

(** DELETE FROM direct_messages
    WHERE id = $1 AND (sender_id = $2 OR receiver_id = $2)
    RETURNING sender_id, receiver_id *)
Definition delete_dm_where (mid : Z) (uid : string) (m : DirectMessage) : bool :=
  (dm_id m =? mid)
  && (String.eqb (dm_sender_id m) uid || String.eqb (dm_receiver_id m) uid).

Definition delete_dm_rows (mid : Z) (uid : string) (d : Db)
  : list (string * string) * Db :=
  (map (fun m => (dm_sender_id m, dm_receiver_id m))
       (filter (delete_dm_where mid uid) (direct_messages d)),
   mkDb (users d)
        (filter (fun m => negb (delete_dm_where mid uid m)) (direct_messages d))
        (dm_seq d)).

(** ** The process state of the current server *)

(** An entry of [globalMessages]. *)
Record GlobalMessage := mkGlobalMessage {
  gm_id : Z;                      (* id: Date.now() *)
  gm_senderId : string;
  gm_senderNickname : string;
  gm_message : string;
  gm_type : string;
  gm_timestamp : string           (* new Date().toISOString() *)
}.

(** A value of [onlineUsers]: { nickname, socketId }. *)
Record Presence := mkPresence {
  presence_nickname : string;
  socketId : string
}.

Record Server := mkServer {
  db : Db;
  onlineUsers : list (string * Presence);
  globalMessages : list GlobalMessage
}.

(** The object sent with [new_dm]. *)
Record NewDm := mkNewDm {
  nd_id : Z;
  nd_sender_id : string;
  nd_receiver_id : string;
  nd_sender_nickname : string;
  nd_receiver_nickname : string;
  nd_message : string;
  nd_type : string;
  nd_timestamp : Z
}.

Inductive event :=
| online_users_update (ids : list string)
| load_global_messages (feed : list GlobalMessage)
| force_nickname_update (nick : string)
| nickname_changed (oldNickname newNickname : string)
| new_global_message (messageData : GlobalMessage)
| global_message_deleted (messageId : Z)
| loaded_dms (targetNickname : string) (messages : list LoadedDm)
| dm_send_failed (message : string)
| new_dm (newDM : NewDm)
| dm_deleted (messageId : Z).

(** What a callback receives. *)
Inductive reply :=
| success (user : User)                 (* { success: true, user } *)
| failure (message : string)            (* { success: false, message } *)
| partner_list (nicknames : list string).

Definition Handler : Type := M Server event reply unit.

Definition MSG_NICKNAME_IN_USE : string := "닉네임이 이미 사용 중입니다.".
Definition MSG_CONNECT_ERROR : string := "서버 연결 오류.".
Definition MSG_UNAUTHENTICATED : string := "인증되지 않은 사용자입니다.".
Definition MSG_RATE_LIMITED : string := "일주일에 최대 2번만 변경할 수 있습니다.".
Definition MSG_NICKNAME_TAKEN : string := "이미 사용 중인 닉네임입니다.".
Definition MSG_RENAME_ERROR : string := "닉네임 변경 중 오류가 발생했습니다.".
Definition MSG_NO_RECEIVER : string := "DM 상대방이 존재하지 않습니다.".
Definition MSG_DM_ERROR : string := "DM 전송 중 서버 오류가 발생했습니다.".

(** 7 * 24 * 60 * 60 * 1000 *)
Definition ONE_WEEK_MS : Z := 7 * 24 * 60 * 60 * 1000.

(** A SELECT: never rejected by the store itself, writes nothing. *)
Definition reading {A} (q : Db -> A) : Z -> Server -> option (A * Server) :=
  fun _ s => Some (q (db s), s).

(** A statement that writes, or is rejected by a constraint. *)
Definition writing {A} (q : Z -> Db -> option (A * Db))
  : Z -> Server -> option (A * Server) :=
  fun now s =>
    match q now (db s) with
    | Some (a, d) => Some (a, mkServer d (onlineUsers s) (globalMessages s))
    | None => None
    end.

(** A statement that writes to the tables whether or not it is rejected. *)
Definition marking {A} (q : Z -> Db -> option A * Db)
  : Z -> Server -> option A * Server :=
  fun now s =>
    let '(a, d) := q now (db s) in (a, mkServer d (onlineUsers s) (globalMessages s)).

Definition io_emit (e : event) : Handler := tell (IoEmit e).
Definition socket_emit (e : event) : Handler := tell (SocketEmit e).
Definition to_emit (sid : string) (e : event) : Handler := tell (ToEmit sid e).
Definition callback (r : reply) : Handler := tell (Callback r).
Definition skip : Handler := ret tt.

(** onlineUsers.set(uid, p) *)
Definition online_set (uid : string) (p : Presence) : Handler :=
  s <- get_world ;;
  put_world (mkServer (db s) (map_set uid p (onlineUsers s)) (globalMessages s)) ;;;
  tell (PresenceWrite uid).

(** onlineUsers.delete(uid) *)
Definition online_delete (uid : string) : Handler :=
  s <- get_world ;;
  put_world (mkServer (db s) (map_delete uid (onlineUsers s)) (globalMessages s)) ;;;
  tell (PresenceWrite uid).

(** io.emit('online_users_update', Array.from(onlineUsers.keys())) *)
Definition emit_roster : Handler :=
  s <- get_world ;;
  io_emit (online_users_update (map_keys (onlineUsers s))).

(** [if (!currentUserId) return reject; body]. *)
Definition when_identified (reject : Handler) (body : string -> Handler) : Handler :=
  cur <- get_current ;;
  match cur with
  | Some uid => if truthy_str uid then body uid else reject
  | None => reject
  end.

(** ** The handlers of the current server *)

(** The end of [user_connect], after the user row is settled. *)
Definition enter_session (userId : string) (user : User) : Handler :=
  set_current (Some userId) ;;;
  env <- ask ;;
  online_set userId (mkPresence (nickname user) (socket_id env)) ;;;
  emit_roster ;;;
  callback (success user) ;;;
  s <- get_world ;;
  socket_emit (load_global_messages (globalMessages s)).

Definition user_connect (userId nick : string) : Handler :=
  try_catch
    (userResult <- query (reading (select_user userId)) ;;
     match userResult with
     | user :: _ =>
         effective <-
           (if negb (String.eqb (nickname user) nick) then
              nicknameCheck <-
                query (reading (select_nickname_other nick userId)) ;;
              if some_row nicknameCheck then
                socket_emit (force_nickname_update (nickname user)) ;;;
                ret (nickname user)
              else ret nick
            else ret nick) ;;
         query (writing (update_connect effective userId)) ;;;
         (* user.nickname = nickname, on the row as it was selected *)
         enter_session userId
           (mkUser (user_id user) effective (change_timestamps user) (last_seen user))
     | [] =>
         nicknameCheck <- query (reading (select_nickname nick)) ;;
         if some_row nicknameCheck then callback (failure MSG_NICKNAME_IN_USE)
         else
           newUserResult <- query (writing (insert_user userId nick)) ;;
           match newUserResult with
           | user :: _ => enter_session userId user
           | [] => throw
           end
     end)
    (callback (failure MSG_CONNECT_ERROR)).

Definition get_dm_partners : Handler :=
  when_identified (callback (partner_list []))
    (fun uid =>
       try_catch
         (env <- ask ;;
          k <- next_query ;;
          result <- query (reading (select_dm_partners (nickname_rank env k) uid)) ;;
          callback (partner_list result))
         (callback (partner_list []))).

(** timestamps.filter(ts => new Date(ts) > since) *)
Definition recent_changes (since : Z) (timestamps : list Z) : list Z :=
  filter (fun ts => since <? ts) timestamps.

Definition change_nickname (newNickname : string) : Handler :=
  when_identified (callback (failure MSG_UNAUTHENTICATED))
    (fun uid =>
       try_catch
         (userResult <- query (reading (select_user uid)) ;;
          match userResult with
          | [] => throw
          | row :: _ =>
              let oldNickname := nickname row in
              let timestamps := change_timestamps row in
              env <- ask ;;
              let oneWeekAgo := date_now env - ONE_WEEK_MS in
              let recentChanges := recent_changes oneWeekAgo timestamps in
              if (2 <=? List.length recentChanges)%nat then
                callback (failure MSG_RATE_LIMITED)
              else
                nicknameCheck <-
                  query (reading (select_nickname_other newNickname uid)) ;;
                if some_row nicknameCheck then
                  callback (failure MSG_NICKNAME_TAKEN)
                else
                  updateResult <-
                    query (writing (update_rename newNickname uid)) ;;
                  match updateResult with
                  | [] => throw
                  | updatedUser :: _ =>
                      online_set uid
                        (mkPresence (nickname updatedUser) (socket_id env)) ;;;
                      io_emit (nickname_changed oldNickname newNickname) ;;;
                      emit_roster ;;;
                      callback (success updatedUser)
                  end
          end)
         (callback (failure MSG_RENAME_ERROR))).

(** The payload of [global_message]. *)
Record GlobalPayload := mkGlobalPayload {
  data_message : string;
  data_type : option string
}.

(** globalMessages.push(m); if (globalMessages.length > 100) globalMessages.shift() *)
Definition push_capped (feed : list GlobalMessage) (m : GlobalMessage)
  : list GlobalMessage :=
  let pushed := feed ++ [m] in
  if (100 <? List.length pushed)%nat then tl pushed else pushed.

Definition global_message (data : GlobalPayload) : Handler :=
  when_identified skip
    (fun uid =>
       s <- get_world ;;
       match map_get uid (onlineUsers s) with
       | None => skip
       | Some senderInfo =>
           env <- ask ;;
           let messageData :=
             mkGlobalMessage (date_now env) uid (presence_nickname senderInfo)
               (data_message data) (or_text (data_type data)) (date_iso env) in
           put_world
             (mkServer (db s) (onlineUsers s)
                (push_capped (globalMessages s) messageData)) ;;;
           io_emit (new_global_message messageData)
       end).

(** globalMessages.filter(msg => msg.id !== messageId) *)
Definition without_id (messageId : Z) (feed : list GlobalMessage)
  : list GlobalMessage :=
  filter (fun msg => negb (gm_id msg =? messageId)) feed.

Definition delete_global_message (messageId : Z) (senderId : js_id) : Handler :=
  cur <- get_current ;;
  if strict_eq cur senderId then
    s <- get_world ;;
    let initialLength := List.length (globalMessages s) in
    let kept := without_id messageId (globalMessages s) in
    put_world (mkServer (db s) (onlineUsers s) kept) ;;;
    if (List.length kept <? initialLength)%nat
    then io_emit (global_message_deleted messageId)
    else skip
  else skip.

Definition load_dms (targetNickname : string) : Handler :=
  when_identified skip
    (fun uid =>
       try_catch
         (targetUserResult <- query (reading (select_nickname targetNickname)) ;;
          match targetUserResult with
          | [] => socket_emit (loaded_dms targetNickname [])
          | target :: _ =>
              env <- ask ;;
              k <- next_query ;;
              result <-
                query (reading (select_thread (dm_rank env k) uid (user_id target))) ;;
              socket_emit (loaded_dms targetNickname result)
          end)
         skip).

Definition send_dm (receiverNickname message : string) (type : option string)
  : Handler :=
  when_identified skip
    (fun uid =>
       try_catch
         (receiverResult <- query (reading (select_nickname receiverNickname)) ;;
          match receiverResult with
          | [] => socket_emit (dm_send_failed MSG_NO_RECEIVER)
          | receiver :: _ =>
              let receiverId := user_id receiver in
              result <-
                query_marking
                  (marking (insert_dm uid receiverId message (or_text type))) ;;
              match result with
              | [] => throw
              | (id, timestamp) :: _ =>
                  s <- get_world ;;
                  match map_get uid (onlineUsers s) with
                  | None => throw        (* senderInfo.nickname of undefined *)
                  | Some senderInfo =>
                      let newDM :=
                        mkNewDm id uid receiverId (presence_nickname senderInfo)
                          receiverNickname message (or_text type) timestamp in
                      socket_emit (new_dm newDM) ;;;
                      match find (fun e => String.eqb (presence_nickname (snd e))
                                             receiverNickname)
                                 (onlineUsers s) with
                      | Some (_, info) =>
                          if truthy_str (socketId info)
                          then to_emit (socketId info) (new_dm newDM)
                          else skip
                      | None => skip
                      end
                  end
              end
          end)
         (socket_emit (dm_send_failed MSG_DM_ERROR))).

Definition delete_dm (messageId : Z) : Handler :=
  when_identified skip
    (fun uid =>
       try_catch
         (result <-
            query (writing (fun _ d => Some (delete_dm_rows messageId uid d))) ;;
          match result with
          | [] => skip
          | (sender_id, receiver_id) :: _ =>
              s <- get_world ;;
              (match map_get sender_id (onlineUsers s) with
               | Some senderInfo =>
                   to_emit (socketId senderInfo) (dm_deleted messageId)
               | None => skip
               end) ;;;
              (match map_get receiver_id (onlineUsers s) with
               | Some receiverInfo =>
                   if negb (String.eqb receiver_id sender_id)
                   then to_emit (socketId receiverInfo) (dm_deleted messageId)
                   else skip
               | None => skip
               end)
          end)
         skip).

Definition disconnect : Handler :=
  when_identified skip (fun uid => online_delete uid ;;; emit_roster).

(** The events a socket can receive. *)
Inductive request :=
| UserConnect (userId nick : string)
| GetDmPartners
| ChangeNickname (newNickname : string)
| GlobalMessageReq (data : GlobalPayload)
| DeleteGlobalMessage (messageId : Z) (senderId : js_id)
| LoadDms (targetNickname : string)
| SendDm (receiverNickname message : string) (type : option string)
| DeleteDm (messageId : Z)
| Disconnect.

Definition handle (r : request) : Handler :=
  match r with
  | UserConnect userId nick => user_connect userId nick
  | GetDmPartners => get_dm_partners
  | ChangeNickname newNickname => change_nickname newNickname
  | GlobalMessageReq data => global_message data
  | DeleteGlobalMessage messageId senderId => delete_global_message messageId senderId
  | LoadDms targetNickname => load_dms targetNickname
  | SendDm receiverNickname message type => send_dm receiverNickname message type
  | DeleteDm messageId => delete_dm messageId
  | Disconnect => disconnect
  end.

(** One handler run on a socket whose [currentUserId] is [cur]. *)
Record Result := mkResult {
  server_after : Server;
  current_after : option string;
  trace : list (effect event reply)
}.

Definition run (h : Handler) (env : Env) (cur : option string) (s : Server) : Result :=
  let '(_, m, t) := h env (mkMachine s cur 0%nat) in
  mkResult (world m) (currentUserId m) t.

(** ** The user-registry draft *)

Module Registry.

(** users(user_id TEXT PRIMARY KEY, nickname TEXT UNIQUE NOT NULL,
          previous_nickname TEXT, change_timestamps TIMESTAMPTZ[]) *)
Record User := mkUser {
  user_id : string;
  nickname : string;
  previous_nickname : option string;
  change_timestamps : list Z
}.

(** The store is the [users] table. *)
Definition Db : Type := list User.

(** The payload of 'chat message'. *)
Record ChatMessage := mkChatMessage {
  nick : string;
  text : string;
  timestamp : string
}.

Inductive event :=
| user_renamed (oldNick newNick : string)
| chat_message (msg : ChatMessage).

Inductive reply :=
| success (user : option User)       (* { success: true, user } *)
| failure (message : string)         (* { success: false, message } *)
| needs_setup.                       (* { success: false, needsSetup: true } *)

Definition Handler : Type := M Db event reply unit.

Definition MSG_NO_ID : string := "사용자 ID가 없습니다.".
Definition MSG_LOAD_ERROR : string := "사용자 정보 로드 중 오류가 발생했습니다.".
Definition MSG_ID_OR_NICKNAME : string := "ID 또는 닉네임이 필요합니다.".
Definition MSG_SETUP_TAKEN (n : string) : string :=
  String.append "닉네임 '"
    (String.append n "'은(는) 이미 사용 중입니다. 다른 닉네임을 입력해주세요.").
Definition MSG_SETUP_ERROR : string := "닉네임 설정 중 오류가 발생했습니다.".
Definition MSG_ID_OR_NEW_NICKNAME : string := "ID 또는 새 닉네임이 필요합니다.".
Definition MSG_BAD_REQUEST : string := "잘못된 요청입니다.".
Definition MSG_USER_NOT_FOUND : string := "사용자를 찾을 수 없습니다.".
Definition MSG_SAME_NICKNAME : string := "현재 닉네임과 동일합니다.".
Definition MSG_RATE_LIMITED : string := "닉네임은 2주에 최대 2번만 변경할 수 있습니다.".
Definition MSG_NICKNAME_TAKEN (n : string) : string :=
  String.append "닉네임 '" (String.append n "'은(는) 이미 사용 중입니다.").
Definition MSG_RENAME_ERROR : string := "닉네임 변경 중 오류가 발생했습니다.".

(** 14 * 24 * 60 * 60 * 1000 *)
Definition TWO_WEEKS_MS : Z := 14 * 24 * 60 * 60 * 1000.

Definition has_id (uid : string) (u : User) : bool := String.eqb (user_id u) uid.
Definition has_nickname (n : string) (u : User) : bool := String.eqb (nickname u) n.

Definition select_user (uid : string) (d : Db) : list User := filter (has_id uid) d.
Definition select_nickname (n : string) (d : Db) : list User :=
  filter (has_nickname n) d.
Definition select_nickname_other (n uid : string) (d : Db) : list User :=
  filter (fun u => has_nickname n u && negb (has_id uid u)) d.

Definition reading {A} (q : Db -> A) : Z -> Db -> option (A * Db) :=
  fun _ d => Some (q d, d).

(** INSERT INTO users (user_id, nickname) VALUES ($1, $2) RETURNING ... *)
Definition insert_user (uid n : string) (now : Z) (d : Db) : option (list User * Db) :=
  if some_row (select_user uid d) || some_row (select_nickname n d) then None
  else let u := mkUser uid n None [] in Some ([u], d ++ [u]).

(** UPDATE users SET nickname = $1, previous_nickname = $2,
      change_timestamps = array_append(change_timestamps, NOW())
    WHERE user_id = $3 RETURNING ... *)
Definition update_rename (n previous uid : string) (now : Z) (d : Db)
  : option (list User * Db) :=
  if some_row (select_user uid d) && some_row (select_nickname_other n uid d)
  then None
  else
    let set u :=
      if has_id uid u
      then mkUser (user_id u) n (Some previous) (change_timestamps u ++ [now])
      else u in
    let us := map set d in
    Some (filter (has_id uid) us, us).

Definition callback (r : reply) : Handler := tell (Callback r).

Definition request_user_data (userId : string) : Handler :=
  try_catch
    (if negb (truthy_str userId) then callback (failure MSG_NO_ID)
     else
       userResult <- query (reading (select_user userId)) ;;
       match userResult with
       | user :: _ =>
           set_current (Some userId) ;;;
           callback (success (Some user))
       | [] => callback needs_setup
       end)
    (callback (failure MSG_LOAD_ERROR)).

Definition setup_nickname (userId n : string) : Handler :=
  try_catch
    (if negb (truthy_str userId) || negb (truthy_str n)
     then callback (failure MSG_ID_OR_NICKNAME)
     else
       existingUser <- query (reading (select_user userId)) ;;
       if some_row existingUser then
         userResult <- query (reading (select_user userId)) ;;
         set_current (Some userId) ;;;
         callback (success (hd_error userResult))
       else
         nicknameCheck <- query (reading (select_nickname n)) ;;
         if some_row nicknameCheck then callback (failure (MSG_SETUP_TAKEN n))
         else
           newUserResult <- query (insert_user userId n) ;;
           set_current (Some userId) ;;;
           callback (success (hd_error newUserResult)))
    (callback (failure MSG_SETUP_ERROR)).

(** [userId !== currentUserId], [userId] a string. *)
Definition differs (userId : string) (cur : option string) : bool :=
  match cur with
  | Some c => negb (String.eqb userId c)
  | None => true
  end.

Definition change_nickname (userId newNickname : string) : Handler :=
  try_catch
    (if negb (truthy_str userId) || negb (truthy_str newNickname)
     then callback (failure MSG_ID_OR_NEW_NICKNAME)
     else
       cur <- get_current ;;
       if differs userId cur then callback (failure MSG_BAD_REQUEST)
       else
         userResult <- query (reading (select_user userId)) ;;
         match userResult with
         | [] => callback (failure MSG_USER_NOT_FOUND)
         | currentUserData :: _ =>
             let currentNickname := nickname currentUserData in
             let timestamps := change_timestamps currentUserData in
             if String.eqb currentNickname newNickname
             then callback (failure MSG_SAME_NICKNAME)
             else
               env <- ask ;;
               let twoWeeksAgo := date_now env - TWO_WEEKS_MS in
               let recentChanges := recent_changes twoWeeksAgo timestamps in
               if (2 <=? List.length recentChanges)%nat
               then callback (failure MSG_RATE_LIMITED)
               else
                 nicknameCheck <-
                   query (reading (select_nickname_other newNickname userId)) ;;
                 if some_row nicknameCheck
                 then callback (failure (MSG_NICKNAME_TAKEN newNickname))
                 else
                   updateResult <-
                     query (update_rename newNickname currentNickname userId) ;;
                   callback (success (hd_error updateResult)) ;;;
                   tell (IoEmit (user_renamed currentNickname newNickname))
         end)
    (callback (failure MSG_RENAME_ERROR)).

(** socket.on('chat message', ...): [msg] may be [null]. *)
Definition chat (msg : option ChatMessage) : Handler :=
  cur <- get_current ;;
  match msg with
  | Some m =>
      if truthy_str (nick m) && truthy_str (text m) && truthy_str (timestamp m)
         && truthy cur
      then tell (IoEmit (chat_message m))
      else ret tt
  | None => ret tt
  end.

Definition disconnect : Handler := set_current None.

Record Result := mkResult {
  db_after : Db;
  current_after : option string;
  trace : list (effect event reply)
}.

Definition run (h : Handler) (env : Env) (cur : option string) (d : Db) : Result :=
  let '(_, m, t) := h env (mkMachine d cur 0%nat) in
  mkResult (world m) (currentUserId m) t.

End Registry.

(** ** The first draft (src/server.js): feed and DM thread *)

Module Legacy.

Record GlobalMessage := mkGlobalMessage {
  id : Z;
  sender : option string;              (* data.sender, as sent *)
  message : string;
  type : string;
  timestamp : string
}.

(** direct_messages(id SERIAL PRIMARY KEY, sender TEXT, receiver TEXT,
      message TEXT, type TEXT, timestamp TIMESTAMPTZ) *)
Record DirectMessage := mkDirectMessage {
  dm_id : Z;
  dm_sender : string;
  dm_receiver : string;
  dm_message : string;
  dm_type : string;
  dm_timestamp : Z
}.

Record Server := mkServer {
  direct_messages : list DirectMessage;
  globalMessages : list GlobalMessage
}.

Inductive event :=
| load_global_messages (feed : list GlobalMessage)
| new_global_message (messageData : GlobalMessage)
| global_message_deleted (messageId : Z)
| loaded_dms (targetNickname : string) (allDMs : list DirectMessage).

(** No handler of these takes a callback. *)
Definition Handler : Type := M Server event Empty_set unit.

Record GlobalPayload := mkGlobalPayload {
  data_sender : option string;
  data_message : string;
  data_type : option string
}.

(** [currentNickname] is the socket's variable, [undefined] at first. *)
Definition set_nickname (n : string) : Handler :=
  set_current (Some n) ;;;
  s <- get_world ;;
  tell (SocketEmit (load_global_messages (globalMessages s))).

Definition global_message (data : GlobalPayload) : Handler :=
  env <- ask ;;
  s <- get_world ;;
  let messageData :=
    mkGlobalMessage (date_now env) (data_sender data) (data_message data)
      (or_text (data_type data)) (date_iso env) in
  put_world (mkServer (direct_messages s) (globalMessages s ++ [messageData])) ;;;
  tell (IoEmit (new_global_message messageData)).

Definition delete_global_message (messageId : Z) : Handler :=
  s <- get_world ;;
  let initialLength := List.length (globalMessages s) in
  let kept := filter (fun msg => negb (id msg =? messageId)) (globalMessages s) in
  put_world (mkServer (direct_messages s) kept) ;;;
  if (List.length kept <? initialLength)%nat
  then tell (IoEmit (global_message_deleted messageId))
  else ret tt.

(** SELECT * FROM direct_messages WHERE sender = $1 AND receiver = $2
    ORDER BY timestamp *)
Definition select_sent (rank : Z -> Z) (a b : string) (s : Server)
  : list DirectMessage :=
  sorted_by dm_timestamp (fun m => rank (dm_id m))
    (filter (fun m => String.eqb (dm_sender m) a && String.eqb (dm_receiver m) b)
       (direct_messages s)).

Definition reading {A} (q : Server -> A) : Z -> Server -> option (A * Server) :=
  fun _ s => Some (q s, s).

(** [allDMs.sort((a, b) => new Date(a.timestamp) - new Date(b.timestamp))]:
    Array.prototype.sort is stable. *)
Definition load_dms (targetNickname : string) : Handler :=
  cur <- get_current ;;
  if negb (truthy cur) || negb (truthy_str targetNickname) then ret tt
  else
    match cur with
    | None => ret tt
    | Some currentNickname =>
        try_catch
          (env <- ask ;;
           k1 <- next_query ;;
           sentDMs <-
             query (reading (select_sent (dm_rank env k1) currentNickname targetNickname)) ;;
           k2 <- next_query ;;
           receivedDMs <-
             query (reading (select_sent (dm_rank env k2) targetNickname currentNickname)) ;;
           let allDMs := order_by dm_timestamp (sentDMs ++ receivedDMs) in
           tell (SocketEmit (loaded_dms targetNickname allDMs)))
          (ret tt)
    end.

Definition run (h : Handler) (env : Env) (cur : option string) (s : Server)
  : Server * list (effect event Empty_set) :=
  let '(_, m, t) := h env (mkMachine s cur 0%nat) in (world m, t).

End Legacy.

(** ** Runs of several events *)

(** An event arriving on some socket: what that socket's handler reads,
    the socket's [currentUserId], and the event. *)
Record Step := mkStep {
  step_env : Env;
  step_current : option string;
  step_request : request
}.

(** The events are handled one after the other; the traces are joined. *)
Fixpoint run_all (steps : list Step) (s : Server)
  : Server * list (effect event reply) :=
  match steps with
  | [] => (s, [])
  | st :: rest =>
      let r := run (handle (step_request st)) (step_env st) (step_current st) s in
      let '(s', t) := run_all rest (server_after r) in
      (s', trace r ++ t)
  end.

(** The messages broadcast with [new_global_message], in order. *)
Fixpoint appended (t : list (effect event reply)) : list GlobalMessage :=
  match t with
  | [] => []
  | IoEmit (new_global_message m) :: t' => m :: appended t'
  | _ :: t' => appended t'
  end.

Definition is_global_message (st : Step) : bool :=
  match step_request st with
  | GlobalMessageReq _ => true
  | _ => false
  end.

(** The message-bearing operations: every event but the one that
    establishes the identity and the disconnect. *)
Definition message_bearing (r : request) : bool :=
  match r with
  | UserConnect _ _ | Disconnect => false
  | _ => true
  end.

(** [delete_global_message] with [senderId: null] in the payload. *)
Definition null_sender (r : request) : bool :=
  match r with
  | DeleteGlobalMessage _ js_null => true
  | _ => false
  end.

(** What a socket without identity gets back. *)
Definition anonymous_answer (r : request) : list (effect event reply) :=
  match r with
  | ChangeNickname _ => [Callback (failure MSG_UNAUTHENTICATED)]
  | GetDmPartners => [Callback (partner_list [])]
  | _ => []
  end.

(** ** The state after a rename and after a connect *)

(** The server after a rename of [uid] to [n] on socket [sid] at store
    time [now]. *)
Definition renamed_server (uid n sid : string) (now : Z) (s : Server) : Server :=
  mkServer
    (mkDb (update_where uid (rename_row n now) (users (db s)))
       (direct_messages (db s)) (dm_seq (db s)))
    (map_set uid (mkPresence n sid) (onlineUsers s))
    (globalMessages s).

(** The server after [uid] connected on socket [sid] under [nick]. *)
Definition connected_server (uid nick sid : string) (now : Z) (s : Server) : Server :=
  mkServer
    (mkDb (update_where uid (connect_row nick now) (users (db s)))
       (direct_messages (db s)) (dm_seq (db s)))
    (map_set uid (mkPresence nick sid) (onlineUsers s))
    (globalMessages s).

(** [user_connect] for a known user: the requested nickname differs from
    the stored one and another user holds it. *)
Definition nickname_collides (nick uid stored : string) (d : Db) : bool :=
  negb (String.eqb stored nick) && some_row (select_nickname_other nick uid d).

(** ** The constraints of the tables, as tests *)

(** The UNIQUE constraint on users.nickname. *)
Fixpoint no_duplicates (l : list string) : bool :=
  match l with
  | [] => true
  | x :: l' => negb (mem_str x l') && no_duplicates l'
  end.

Definition unique_nicknames (d : Db) : bool := no_duplicates (map nickname (users d)).

(** The primary key of [users] and the foreign keys of
    [direct_messages]: the sender and the receiver of every message are
    one row each. *)
Definition one_row {A} (rows : list A) : bool :=
  match rows with
  | [_] => true
  | _ => false
  end.

Definition resolves (d : Db) (m : DirectMessage) : bool :=
  one_row (select_user (dm_sender_id m) d) && one_row (select_user (dm_receiver_id m) d).

Definition references_resolve (d : Db) : bool :=
  forallb (resolves d) (direct_messages d).

(** The PRIMARY KEY of users. *)
Definition unique_ids (d : Db) : bool := no_duplicates (map user_id (users d)).

(** All the constraints of the two tables. *)
Definition consistent (d : Db) : bool :=
  unique_ids d && unique_nicknames d && references_resolve d.

(** ** Threads of direct messages *)

(** The nickname the table holds for [uid] now. *)
Definition nickname_of (uid : string) (d : Db) : string :=
  match select_user uid d with
  | u :: _ => nickname u
  | [] => ""
  end.

(** The messages between [a] and [b], oldest first, those of one
    timestamp as the store finds them. *)
Definition thread_between (rank : Z -> Z) (a b : string) (d : Db)
  : list DirectMessage :=
  sorted_by dm_timestamp (fun m => rank (dm_id m))
    (filter (between a b) (direct_messages d)).

(** A message with both nicknames as the table holds them now. *)
Definition loaded_row (d : Db) (m : DirectMessage) : LoadedDm :=
  mkLoadedDm (dm_id m) (dm_message m) (dm_type m) (dm_timestamp m)
    (nickname_of (dm_sender_id m) d) (nickname_of (dm_receiver_id m) d).

(** [me] and [other] have exchanged a direct message, in either direction. *)
Definition exchanged (me other : string) (d : Db) : bool :=
  existsb (between me other) (direct_messages d).

(** ** Sample states *)

(** No store fault. *)
Definition quiet (k : nat) : bool := false.

(** A store that finds its rows in the order they were written ... *)
Definition as_written (id : Z) : Z := id.
Definition in_table_order (n : string) : Z := 0.


(** The same order at every statement of a run. *)
Definition always {A} (rank : A -> Z) (k : nat) : A -> Z := rank.

Definition alice : User := mkUser "u1" "alice" [] 0.
Definition bob : User := mkUser "u2" "bob" [] 0.

(** carol ("u3") renamed twice already, at 1000 and at 2000. *)
Definition carol : User := mkUser "u3" "carol" [1000; 2000] 0.

Definition hi_from_alice : GlobalMessage :=
  mkGlobalMessage 1000 "u1" "alice" "hi" "text" "1970-01-01T00:00:01.000Z".

(** alice (socket-1) and bob (socket-2) are connected; alice has posted. *)
Definition sample_db : Db := mkDb [alice; bob] [] 0.

Definition sample_online : list (string * Presence) :=
  [("u1", mkPresence "alice" "socket-1"); ("u2", mkPresence "bob" "socket-2")].

Definition sample_server : Server := mkServer sample_db sample_online [hi_from_alice].

(** bob's socket at 2000. *)
Definition sample_env : Env :=
  mkEnv "socket-2" 2000 "1970-01-01T00:00:02.000Z" 2001 quiet
    (always as_written) (always in_table_order).

(** alice's socket at 3000, at 4000 and at 5000. *)
Definition alice_env : Env :=
  mkEnv "socket-1" 3000 "1970-01-01T00:00:03.000Z" 3001 quiet
    (always as_written) (always in_table_order).
Definition alice_env_4 : Env :=
  mkEnv "socket-1" 4000 "1970-01-01T00:00:04.000Z" 4001 quiet
    (always as_written) (always in_table_order).
Definition alice_env_5 : Env :=
  mkEnv "socket-1" 5000 "1970-01-01T00:00:05.000Z" 5001 quiet
    (always as_written) (always in_table_order).

(** alice's socket one week and a millisecond after 3001: her rename of
    3001 has left the window, the one of 4001 has not. *)
Definition alice_env_next_week : Env :=
  mkEnv "socket-1" (3001 + ONE_WEEK_MS) "1970-01-08T00:00:03.001Z"
    (3002 + ONE_WEEK_MS) quiet (always as_written) (always in_table_order).

(** alice's socket at 3000, every store round trip failing. *)
Definition store_down_env : Env :=
  mkEnv "socket-1" 3000 "1970-01-01T00:00:03.000Z" 3001 (fun _ => true)
    (always as_written) (always in_table_order).

(** bob's phone: a second socket of bob, at 6000. *)
Definition bob_env : Env :=
  mkEnv "socket-4" 6000 "1970-01-01T00:00:06.000Z" 6001 quiet
    (always as_written) (always in_table_order).

(** alice posts for the [i]-th time, at millisecond [i]. *)
Definition post_at (i : nat) : Step :=
  mkStep (mkEnv "socket-1" (Z.of_nat i) "1970-01-01T00:00:00.000Z" 0 quiet
            (always as_written) (always in_table_order))
    (Some "u1") (GlobalMessageReq (mkGlobalPayload "hi" None)).

Definition posts_101 : list Step := map post_at (seq 1 101).

Definition carol_server : Server :=
  mkServer (mkDb [alice; bob; carol] [] 0)
    [("u3", mkPresence "carol" "socket-3")] [].

(** carol's socket at 3000, and exactly one week after her second rename. *)
Definition carol_env_soon : Env :=
  mkEnv "socket-3" 3000 "1970-01-01T00:00:03.000Z" 3001 quiet
    (always as_written) (always in_table_order).
Definition carol_env_later : Env :=
  mkEnv "socket-3" (2000 + ONE_WEEK_MS) "1970-01-08T00:00:02.000Z"
    (2001 + ONE_WEEK_MS) quiet (always as_written) (always in_table_order).

(** carol's socket exactly one week after her first rename: the second
    is still inside the window. *)
Definition carol_env_between : Env :=
  mkEnv "socket-3" (1000 + ONE_WEEK_MS) "1970-01-08T00:00:01.000Z"
    (1001 + ONE_WEEK_MS) quiet (always as_written) (always in_table_order).

(** alice and bob wrote to each other in the same millisecond; a third
    message carries an earlier timestamp. *)
Definition tie_db : Db :=
  mkDb [alice; bob]
    [mkDirectMessage 1 "u1" "u2" "hey" "text" 500;
     mkDirectMessage 2 "u2" "u1" "hey yourself" "text" 500;
     mkDirectMessage 3 "u1" "u2" "earlier?" "text" 400] 3.

Definition tie_server : Server := mkServer tie_db sample_online [].



(** The same two messages in the table of the first draft. *)
Definition legacy_tie_server : Legacy.Server :=
  Legacy.mkServer
    [Legacy.mkDirectMessage 1 "alice" "bob" "hey" "text" 500;
     Legacy.mkDirectMessage 2 "bob" "alice" "hey yourself" "text" 500] [].

(** alice and bob have a thread, alice has posted to the feed ... *)
Definition chatty_server : Server := mkServer tie_db sample_online [hi_from_alice].

(** ... and then alice renamed herself to alicia. *)
Definition renamed_chatty_server : Server :=
  server_after (run (change_nickname "alicia") alice_env (Some "u1") chatty_server).

(** Where [delete_dm] sends [dm_deleted] for a party of the message. *)
Definition notify_deleted (online : list (string * Presence)) (v : string) (messageId : Z)
  : list (effect event reply) :=
  match map_get v online with
  | Some info => [ToEmit (socketId info) (dm_deleted messageId)]
  | None => []
  end.

(** The SERIAL column: every id in the table came from the sequence. *)
Definition ids_from_sequence (d : Db) : bool :=
  forallb (fun m => dm_id m <=? dm_seq d) (direct_messages d).

(** Which events have a handler that writes to what. *)
Definition writes_users (r : request) : bool :=
  match r with
  | UserConnect _ _ | ChangeNickname _ => true
  | _ => false
  end.

Definition writes_direct_messages (r : request) : bool :=
  match r with
  | SendDm _ _ _ | DeleteDm _ => true
  | _ => false
  end.

Definition writes_presence (r : request) : bool :=
  match r with
  | UserConnect _ _ | ChangeNickname _ | Disconnect => true
  | _ => false
  end.

Definition writes_feed (r : request) : bool :=
  match r with
  | GlobalMessageReq _ | DeleteGlobalMessage _ _ => true
  | _ => false
  end.

(** ** More sample states *)

(** carol connects for the first time, writes to bob, renames herself,
    and bob deletes what she wrote. *)
Definition busy_steps : list Step :=
  [mkStep carol_env_soon None (UserConnect "u3" "carol");
   mkStep carol_env_soon (Some "u3") (SendDm "bob" "hello bob" None);
   mkStep carol_env_soon (Some "u3") (ChangeNickname "caroline");
   mkStep sample_env (Some "u2") (DeleteDm 1);
   mkStep carol_env_soon (Some "u3") Disconnect].

(** ** Sample states of the drafts *)

Definition registry_alice : Registry.User := Registry.mkUser "u1" "alice" None [].
Definition registry_bob : Registry.User := Registry.mkUser "u2" "bob" None [].
Definition registry_db : Registry.Db := [registry_alice; registry_bob].

(** A [global_message] arriving at the first draft: what the handler
    reads, the socket's [currentNickname], the payload. *)
Record LegacyPost := mkLegacyPost {
  post_env : Env;
  post_nickname : option string;
  post_data : Legacy.GlobalPayload
}.

(** The posts handled one after the other. *)
Definition legacy_posts (posts : list LegacyPost) (s : Legacy.Server) : Legacy.Server :=
  fold_left
    (fun s p => fst (Legacy.run (Legacy.global_message (post_data p)) (post_env p)
                       (post_nickname p) s))
    posts s.

(** The message the first draft stores for a post. *)
Definition legacy_message (p : LegacyPost) : Legacy.GlobalMessage :=
  Legacy.mkGlobalMessage (date_now (post_env p)) (Legacy.data_sender (post_data p))
    (Legacy.data_message (post_data p)) (or_text (Legacy.data_type (post_data p)))
    (date_iso (post_env p)).

(** alice wrote a note to herself. *)
Definition legacy_self_server : Legacy.Server :=
  Legacy.mkServer [Legacy.mkDirectMessage 1 "alice" "alice" "remember" "text" 100] [].

(** ** The first draft (src/server.js): sending and deleting direct messages *)

Module LegacyDm.

(** The table with the sequence of its SERIAL id. *)
Record Store := mkStore {
  table : list Legacy.DirectMessage;
  seq : Z
}.

Inductive event :=
| new_dm (newDM : Legacy.DirectMessage)
| dm_deleted (messageId : Z).

Definition Handler : Type := M Store event Empty_set unit.

(** The payload of [send_dm]. *)
Record DmPayload := mkDmPayload {
  receiver : string;
  message : string;
  type : option string
}.

(** INSERT INTO direct_messages(sender, receiver, message, type)
    VALUES($1, $2, $3, $4) RETURNING *
    The columns are plain TEXT: no constraint rejects the row. *)
Definition insert_dm (sender rcv msg ty : string) (now : Z) (d : Store)
  : option (list Legacy.DirectMessage * Store) :=
  let row := Legacy.mkDirectMessage (seq d + 1) sender rcv msg ty now in
  Some ([row], mkStore (table d ++ [row]) (seq d + 1)).

(** [connectedSocket.currentNickname]: [currentNickname] is a variable of
    the connection callback; no statement gives a socket object a
    property of that name. *)
Definition socket_currentNickname (sid : string) : js_id := js_undefined.

(** [connectedSocket.currentNickname === data.receiver], the receiver a
    string. *)
Definition names_receiver (sid rcv : string) : bool :=
  match socket_currentNickname sid with
  | js_str n => String.eqb n rcv
  | _ => false
  end.

(** for (const [id, connectedSocket] of io.of("/").sockets) ... *)
Fixpoint push_to_receiver (sockets : list string) (rcv : string)
  (newDM : Legacy.DirectMessage) : Handler :=
  match sockets with
  | [] => ret tt
  | sid :: rest =>
      (if names_receiver sid rcv then tell (ToEmit sid (new_dm newDM)) else ret tt) ;;;
      push_to_receiver rest rcv newDM
  end.

(** [sockets]: the ids of the connected sockets, io.of("/").sockets. *)
Definition send_dm (sockets : list string) (data : DmPayload) : Handler :=
  cur <- get_current ;;
  match cur with
  | None => ret tt
  | Some currentNickname =>
      if negb (truthy_str currentNickname) || negb (truthy_str (receiver data))
         || negb (truthy_str (message data))
      then ret tt
      else
        try_catch
          (result <-
             query (insert_dm currentNickname (receiver data) (message data)
                      (or_text (type data))) ;;
           match result with
           | [] => ret tt          (* newDM undefined: emitted as it is *)
           | newDM :: _ =>
               env <- ask ;;
               tell (ToEmit (socket_id env) (new_dm newDM)) ;;;
               push_to_receiver sockets (receiver data) newDM
           end)
          (ret tt)
  end.

(** WHERE id = $1 AND (sender = $2 OR receiver = $2); an [undefined]
    parameter is sent as NULL, which equals nothing. *)
Definition delete_where (messageId : Z) (cur : option string)
  (m : Legacy.DirectMessage) : bool :=
  match cur with
  | Some n =>
      (Legacy.dm_id m =? messageId)
      && (String.eqb (Legacy.dm_sender m) n || String.eqb (Legacy.dm_receiver m) n)
  | None => false
  end.

(** DELETE FROM direct_messages WHERE ... RETURNING id *)
Definition delete_rows (messageId : Z) (cur : option string) (now : Z) (d : Store)
  : option (list Z * Store) :=
  Some (map Legacy.dm_id (filter (delete_where messageId cur) (table d)),
        mkStore (filter (fun m => negb (delete_where messageId cur m)) (table d)) (seq d)).

Definition delete_dm (messageId : Z) : Handler :=
  cur <- get_current ;;
  try_catch
    (result <- query (delete_rows messageId cur) ;;
     if some_row result then tell (IoEmit (dm_deleted messageId)) else ret tt)
    (ret tt).

Definition run (h : Handler) (env : Env) (cur : option string) (d : Store)
  : Store * list (effect event Empty_set) :=
  let '(_, m, t) := h env (mkMachine d cur 0%nat) in (world m, t).

End LegacyDm.

Definition legacy_dm_store : LegacyDm.Store :=
  LegacyDm.mkStore
    [Legacy.mkDirectMessage 1 "alice" "bob" "hey" "text" 500;
     Legacy.mkDirectMessage 2 "bob" "alice" "hey yourself" "text" 500] 2.

(** * Properties *)

(** ** Lists, [ORDER BY], JavaScript maps *)

Section OrderBy.
Context {A : Type} (key : A -> Z).

Lemma insert_by_perm (x : A) (l : list A) :
  Permutation (insert_by key x l) (x :: l).
Proof.
  induction l as [|y l IH]; simpl.
  - apply Permutation_refl.
  - destruct (key x <=? key y).
    + apply Permutation_refl.
    + eapply perm_trans; [apply perm_skip, IH | apply perm_swap].
Qed.

Lemma order_by_perm (l : list A) : Permutation (order_by key l) l.
Proof.
  induction l as [|x l IH]; simpl.
  - constructor.
  - eapply perm_trans; [apply insert_by_perm | apply perm_skip, IH].
Qed.

Lemma order_by_In (l : list A) (x : A) : In x (order_by key l) <-> In x l.
Proof.
  split; apply Permutation_in;
    [apply order_by_perm | apply Permutation_sym, order_by_perm].
Qed.

Lemma insert_by_sorted (x : A) (l : list A) :
  Sorted (key_le key) l -> Sorted (key_le key) (insert_by key x l).
Proof.
  induction 1 as [|y l Hs IH Hhd]; simpl.
  - repeat constructor.
  - destruct (Z.leb_spec (key x) (key y)) as [Hle|Hgt].
    + constructor; [constructor; assumption | constructor; exact Hle].
    + constructor; [exact IH |].
      destruct l as [|z l]; simpl.
      * constructor. unfold key_le. lia.
      * destruct (key x <=? key z).
        -- constructor. unfold key_le. lia.
        -- constructor. inversion Hhd; assumption.
Qed.

Lemma order_by_sorted (l : list A) : Sorted (key_le key) (order_by key l).
Proof.
  induction l as [|x l IH]; simpl; [constructor | apply insert_by_sorted, IH].
Qed.


End OrderBy.

Lemma order_by_map {A B} (f : A -> B) (ka : A -> Z) (kb : B -> Z) (l : list A) :
  (forall a, kb (f a) = ka a) ->
  order_by kb (map f l) = map f (order_by ka l).
Proof.
  intros Hk. induction l as [|x l IH]; [reflexivity|].
  simpl. rewrite IH. clear IH.
  induction (order_by ka l) as [|y r IHr]; [reflexivity|].
  simpl. rewrite !Hk. destruct (ka x <=? ka y); simpl; [reflexivity|].
  rewrite IHr. reflexivity.
Qed.

Section SortedBy.
Context {A : Type} (key rank : A -> Z).

Lemma sorted_by_perm (l : list A) : Permutation (sorted_by key rank l) l.
Proof.
  unfold sorted_by, as_found.
  eapply perm_trans; apply order_by_perm.
Qed.

Lemma sorted_by_sorted (l : list A) : Sorted (key_le key) (sorted_by key rank l).
Proof. apply order_by_sorted. Qed.





End SortedBy.

Lemma sorted_by_map {A B} (f : A -> B) (ka ra : A -> Z) (kb rb : B -> Z) (l : list A) :
  (forall a, kb (f a) = ka a) -> (forall a, rb (f a) = ra a) ->
  sorted_by kb rb (map f l) = map f (sorted_by ka ra l).
Proof.
  intros Hk Hr. unfold sorted_by, as_found.
  rewrite (order_by_map f ra rb) by exact Hr.
  apply order_by_map, Hk.
Qed.

Lemma last_in {A} (l : list A) (d : A) : l <> [] -> In (last l d) l.
Proof.
  induction l as [|x l IH]; [congruence|]. intros _.
  destruct l as [|y l]; [left; reflexivity|].
  right. apply IH. discriminate.
Qed.

Lemma some_row_false {A} (l : list A) : some_row l = false -> l = [].
Proof. destruct l; [reflexivity | discriminate]. Qed.

Lemma some_row_true {A} (l : list A) : some_row l = true -> l <> [].
Proof. destruct l; [discriminate | intros _ H; discriminate H]. Qed.

Section JsMapFacts.
Context {V : Type}.

Lemma map_get_set_same (k : string) (v : V) (m : list (string * V)) :
  map_get k (map_set k v m) = Some v.
Proof.
  induction m as [|[k' v'] m IH]; simpl.
  - rewrite String.eqb_refl. reflexivity.
  - destruct (String.eqb k' k) eqn:E; simpl.
    + rewrite String.eqb_refl. reflexivity.
    + rewrite E. exact IH.
Qed.

Lemma map_keys_set_In (k : string) (v : V) (m : list (string * V)) :
  In k (map_keys (map_set k v m)).
Proof.
  induction m as [|[k' v'] m IH]; simpl.
  - left; reflexivity.
  - destruct (String.eqb k' k); simpl; auto.
Qed.
End JsMapFacts.

(** ** Unfolding a handler run *)

(* The tests of the handlers stay folded while a run is unfolded. *)
#[local] Arguments Nat.ltb : simpl never.
#[local] Arguments Nat.leb : simpl never.
#[local] Arguments Z.ltb : simpl never.
#[local] Arguments Z.leb : simpl never.
#[local] Arguments Z.eqb : simpl never.
#[local] Arguments Z.sub : simpl never.
#[local] Arguments String.eqb : simpl never.
#[local] Arguments truthy_str : simpl never.
#[local] Arguments ONE_WEEK_MS : simpl never.
#[local] Arguments Registry.TWO_WEEKS_MS : simpl never.
#[local] Arguments Registry.select_user : simpl never.
#[local] Arguments Registry.select_nickname_other : simpl never.

Ltac unfold_handlers :=
  unfold run, handle, user_connect, get_dm_partners, change_nickname,
    global_message, delete_global_message, load_dms, send_dm, delete_dm,
    disconnect, when_identified, enter_session, online_set, online_delete,
    emit_roster, io_emit, socket_emit, to_emit, callback, skip, bind, ret,
    try_catch, throw, ask, get_world, put_world, get_current, set_current,
    tell, next_query, query, query_marking, reading, writing, marking.

(** Case analysis on the innermost test the goal is stuck on. *)
Ltac break_match :=
  match goal with
  | |- context [match ?x with _ => _ end] =>
      lazymatch x with
      | context [match _ with _ => _ end] => fail
      | _ => destruct x eqn:?
      end
  end.

Ltac break_all := repeat (break_match; cbn in *).

(** ** The Global Feed *)

(** C1, at the failing input: bob, bound to "u2", sends
    delete_global_message { messageId: 1000, senderId: "u2" } for the
    message alice ("u1") posted.  The handler compares the payload's
    senderId with the socket's identity and never looks at the stored
    senderId: the message is removed and the deletion is broadcast. *)
Theorem delete_global_message_by_non_owner :
  gm_senderId hi_from_alice = "u1"
  /\ globalMessages sample_server = [hi_from_alice]
  /\ globalMessages
       (server_after
          (run (delete_global_message 1000 (js_str "u2")) sample_env (Some "u2")
             sample_server)) = []
  /\ trace (run (delete_global_message 1000 (js_str "u2")) sample_env (Some "u2")
              sample_server)
     = [IoEmit (global_message_deleted 1000)].
Proof. repeat split. Qed.

(** The deletion is broadcast exactly when the array got shorter. *)
Lemma delete_global_message_broadcast messageId senderId env cur s :
  let r := run (delete_global_message messageId senderId) env cur s in
  (trace r = [IoEmit (global_message_deleted messageId)]
   /\ (List.length (globalMessages (server_after r))
       < List.length (globalMessages s))%nat)
  \/ (trace r = [] /\ globalMessages (server_after r) = globalMessages s).
Proof.
  unfold_handlers; cbn.
  destruct (strict_eq cur senderId); cbn; [|right; split; reflexivity].
  destruct (Nat.ltb_spec (List.length (without_id messageId (globalMessages s)))
              (List.length (globalMessages s))) as [Hlt|Hge]; cbn.
  - left; split; [reflexivity | exact Hlt].
  - right; split; [reflexivity|].
    unfold without_id in *.
    induction (globalMessages s) as [|m f IH]; [reflexivity|].
    simpl in *. destruct (negb (gm_id m =? messageId)); simpl in *.
    + f_equal. apply IH. lia.
    + pose proof (filter_length_le (fun msg => negb (gm_id msg =? messageId)) f).
      lia.
Qed.

(** Whoever names their own id in the payload removes every message
    with the id asked for, whoever sent it. *)
Lemma delete_global_message_own_id (messageId : Z) (env : Env) (uid : string) (s : Server) :
  globalMessages
    (server_after (run (delete_global_message messageId (js_str uid)) env (Some uid) s))
  = without_id messageId (globalMessages s).
Proof.
  unfold_handlers. cbn. rewrite String.eqb_refl. cbn.
  destruct (List.length (without_id messageId (globalMessages s))
            <? List.length (globalMessages s))%nat; reflexivity.
Qed.

(** The first draft pushes without a cap. *)
Lemma legacy_feed_grows (data : Legacy.GlobalPayload) (env : Env)
  (cur : option string) (s : Legacy.Server) :
  List.length (Legacy.globalMessages (fst (Legacy.run (Legacy.global_message data) env cur s)))
  = S (List.length (Legacy.globalMessages s)).
Proof.
  unfold Legacy.run, Legacy.global_message, bind, ask, get_world, put_world, tell.
  cbn. rewrite length_app. simpl. lia.
Qed.

Lemma push_capped_length (f : list GlobalMessage) (m : GlobalMessage) :
  (List.length f <= 100 -> List.length (push_capped f m) <= 100)%nat.
Proof.
  intros H. unfold push_capped.
  destruct (Nat.ltb_spec 100 (List.length (f ++ [m]))) as [Hgt|Hle]; [|exact Hle].
  rewrite length_app in Hgt. simpl in Hgt.
  destruct f as [|x f]; simpl in *; [lia|].
  rewrite length_app. simpl. lia.
Qed.

Lemma push_capped_skipn (f : list GlobalMessage) (m : GlobalMessage) :
  (List.length f <= 100)%nat ->
  push_capped f m = skipn (List.length (f ++ [m]) - 100) (f ++ [m]).
Proof.
  intros H. unfold push_capped.
  destruct (Nat.ltb_spec 100 (List.length (f ++ [m]))) as [Hgt|Hle].
  - rewrite length_app in *. simpl in *.
    replace (List.length f + 1 - 100)%nat with 1%nat by lia.
    destruct f; reflexivity.
  - replace (List.length (f ++ [m]) - 100)%nat with 0%nat by lia. reflexivity.
Qed.

(** Appending [ms] one by one keeps the last hundred. *)
Lemma fold_push_capped (ms f : list GlobalMessage) :
  (List.length f <= 100)%nat ->
  fold_left push_capped ms f = skipn (List.length (f ++ ms) - 100) (f ++ ms).
Proof.
  revert f. induction ms as [|m ms IH]; intros f Hf.
  - rewrite app_nil_r. replace (List.length f - 100)%nat with 0%nat by lia.
    reflexivity.
  - simpl fold_left. rewrite IH by (apply push_capped_length, Hf).
    rewrite push_capped_skipn by exact Hf.
    set (l := f ++ [m]).
    assert (Hl : (List.length l <= 101)%nat)
      by (subst l; rewrite length_app; simpl; lia).
    replace (f ++ m :: ms) with (l ++ ms)
      by (subst l; rewrite <- app_assoc; reflexivity).
    set (k := (List.length l - 100)%nat).
    assert (Hk : (k <= List.length l)%nat) by (subst k; lia).
    replace (skipn k l ++ ms) with (skipn k (l ++ ms)).
    2:{ rewrite skipn_app. replace (k - List.length l)%nat with 0%nat by lia.
        reflexivity. }
    rewrite skipn_skipn. f_equal.
    rewrite length_skipn, !length_app. subst k. lia.
Qed.

(** What one [global_message] does to the feed. *)
Lemma global_message_step data env cur s :
  let r := run (global_message data) env cur s in
  (globalMessages (server_after r) = globalMessages s /\ trace r = [])
  \/ (exists m,
        globalMessages (server_after r) = push_capped (globalMessages s) m
        /\ trace r = [IoEmit (new_global_message m)]).
Proof.
  unfold_handlers; cbn. break_all;
    try (left; split; reflexivity).
  right. eexists. split; reflexivity.
Qed.

(** What any event does to the feed. *)
Lemma feed_after (r : request) env cur s :
  let f' := globalMessages (server_after (run (handle r) env cur s)) in
  f' = globalMessages s
  \/ (exists m, f' = push_capped (globalMessages s) m)
  \/ (exists mid, f' = without_id mid (globalMessages s)).
Proof.
  destruct r; unfold_handlers; cbn.
  all: break_all; try (left; reflexivity).
  all: try (right; left; eexists; reflexivity).
  all: right; right; eexists; reflexivity.
Qed.

Lemma feed_bound_step (r : request) env cur s :
  (List.length (globalMessages s) <= 100 ->
   List.length (globalMessages (server_after (run (handle r) env cur s))) <= 100)%nat.
Proof.
  intros H. destruct (feed_after r env cur s) as [E|[[m E]|[mid E]]]; rewrite E.
  - exact H.
  - apply push_capped_length, H.
  - unfold without_id. etransitivity; [apply filter_length_le | exact H].
Qed.

Lemma feed_bound_run_all (steps : list Step) (s : Server) :
  (List.length (globalMessages s) <= 100 ->
   List.length (globalMessages (fst (run_all steps s))) <= 100)%nat.
Proof.
  revert s. induction steps as [|st steps IH]; intros s H; [exact H|].
  simpl.
  specialize (IH (server_after
    (run (handle (step_request st)) (step_env st) (step_current st) s))
    (feed_bound_step _ _ _ _ H)).
  destruct (run_all steps _); exact IH.
Qed.

Lemma appended_app (t1 t2 : list (effect event reply)) :
  appended (t1 ++ t2) = appended t1 ++ appended t2.
Proof.
  induction t1 as [|e t1 IH]; [reflexivity|].
  destruct e as [| | e | | |]; simpl; try exact IH.
  destruct e; simpl; try exact IH. rewrite IH. reflexivity.
Qed.

Lemma posts_fold (steps : list Step) (s : Server) :
  forallb is_global_message steps = true ->
  globalMessages (fst (run_all steps s))
  = fold_left push_capped (appended (snd (run_all steps s))) (globalMessages s).
Proof.
  revert s. induction steps as [|st steps IH]; intros s Hall; [reflexivity|].
  simpl in Hall. apply andb_prop in Hall as [Hst Hall].
  destruct st as [env cur r]. unfold is_global_message in Hst. simpl in Hst.
  destruct r; try discriminate. simpl run_all. simpl handle.
  specialize (IH (server_after (run (global_message data) env cur s)) Hall).
  destruct (run_all steps _) as [s' t]. simpl in *.
  rewrite appended_app, fold_left_app, IH.
  destruct (global_message_step data env cur s) as [[Ef Et]|[m [Ef Et]]];
    rewrite Ef, Et; reflexivity.
Qed.

(** C2.  The feed of the current server never holds more than 100
    messages: from an empty feed, whatever events arrive on whatever
    sockets, its length stays at most 100.  [global_message] appends at
    the tail and, past 100, drops the head: after any run of
    [global_message] events from an empty feed, the feed is the last 100
    of the messages appended; when 101 were appended, the feed is the
    2nd to the 101st, so the 1st is gone (no message with its id is left
    unless a later one reuses it) and the 101st is there, at the tail. *)
Theorem global_feed_capacity :
  (forall d online steps,
     (List.length (globalMessages (fst (run_all steps (mkServer d online []))))
      <= 100)%nat)
  /\ (forall d online steps,
        forallb is_global_message steps = true ->
        let ms := appended (snd (run_all steps (mkServer d online []))) in
        globalMessages (fst (run_all steps (mkServer d online [])))
        = skipn (List.length ms - 100) ms)
  /\ (forall d online steps first rest,
        forallb is_global_message steps = true ->
        appended (snd (run_all steps (mkServer d online []))) = first :: rest ->
        List.length rest = 100%nat ->
        let feed := globalMessages (fst (run_all steps (mkServer d online []))) in
        feed = rest
        /\ last feed first = last rest first
        /\ In (last rest first) feed
        /\ (~ In (gm_id first) (map gm_id rest) ->
            forall m, In m feed -> gm_id m <> gm_id first)).
Proof.
  assert (Hfifo : forall d online steps,
    forallb is_global_message steps = true ->
    let ms := appended (snd (run_all steps (mkServer d online []))) in
    globalMessages (fst (run_all steps (mkServer d online [])))
    = skipn (List.length ms - 100) ms).
  { intros d online steps Hall ms. subst ms.
    rewrite posts_fold by exact Hall. simpl globalMessages.
    rewrite fold_push_capped by (simpl; lia). reflexivity. }
  split; [|split].
  - intros d online steps. apply feed_bound_run_all. simpl. lia.
  - exact Hfifo.
  - intros d online steps first rest Hall Hms Hlen feed.
    assert (Hfeed : feed = rest).
    { subst feed. rewrite Hfifo by exact Hall. cbv zeta. rewrite Hms.
      simpl List.length. rewrite Hlen. reflexivity. }
    rewrite Hfeed. split; [reflexivity|]. split; [reflexivity|]. split.
    + apply last_in. intros E; rewrite E in Hlen; discriminate Hlen.
    + intros Hfresh m Hin Hid. apply Hfresh. rewrite <- Hid.
      apply in_map, Hin.
Qed.

Lemma global_feed_capacity_witness :
  forallb is_global_message posts_101 = true
  /\ List.length (appended (snd (run_all posts_101 (mkServer sample_db sample_online []))))
     = 101%nat
  /\ map gm_id (globalMessages (fst (run_all posts_101 (mkServer sample_db sample_online []))))
     = map Z.of_nat (seq 2 100).
Proof.
  set (ms := appended (snd (run_all posts_101 (mkServer sample_db sample_online [])))).
  assert (H1 : forallb is_global_message posts_101 = true) by (vm_compute; reflexivity).
  assert (H2 : ms = hd hi_from_alice ms :: tl ms) by (vm_compute; reflexivity).
  assert (H3 : List.length (tl ms) = 100%nat) by (vm_compute; reflexivity).
  destruct (proj2 (proj2 global_feed_capacity) sample_db sample_online posts_101
              (hd hi_from_alice ms) (tl ms) H1 H2 H3) as [Hfeed _].
  split; [exact H1|]. split; [vm_compute; reflexivity|].
  rewrite Hfeed. vm_compute. reflexivity.
Defined.

(** ** Sockets without identity *)

(** C3 as stated fails twice on the current server.  A socket whose
    [currentUserId] is still [null] sends delete_global_message
    { messageId: 1000, senderId: null }: [null === null] holds, alice's
    message is removed and the deletion is broadcast.  And
    [get_dm_partners] on such a socket answers with the empty list, not
    with an error. *)
Lemma anonymous_session_counterexample :
  globalMessages
    (server_after
       (run (handle (DeleteGlobalMessage 1000 js_null)) sample_env None sample_server))
  = []
  /\ server_after
       (run (handle (DeleteGlobalMessage 1000 js_null)) sample_env None sample_server)
     <> sample_server
  /\ trace (run (handle (DeleteGlobalMessage 1000 js_null)) sample_env None sample_server)
     = [IoEmit (global_message_deleted 1000)]
  /\ trace (run (handle GetDmPartners) sample_env None sample_server)
     = [Callback (partner_list [])].
Proof.
  split; [reflexivity|]. split; [|split; reflexivity].
  intros E. apply (f_equal globalMessages) in E. discriminate E.
Qed.

(** C3, amended.  On a socket that never established an identity
    ([currentUserId] is [null]) every message-bearing event leaves the
    users and direct messages, the presence map, the feed and the
    socket's identity as they were, as long as a [delete_global_message]
    payload carries a [senderId] other than [null]: [global_message],
    [delete_global_message], [load_dms], [send_dm] and [delete_dm] do
    nothing at all, [change_nickname] answers with the unauthenticated
    failure, [get_dm_partners] answers with the empty list. *)
Theorem anonymous_requests_rejected (env : Env) (s : Server) (r : request) :
  message_bearing r = true ->
  null_sender r = false ->
  server_after (run (handle r) env None s) = s
  /\ current_after (run (handle r) env None s) = None
  /\ trace (run (handle r) env None s) = anonymous_answer r.
Proof.
  intros Hmb Hnull. destruct r; try discriminate Hmb; try (repeat split; fail).
  destruct senderId; try discriminate Hnull; repeat split.
Qed.

Lemma anonymous_requests_rejected_witness :
  server_after
    (run (handle (DeleteGlobalMessage 1000 (js_str "u1"))) sample_env None sample_server)
  = sample_server
  /\ trace (run (handle (ChangeNickname "carol")) sample_env None sample_server)
     = [Callback (failure MSG_UNAUTHENTICATED)].
Proof.
  split.
  - apply (anonymous_requests_rejected sample_env sample_server
             (DeleteGlobalMessage 1000 (js_str "u1"))); reflexivity.
  - apply (anonymous_requests_rejected sample_env sample_server
             (ChangeNickname "carol")); reflexivity.
Defined.

(** ** Renaming *)

Lemma has_id_update_where (uid uid' : string) (set : User -> User) (us : list User) :
  (forall u, user_id (set u) = user_id u) ->
  filter (has_id uid) (update_where uid' set us)
  = update_where uid' set (filter (has_id uid) us).
Proof.
  intros Hset. unfold update_where.
  induction us as [|u us IH]; [reflexivity|].
  simpl. assert (E : has_id uid (if has_id uid' u then set u else u) = has_id uid u).
  { destruct (has_id uid' u); [|reflexivity]. unfold has_id. rewrite Hset.
    reflexivity. }
  rewrite E. destruct (has_id uid u); simpl; rewrite IH; reflexivity.
Qed.

Lemma select_user_has_id (uid : string) (d : Db) (u : User) :
  In u (select_user uid d) -> has_id uid u = true.
Proof. unfold select_user. intros H. apply filter_In in H. apply H. Qed.

(** The rows an UPDATE ... WHERE user_id = [uid] returns. *)
Lemma updated_rows (uid : string) (set : User -> User) (d : Db) :
  (forall u, user_id (set u) = user_id u) ->
  filter (has_id uid) (update_where uid set (users d)) = map set (select_user uid d).
Proof.
  intros Hset. rewrite has_id_update_where by exact Hset.
  fold (select_user uid d). unfold update_where.
  apply map_ext_in. intros u Hu. rewrite (select_user_has_id _ _ _ Hu). reflexivity.
Qed.

Lemma mem_str_In (x : string) (l : list string) : mem_str x l = true <-> In x l.
Proof.
  unfold mem_str. rewrite existsb_exists. split.
  - intros (y & Hy & E). apply String.eqb_eq in E. subst y. exact Hy.
  - intros H. exists x. split; [exact H | apply String.eqb_refl].
Qed.

Lemma no_duplicates_inj {A} (f : A -> string) (l : list A) (a b : A) :
  no_duplicates (map f l) = true -> In a l -> In b l -> f a = f b -> a = b.
Proof.
  induction l as [|x l IH]; simpl; [intros _ []|].
  intros H Ha Hb E. apply andb_prop in H as [Hx Hl].
  apply negb_true_iff in Hx.
  assert (Hnot : forall c, In c l -> f c <> f x).
  { intros c Hc Ec. assert (Hm : mem_str (f x) (map f l) = true).
    { apply mem_str_In. rewrite <- Ec. apply in_map, Hc. }
    rewrite Hm in Hx. discriminate Hx. }
  destruct Ha as [<-|Ha], Hb as [<-|Hb].
  - reflexivity.
  - exfalso. apply (Hnot b Hb). symmetry. exact E.
  - exfalso. apply (Hnot a Ha E).
  - apply IH; assumption.
Qed.

(** Under the UNIQUE constraint nobody else holds a user's own nickname. *)
Lemma own_nickname_free (uid : string) (d : Db) (user : User) (rest : list User) :
  unique_nicknames d = true ->
  select_user uid d = user :: rest ->
  select_nickname_other (nickname user) uid d = [].
Proof.
  intros Hu Hsel.
  destruct (select_nickname_other (nickname user) uid d) as [|v vs] eqn:Hv;
    [reflexivity|].
  exfalso.
  assert (Hin : In v (select_nickname_other (nickname user) uid d))
    by (rewrite Hv; left; reflexivity).
  unfold select_nickname_other in Hin. apply filter_In in Hin as [Hvin Hvp].
  apply andb_prop in Hvp as [Hn Hi]. unfold has_nickname in Hn.
  apply String.eqb_eq in Hn. apply negb_true_iff in Hi.
  assert (Huin : In user (select_user uid d)) by (rewrite Hsel; left; reflexivity).
  pose proof (select_user_has_id _ _ _ Huin) as Hid.
  unfold select_user in Huin. apply filter_In in Huin as [Huin _].
  assert (v = user) by (apply (no_duplicates_inj nickname (users d)); assumption).
  subst v. rewrite Hid in Hi. discriminate Hi.
Qed.

Lemma update_rename_some (n uid : string) (now : Z) (d d' : Db) (rows : list User) :
  update_rename n uid now d = Some (rows, d') ->
  rows = map (rename_row n now) (select_user uid d)
  /\ d' = mkDb (update_where uid (rename_row n now) (users d))
               (direct_messages d) (dm_seq d).
Proof.
  unfold update_rename. destruct (unique_violation n uid d); [discriminate|].
  intros E. injection E as <- <-. split; [|reflexivity].
  apply updated_rows. reflexivity.
Qed.

(** All the ways a [change_nickname] can go: it answers with one of four
    failures after some store round trips and nothing else has happened,
    or it has renamed. *)
Lemma change_nickname_cases (n : string) (env : Env) (cur : option string) (s : Server) :
  let r := run (change_nickname n) env cur s in
  (exists msg k,
      trace r = repeat Suspend k ++ [Callback (failure msg)]
      /\ In msg [MSG_UNAUTHENTICATED; MSG_RATE_LIMITED; MSG_NICKNAME_TAKEN;
                 MSG_RENAME_ERROR]
      /\ server_after r = s
      /\ current_after r = cur)
  \/ (exists uid row rest,
        cur = Some uid
        /\ truthy_str uid = true
        /\ select_user uid (db s) = row :: rest
        /\ (List.length (recent_changes (date_now env - ONE_WEEK_MS)
                           (change_timestamps row)) < 2)%nat
        /\ select_nickname_other n uid (db s) = []
        /\ server_after r = renamed_server uid n (socket_id env) (db_now env) s
        /\ current_after r = cur
        /\ trace r =
             [Suspend; Suspend; Suspend; PresenceWrite uid;
              IoEmit (nickname_changed (nickname row) n);
              IoEmit (online_users_update (map_keys (onlineUsers (server_after r))));
              Callback (success (rename_row n (db_now env) row))]).
Proof.
  unfold_handlers. cbn.
  destruct cur as [uid|]; cbn.
  2:{ left. exists MSG_UNAUTHENTICATED, 0%nat. repeat split. simpl; intuition. }
  destruct (truthy_str uid) eqn:Ht; cbn.
  2:{ left. exists MSG_UNAUTHENTICATED, 0%nat. repeat split. simpl; intuition. }
  destruct (store_fails env 0); cbn.
  { left. exists MSG_RENAME_ERROR, 1%nat. repeat split. simpl; intuition. }
  destruct (select_user uid (db s)) as [|row rest] eqn:Hsel; cbn.
  { left. exists MSG_RENAME_ERROR, 1%nat. repeat split. simpl; intuition. }
  destruct (Nat.leb_spec 2 (List.length (recent_changes (date_now env - ONE_WEEK_MS)
                                            (change_timestamps row)))) as [Hlim|Hlim];
    cbn.
  { left. exists MSG_RATE_LIMITED, 1%nat. repeat split. simpl; intuition. }
  destruct (store_fails env 1); cbn.
  { left. exists MSG_RENAME_ERROR, 2%nat. repeat split. simpl; intuition. }
  destruct (some_row (select_nickname_other n uid (db s))) eqn:Hother; cbn.
  { left. exists MSG_NICKNAME_TAKEN, 2%nat. repeat split. simpl; intuition. }
  apply some_row_false in Hother.
  destruct (store_fails env 2); cbn.
  { left. exists MSG_RENAME_ERROR, 3%nat. repeat split. simpl; intuition. }
  destruct (update_rename n uid (db_now env) (db s)) as [[rows d']|] eqn:Hupd; cbn.
  2:{ left. exists MSG_RENAME_ERROR, 3%nat. repeat split. simpl; intuition. }
  apply update_rename_some in Hupd as [-> ->]. rewrite Hsel. cbn.
  right. exists uid, row, rest. repeat split; assumption || reflexivity.
Qed.

Lemma select_user_renamed (uid n sid : string) (now : Z) (s : Server) :
  select_user uid (db (renamed_server uid n sid now s))
  = map (rename_row n now) (select_user uid (db s)).
Proof. unfold renamed_server, select_user. simpl. apply updated_rows. reflexivity. Qed.

Lemma in_suspends (k : nat) (x : effect event reply) (r : reply) :
  In (Callback r) (repeat Suspend k ++ [x]) -> x = Callback r.
Proof.
  intros H. apply in_app_or in H as [H|[H|[]]]; [|exact H].
  apply repeat_spec in H. discriminate H.
Qed.

(** C9.  Whenever [change_nickname] answers with a failure, the failure
    is one of the four of the handler (not authenticated, rate limited,
    nickname taken, store error); the users and direct messages, the
    presence map, the feed and the socket's identity are what they were;
    and apart from the store round trips made, the callback is the only
    thing that happened: no [nickname_changed], no
    [online_users_update], no write to the presence map. *)
Theorem change_nickname_failure_is_silent
  (n : string) (env : Env) (cur : option string) (s : Server) (msg : string) :
  In (Callback (failure msg)) (trace (run (change_nickname n) env cur s)) ->
  server_after (run (change_nickname n) env cur s) = s
  /\ current_after (run (change_nickname n) env cur s) = cur
  /\ (exists k, trace (run (change_nickname n) env cur s)
                = repeat Suspend k ++ [Callback (failure msg)])
  /\ In msg [MSG_UNAUTHENTICATED; MSG_RATE_LIMITED; MSG_NICKNAME_TAKEN;
             MSG_RENAME_ERROR].
Proof.
  intros Hin.
  destruct (change_nickname_cases n env cur s)
    as [(msg0 & k & Ht & Hmsg & Hs & Hc)
       |(uid & row & rest & _ & _ & _ & _ & _ & _ & _ & Ht)].
  - rewrite Ht in Hin. apply in_suspends in Hin. injection Hin as <-.
    repeat split; try assumption. exists k. exact Ht.
  - rewrite Ht in Hin. simpl in Hin. exfalso. intuition congruence.
Qed.

Lemma change_nickname_failure_is_silent_witness :
  (server_after (run (change_nickname "alice") sample_env (Some "u2") sample_server)
   = sample_server
   /\ trace (run (change_nickname "alice") sample_env (Some "u2") sample_server)
      = [Suspend; Suspend; Callback (failure MSG_NICKNAME_TAKEN)])
  /\ server_after (run (change_nickname "carol") store_down_env (Some "u1") sample_server)
     = sample_server.
Proof.
  split.
  - split; [|reflexivity].
    apply (change_nickname_failure_is_silent "alice" sample_env (Some "u2")
             sample_server MSG_NICKNAME_TAKEN).
    vm_compute. tauto.
  - apply (change_nickname_failure_is_silent "carol" store_down_env (Some "u1")
             sample_server MSG_RENAME_ERROR).
    vm_compute. tauto.
Defined.

(** C6.  After every [change_nickname] that answers with success, the
    users table and the presence map give the same nickname, the new
    one, for the socket's user id; and after the last store round trip
    (the UPDATE) the handler, without suspending again, writes the
    presence entry, broadcasts [nickname_changed] and broadcasts
    [online_users_update] with all the keys of the presence map as it
    then is, the user's own id among them, before it calls back. *)
Theorem rename_keeps_presence_in_step
  (n : string) (env : Env) (cur : option string) (s : Server) (u : User) :
  In (Callback (success u)) (trace (run (change_nickname n) env cur s)) ->
  let s' := server_after (run (change_nickname n) env cur s) in
  exists uid old,
    cur = Some uid
    /\ select_user uid (db s') <> []
    /\ (forall row, In row (select_user uid (db s')) -> nickname row = n)
    /\ option_map presence_nickname (map_get uid (onlineUsers s')) = Some n
    /\ nickname u = n
    /\ In uid (map_keys (onlineUsers s'))
    /\ trace (run (change_nickname n) env cur s)
       = [Suspend; Suspend; Suspend; PresenceWrite uid;
          IoEmit (nickname_changed old n);
          IoEmit (online_users_update (map_keys (onlineUsers s')));
          Callback (success u)].
Proof.
  intros Hin s'. subst s'.
  destruct (change_nickname_cases n env cur s)
    as [(msg0 & k & Ht & _)
       |(uid & row & rest & Hc & _ & Hsel & _ & _ & Hs & _ & Ht)].
  - rewrite Ht in Hin. apply in_suspends in Hin. discriminate Hin.
  - assert (Hu : u = rename_row n (db_now env) row).
    { rewrite Ht in Hin. simpl in Hin. intuition congruence. }
    rewrite Ht. rewrite Hs. exists uid, (nickname row). subst u cur.
    rewrite select_user_renamed, Hsel. simpl.
    repeat split; try reflexivity.
    + discriminate.
    + intros r [<-|Hr]; [reflexivity|].
      apply in_map_iff in Hr as (r0 & <- & _). reflexivity.
    + rewrite map_get_set_same. reflexivity.
    + apply map_keys_set_In.
Qed.

Lemma rename_keeps_presence_in_step_witness :
  option_map presence_nickname
    (map_get "u1"
       (onlineUsers
          (server_after (run (change_nickname "carol") alice_env (Some "u1") sample_server))))
  = Some "carol"
  /\ map nickname
       (select_user "u1"
          (db (server_after
                 (run (change_nickname "carol") alice_env (Some "u1") sample_server))))
     = ["carol"].
Proof.
  destruct (rename_keeps_presence_in_step "carol" alice_env (Some "u1") sample_server
              (mkUser "u1" "carol" [3001] 0))
    as (uid & old & Hc & _ & _ & Hp & _).
  - vm_compute. tauto.
  - injection Hc as <-. split; [exact Hp | reflexivity].
Defined.

Lemma rename_refused_by_ledger
  (n : string) (env : Env) (uid : string) (s : Server) (row : User) (rest : list User) :
  truthy_str uid = true ->
  store_fails env 0 = false ->
  select_user uid (db s) = row :: rest ->
  (2 <= List.length (recent_changes (date_now env - ONE_WEEK_MS)
                       (change_timestamps row)))%nat ->
  run (change_nickname n) env (Some uid) s
  = mkResult s (Some uid) [Suspend; Callback (failure MSG_RATE_LIMITED)].
Proof.
  intros Ht Hf Hsel Hlim. unfold_handlers. cbn.
  rewrite Ht. cbn. rewrite Hf. cbn. rewrite Hsel. cbn.
  destruct (Nat.leb_spec 2 (List.length (recent_changes (date_now env - ONE_WEEK_MS)
                                            (change_timestamps row))));
    [reflexivity | lia].
Qed.

Lemma change_nickname_succeeds
  (n : string) (env : Env) (uid : string) (s : Server) (row : User) (rest : list User) :
  truthy_str uid = true ->
  (forall k, store_fails env k = false) ->
  select_user uid (db s) = row :: rest ->
  (List.length (recent_changes (date_now env - ONE_WEEK_MS)
                  (change_timestamps row)) < 2)%nat ->
  select_nickname_other n uid (db s) = [] ->
  run (change_nickname n) env (Some uid) s
  = mkResult (renamed_server uid n (socket_id env) (db_now env) s) (Some uid)
      [Suspend; Suspend; Suspend; PresenceWrite uid;
       IoEmit (nickname_changed (nickname row) n);
       IoEmit (online_users_update
                 (map_keys (map_set uid (mkPresence n (socket_id env)) (onlineUsers s))));
       Callback (success (rename_row n (db_now env) row))].
Proof.
  intros Ht Hf Hsel Hlim Hother. unfold_handlers. cbn.
  rewrite Ht. cbn. rewrite !Hf. cbn. rewrite Hsel. cbn.
  destruct (Nat.leb_spec 2 (List.length (recent_changes (date_now env - ONE_WEEK_MS)
                                            (change_timestamps row)))); [lia|].
  cbn. rewrite !Hf. cbn. rewrite Hother. cbn. rewrite !Hf. cbn.
  unfold update_rename, unique_violation. rewrite Hother, andb_false_r.
  rewrite updated_rows by reflexivity. rewrite Hsel. cbn. reflexivity.
Qed.

Lemma recent_changes_last_two (since a b : Z) (old : list Z) :
  since < a -> since < b ->
  (2 <= List.length (recent_changes since ((old ++ [a]) ++ [b])))%nat.
Proof.
  intros Ha Hb. unfold recent_changes. rewrite !filter_app, !length_app. simpl.
  destruct (Z.ltb_spec since a); [|lia]. destruct (Z.ltb_spec since b); [|lia].
  simpl. lia.
Qed.

Lemma recent_changes_elapsed (since : Z) (timestamps : list Z) :
  Forall (fun ts => ts <= since) timestamps -> recent_changes since timestamps = [].
Proof.
  induction 1 as [|ts l Hts _ IH]; [reflexivity|].
  simpl. destruct (Z.ltb_spec since ts); [lia | exact IH].
Qed.

(** At most one change inside the window when all but the newest have
    left it. *)
Lemma recent_changes_all_but_last (since t : Z) (old : list Z) :
  Forall (fun ts => ts <= since) old ->
  (List.length (recent_changes since (old ++ [t])) < 2)%nat.
Proof.
  intros Hold. unfold recent_changes. rewrite filter_app, length_app.
  fold (recent_changes since old). rewrite (recent_changes_elapsed _ _ Hold).
  simpl. destruct (since <? t); simpl; lia.
Qed.

(** C4.  On the current server the window is seven days and the limit
    two.  [change_nickname] answers with the rate-limit failure, and
    changes nothing, when two or more of the user's change timestamps
    are strictly newer than now minus the window.  So the third attempt
    fails when the user's two previous renames succeeded and the first
    of them was recorded less than a window ago.  When fewer than two
    timestamps are strictly newer than now minus the window, that is
    also when one change is still inside it (the nickname not held by
    another user, the store answering), the rename succeeds and the
    user's row carries the old timestamps followed by the store's
    current time.  So after two renames in a row the third attempt
    succeeds as soon as the first of the two is a window old, however
    recent the second (the earlier changes being a window old too). *)
Theorem change_nickname_rate_limit :
  (forall n env uid s row rest,
      truthy_str uid = true ->
      store_fails env 0 = false ->
      select_user uid (db s) = row :: rest ->
      (2 <= List.length (recent_changes (date_now env - ONE_WEEK_MS)
                           (change_timestamps row)))%nat ->
      trace (run (change_nickname n) env (Some uid) s)
      = [Suspend; Callback (failure MSG_RATE_LIMITED)]
      /\ server_after (run (change_nickname n) env (Some uid) s) = s)
  /\ (forall n1 n2 n3 env1 env2 env3 uid s0 u1 u2,
        let r1 := run (change_nickname n1) env1 (Some uid) s0 in
        let r2 := run (change_nickname n2) env2 (Some uid) (server_after r1) in
        let r3 := run (change_nickname n3) env3 (Some uid) (server_after r2) in
        In (Callback (success u1)) (trace r1) ->
        In (Callback (success u2)) (trace r2) ->
        db_now env1 <= db_now env2 ->
        date_now env3 - db_now env1 < ONE_WEEK_MS ->
        store_fails env3 0 = false ->
        trace r3 = [Suspend; Callback (failure MSG_RATE_LIMITED)]
        /\ server_after r3 = server_after r2)
  /\ (forall n env uid s row rest,
        truthy_str uid = true ->
        (forall k, store_fails env k = false) ->
        select_user uid (db s) = row :: rest ->
        (List.length (recent_changes (date_now env - ONE_WEEK_MS)
                        (change_timestamps row)) < 2)%nat ->
        select_nickname_other n uid (db s) = [] ->
        exists u,
          In (Callback (success u)) (trace (run (change_nickname n) env (Some uid) s))
          /\ hd_error (select_user uid
                         (db (server_after (run (change_nickname n) env (Some uid) s))))
             = Some u
          /\ nickname u = n
          /\ change_timestamps u = change_timestamps row ++ [db_now env])
  /\ (forall n1 n2 n3 env1 env2 env3 uid s0 u1 u2 row rest,
        let r1 := run (change_nickname n1) env1 (Some uid) s0 in
        let r2 := run (change_nickname n2) env2 (Some uid) (server_after r1) in
        let r3 := run (change_nickname n3) env3 (Some uid) (server_after r2) in
        select_user uid (db s0) = row :: rest ->
        In (Callback (success u1)) (trace r1) ->
        In (Callback (success u2)) (trace r2) ->
        Forall (fun ts => ts <= date_now env3 - ONE_WEEK_MS) (change_timestamps row) ->
        db_now env1 <= date_now env3 - ONE_WEEK_MS ->
        (forall k, store_fails env3 k = false) ->
        select_nickname_other n3 uid (db (server_after r2)) = [] ->
        exists u3,
          In (Callback (success u3)) (trace r3)
          /\ nickname u3 = n3
          /\ change_timestamps u3
             = change_timestamps row ++ [db_now env1; db_now env2; db_now env3]).
Proof.
  split; [|split; [|split]].
  - intros n env uid s row rest Ht Hf Hsel Hlim.
    rewrite (rename_refused_by_ledger n env uid s row rest Ht Hf Hsel Hlim).
    split; reflexivity.
  - intros n1 n2 n3 env1 env2 env3 uid s0 u1 u2 r1 r2 r3 H1 H2 Hmono Hwithin Hf.
    subst r3.
    destruct (change_nickname_cases n1 env1 (Some uid) s0)
      as [(m & k & Ht & _)
         |(uid1 & row & rest & Hc & Htr & Hsel & _ & _ & Hs1 & _ & _)].
    { subst r1. rewrite Ht in H1. apply in_suspends in H1. discriminate H1. }
    injection Hc as <-.
    destruct (change_nickname_cases n2 env2 (Some uid) (server_after r1))
      as [(m & k & Ht & _)
         |(uid2 & row2 & rest2 & Hc & _ & Hsel2 & _ & _ & Hs2 & _ & _)].
    { subst r2. rewrite Ht in H2. apply in_suspends in H2. discriminate H2. }
    injection Hc as <-. fold r1 in Hs1. fold r2 in Hs2.
    rewrite Hs1, select_user_renamed, Hsel in Hsel2. simpl in Hsel2.
    injection Hsel2 as <- <-.
    assert (Hsel3 : select_user uid (db (server_after r2))
                    = rename_row n2 (db_now env2) (rename_row n1 (db_now env1) row)
                      :: map (rename_row n2 (db_now env2))
                           (map (rename_row n1 (db_now env1)) rest)).
    { rewrite Hs2, select_user_renamed, Hs1, select_user_renamed, Hsel.
      reflexivity. }
    rewrite (rename_refused_by_ledger n3 env3 uid _ _ _ Htr Hf Hsel3).
    + split; reflexivity.
    + simpl change_timestamps. apply recent_changes_last_two; lia.
  - intros n env uid s row rest Ht Hf Hsel Hfew Hother.
    exists (rename_row n (db_now env) row).
    rewrite (change_nickname_succeeds n env uid s row rest Ht Hf Hsel Hfew Hother).
    simpl server_after. simpl trace.
    rewrite select_user_renamed, Hsel. simpl.
    repeat split. do 6 right. left. reflexivity.
  - intros n1 n2 n3 env1 env2 env3 uid s0 u1 u2 row rest r1 r2 r3
      Hsel H1 H2 Hold Hfirst Hf Hother.
    subst r3.
    destruct (change_nickname_cases n1 env1 (Some uid) s0)
      as [(m & k & Ht & _)
         |(uid1 & row1 & rest1 & Hc & Htr & Hsel1 & _ & _ & Hs1 & _ & _)].
    { subst r1. rewrite Ht in H1. apply in_suspends in H1. discriminate H1. }
    injection Hc as <-. rewrite Hsel in Hsel1. injection Hsel1 as <- <-.
    destruct (change_nickname_cases n2 env2 (Some uid) (server_after r1))
      as [(m & k & Ht & _)
         |(uid2 & row2 & rest2 & Hc & _ & _ & _ & _ & Hs2 & _ & _)].
    { subst r2. rewrite Ht in H2. apply in_suspends in H2. discriminate H2. }
    injection Hc as <-. fold r1 in Hs1. fold r2 in Hs2.
    assert (Hsel3 : select_user uid (db (server_after r2))
                    = rename_row n2 (db_now env2) (rename_row n1 (db_now env1) row)
                      :: map (rename_row n2 (db_now env2))
                           (map (rename_row n1 (db_now env1)) rest)).
    { rewrite Hs2, select_user_renamed, Hs1, select_user_renamed, Hsel.
      reflexivity. }
    exists (rename_row n3 (db_now env3)
              (rename_row n2 (db_now env2) (rename_row n1 (db_now env1) row))).
    rewrite (change_nickname_succeeds n3 env3 uid _ _ _ Htr Hf Hsel3); [| |exact Hother].
    + simpl. rewrite <- !app_assoc. simpl. repeat split. do 6 right. left. reflexivity.
    + simpl change_timestamps. apply recent_changes_all_but_last.
      apply Forall_app. split; [exact Hold|]. constructor; [exact Hfirst | constructor].
Qed.

Lemma change_nickname_rate_limit_witness :
  trace (run (change_nickname "caroline") carol_env_soon (Some "u3") carol_server)
  = [Suspend; Callback (failure MSG_RATE_LIMITED)]
  /\ trace (run (change_nickname "a3") alice_env_5 (Some "u1")
              (server_after
                 (run (change_nickname "a2") alice_env_4 (Some "u1")
                    (server_after
                       (run (change_nickname "a1") alice_env (Some "u1") sample_server)))))
     = [Suspend; Callback (failure MSG_RATE_LIMITED)]
  /\ (exists u,
        hd_error (select_user "u3"
                    (db (server_after
                           (run (change_nickname "caroline") carol_env_between (Some "u3")
                              carol_server)))) = Some u
        /\ change_timestamps u = [1000; 2000; 1001 + ONE_WEEK_MS])
  /\ exists u3,
       In (Callback (success u3))
         (trace (run (change_nickname "a3") alice_env_next_week (Some "u1")
                   (server_after
                      (run (change_nickname "a2") alice_env_4 (Some "u1")
                         (server_after
                            (run (change_nickname "a1") alice_env (Some "u1")
                               sample_server))))))
       /\ change_timestamps u3 = [3001; 4001; 3002 + ONE_WEEK_MS].
Proof.
  destruct change_nickname_rate_limit as (Hlimited & Hthird & Hfew & Hlater).
  split; [|split; [|split]].
  - apply (Hlimited "caroline" carol_env_soon "u3" carol_server carol []);
      reflexivity.
  - apply (Hthird "a1" "a2" "a3" alice_env alice_env_4 alice_env_5 "u1" sample_server
             (mkUser "u1" "a1" [3001] 0) (mkUser "u1" "a2" [3001; 4001] 0)).
    + vm_compute. tauto.
    + vm_compute. tauto.
    + vm_compute. discriminate.
    + reflexivity.
    + reflexivity.
  - destruct (Hfew "caroline" carol_env_between "u3" carol_server carol [])
      as (u & _ & Hhd & _ & Hts); try reflexivity.
    + vm_compute. lia.
    + exists u. split; [exact Hhd | exact Hts].
  - assert (H1 : In (Callback (success (mkUser "u1" "a1" [3001] 0)))
                   (trace (run (change_nickname "a1") alice_env (Some "u1")
                             sample_server)))
      by (vm_compute; tauto).
    assert (H2 : In (Callback (success (mkUser "u1" "a2" [3001; 4001] 0)))
                   (trace (run (change_nickname "a2") alice_env_4 (Some "u1")
                             (server_after
                                (run (change_nickname "a1") alice_env (Some "u1")
                                   sample_server)))))
      by (vm_compute; tauto).
    assert (Hfirst : db_now alice_env <= date_now alice_env_next_week - ONE_WEEK_MS)
      by (vm_compute; discriminate).
    destruct (Hlater "a1" "a2" "a3" alice_env alice_env_4 alice_env_next_week "u1"
                sample_server (mkUser "u1" "a1" [3001] 0)
                (mkUser "u1" "a2" [3001; 4001] 0) alice []
                eq_refl H1 H2 (Forall_nil _) Hfirst (fun _ => eq_refl) eq_refl)
      as (u3 & Hin & _ & Hts).
    exists u3. split; [exact Hin | exact Hts].
Defined.

(** C7, at the failing input: alice, bound to "u1" and named "alice",
    sends change_nickname("alice").  The current server has no test for
    an unchanged nickname: the UPDATE runs, a timestamp of the rate-limit
    ledger is spent, [nickname_changed] is broadcast with the same old
    and new name, and the callback reports success. *)
Theorem change_nickname_to_current_nickname :
  map nickname (select_user "u1" (db sample_server)) = ["alice"]
  /\ trace (run (change_nickname "alice") alice_env (Some "u1") sample_server)
     = [Suspend; Suspend; Suspend; PresenceWrite "u1";
        IoEmit (nickname_changed "alice" "alice");
        IoEmit (online_users_update ["u1"; "u2"]);
        Callback (success (mkUser "u1" "alice" [3001] 0))]
  /\ select_user "u1"
       (db (server_after
              (run (change_nickname "alice") alice_env (Some "u1") sample_server)))
     = [mkUser "u1" "alice" [3001] 0].
Proof. repeat split. Qed.

(** On the current server a rename to the nickname the user already has
    goes through whenever the window allows a rename (the store
    answering, nicknames unique). *)
Lemma change_nickname_unchanged_succeeds
  (env : Env) (uid : string) (s : Server) (row : User) (rest : list User) :
  truthy_str uid = true ->
  (forall k, store_fails env k = false) ->
  select_user uid (db s) = row :: rest ->
  unique_nicknames (db s) = true ->
  (List.length (recent_changes (date_now env - ONE_WEEK_MS)
                  (change_timestamps row)) < 2)%nat ->
  In (Callback (success (rename_row (nickname row) (db_now env) row)))
     (trace (run (change_nickname (nickname row)) env (Some uid) s)).
Proof.
  intros Ht Hf Hsel Hu Hlim.
  rewrite (change_nickname_succeeds (nickname row) env uid s row rest Ht Hf Hsel Hlim
             (own_nickname_free uid (db s) row rest Hu Hsel)).
  simpl. tauto.
Qed.

(** The registry draft has the same ledger test, with a window of two
    weeks. *)
Lemma registry_rename_refused_by_ledger
  (env : Env) (userId newNickname : string) (d : Registry.Db)
  (row : Registry.User) (rest : list Registry.User) :
  truthy_str userId = true ->
  truthy_str newNickname = true ->
  store_fails env 0 = false ->
  Registry.select_user userId d = row :: rest ->
  Registry.nickname row <> newNickname ->
  (2 <= List.length (recent_changes (date_now env - Registry.TWO_WEEKS_MS)
                       (Registry.change_timestamps row)))%nat ->
  Registry.run (Registry.change_nickname userId newNickname) env (Some userId) d
  = Registry.mkResult d (Some userId)
      [Suspend; Callback (Registry.failure Registry.MSG_RATE_LIMITED)].
Proof.
  intros Hu Hn Hf Hsel Hdiff Hlim.
  unfold Registry.run, Registry.change_nickname, Registry.callback, Registry.differs,
    Registry.reading, bind, ret, try_catch, get_current, ask, tell, query.
  cbn. rewrite Hu, Hn. cbn. rewrite String.eqb_refl. cbn. rewrite Hf. cbn.
  rewrite Hsel. cbn.
  destruct (String.eqb_spec (Registry.nickname row) newNickname); [contradiction|].
  cbn.
  destruct (Nat.leb_spec 2 (List.length
              (recent_changes (date_now env - Registry.TWO_WEEKS_MS)
                 (Registry.change_timestamps row)))); [reflexivity | lia].
Qed.

(** The registry draft does test it: a socket renaming its own user to
    the nickname the user already has is answered with the "same
    nickname" failure, and nothing is written or broadcast. *)
Lemma registry_change_nickname_unchanged
  (env : Env) (userId newNickname : string) (d : Registry.Db)
  (row : Registry.User) (rest : list Registry.User) :
  truthy_str userId = true ->
  truthy_str newNickname = true ->
  store_fails env 0 = false ->
  Registry.select_user userId d = row :: rest ->
  Registry.nickname row = newNickname ->
  Registry.run (Registry.change_nickname userId newNickname) env (Some userId) d
  = Registry.mkResult d (Some userId)
      [Suspend; Callback (Registry.failure Registry.MSG_SAME_NICKNAME)].
Proof.
  intros Hu Hn Hf Hsel Hsame.
  unfold Registry.run, Registry.change_nickname, Registry.callback, Registry.differs,
    Registry.reading, bind, ret, try_catch, get_current, ask, tell, query.
  cbn. rewrite Hu, Hn. cbn. rewrite String.eqb_refl. cbn. rewrite Hf. cbn.
  rewrite Hsel. cbn.
  rewrite Hsame, String.eqb_refl. reflexivity.
Qed.

(** ** Connecting *)

Lemma select_user_connected (uid n sid : string) (now : Z) (s : Server) :
  select_user uid (db (connected_server uid n sid now s))
  = map (connect_row n now) (select_user uid (db s)).
Proof. unfold connected_server, select_user. simpl. apply updated_rows. reflexivity. Qed.

(** [user_connect] for a user the table knows, the store answering. *)
Lemma user_connect_known
  (env : Env) (cur : option string) (s : Server) (userId nick : string)
  (user : User) (rest : list User) :
  (forall k, store_fails env k = false) ->
  select_user userId (db s) = user :: rest ->
  unique_nicknames (db s) = true ->
  let collides := nickname_collides nick userId (nickname user) (db s) in
  let effective := if collides then nickname user else nick in
  run (user_connect userId nick) env cur s
  = mkResult (connected_server userId effective (socket_id env) (db_now env) s)
      (Some userId)
      ([Suspend]
       ++ (if String.eqb (nickname user) nick then [] else [Suspend])
       ++ (if collides then [SocketEmit (force_nickname_update (nickname user))] else [])
       ++ [Suspend; PresenceWrite userId;
           IoEmit (online_users_update
                     (map_keys (map_set userId (mkPresence effective (socket_id env))
                                  (onlineUsers s))));
           Callback (success (mkUser (user_id user) effective
                                (change_timestamps user) (last_seen user)));
           SocketEmit (load_global_messages (globalMessages s))]).
Proof.
  intros Hf Hsel Hu collides effective. subst effective collides.
  pose proof (own_nickname_free _ _ _ _ Hu Hsel) as Hown.
  unfold nickname_collides. unfold_handlers. cbn.
  rewrite !Hf. cbn. rewrite Hsel. cbn.
  destruct (String.eqb (nickname user) nick) eqn:Hsame; cbn.
  - apply String.eqb_eq in Hsame. subst nick.
    rewrite !Hf. cbn. unfold update_connect, unique_violation.
    rewrite Hown, andb_false_r. cbn. reflexivity.
  - rewrite !Hf. cbn.
    destruct (some_row (select_nickname_other nick userId (db s))) eqn:Hother; cbn.
    + rewrite !Hf. cbn. unfold update_connect, unique_violation.
      rewrite Hown, andb_false_r. cbn. reflexivity.
    + rewrite !Hf. cbn. unfold update_connect, unique_violation.
      rewrite Hother, andb_false_r. cbn. reflexivity.
Qed.

(** C8.  [user_connect] for a user id the table knows (the store
    answering, the table under its UNIQUE constraint).  When the
    requested nickname differs from the stored one and another user
    holds it, the stored nickname stays in the user's row, the socket is
    sent [force_nickname_update] with the stored nickname, and the
    callback still reports success, with the stored nickname.  Otherwise
    the requested nickname is written to the row, no
    [force_nickname_update] is sent, and the callback reports success
    with the requested nickname.  Either way the row's last_seen becomes
    the store's current time and the socket is bound to the user id. *)
Theorem user_connect_reconciles
  (env : Env) (cur : option string) (s : Server) (userId nick : string)
  (user : User) (rest : list User) :
  (forall k, store_fails env k = false) ->
  select_user userId (db s) = user :: rest ->
  unique_nicknames (db s) = true ->
  let r := run (user_connect userId nick) env cur s in
  let stored := nickname user in
  (nickname_collides nick userId stored (db s) = true ->
   hd_error (select_user userId (db (server_after r)))
   = Some (mkUser (user_id user) stored (change_timestamps user) (db_now env))
   /\ In (SocketEmit (force_nickname_update stored)) (trace r)
   /\ In (Callback (success (mkUser (user_id user) stored
                              (change_timestamps user) (last_seen user))))
         (trace r)
   /\ current_after r = Some userId)
  /\ (nickname_collides nick userId stored (db s) = false ->
      hd_error (select_user userId (db (server_after r)))
      = Some (mkUser (user_id user) nick (change_timestamps user) (db_now env))
      /\ (forall n, ~ In (SocketEmit (force_nickname_update n)) (trace r))
      /\ In (Callback (success (mkUser (user_id user) nick
                                 (change_timestamps user) (last_seen user))))
            (trace r)
      /\ current_after r = Some userId).
Proof.
  intros Hf Hsel Hu r stored. subst r stored.
  rewrite (user_connect_known env cur s userId nick user rest Hf Hsel Hu).
  cbv zeta. simpl server_after. simpl current_after. simpl trace.
  split; intros Hc; rewrite Hc; rewrite select_user_connected, Hsel; simpl hd_error.
  - repeat split.
    + apply in_cons, in_or_app. right. left. reflexivity.
    + apply in_cons, in_or_app. right. simpl. tauto.
  - repeat split.
    + intros n [H|H]; [discriminate H|].
      apply in_app_or in H as [H|H].
      * destruct (String.eqb (nickname user) nick); simpl in H;
          intuition discriminate.
      * simpl in H. intuition discriminate.
    + apply in_cons, in_or_app. right. simpl. tauto.
Qed.

Lemma user_connect_reconciles_witness :
  (map nickname
     (select_user "u2"
        (db (server_after (run (user_connect "u2" "alice") bob_env None sample_server))))
   = ["bob"]
   /\ In (SocketEmit (force_nickname_update "bob"))
        (trace (run (user_connect "u2" "alice") bob_env None sample_server)))
  /\ hd_error
       (select_user "u2"
          (db (server_after (run (user_connect "u2" "robert") bob_env None sample_server))))
     = Some (mkUser "u2" "robert" [] 6001).
Proof.
  split.
  - destruct (user_connect_reconciles bob_env None sample_server "u2" "alice" bob []
                (fun _ => eq_refl) eq_refl eq_refl) as [Hkept _].
    destruct (Hkept eq_refl) as (Hrow & Hforce & _).
    split; [|exact Hforce].
    apply (f_equal (fun o => match o with Some u => [nickname u] | None => [] end)) in Hrow.
    exact Hrow.
  - destruct (user_connect_reconciles bob_env None sample_server "u2" "robert" bob []
                (fun _ => eq_refl) eq_refl eq_refl) as [_ Hadopted].
    exact (proj1 (Hadopted eq_refl)).
Defined.

(** ** Threads of direct messages *)


Lemma join_users_resolved (d : Db) (m : DirectMessage) :
  resolves d m = true -> join_users d m = [loaded_row d m].
Proof.
  unfold resolves, join_users, loaded_row, nickname_of. intros H.
  apply andb_prop in H as [Hs Hr].
  destruct (select_user (dm_sender_id m) d) as [|s [|? ?]]; try discriminate Hs.
  destruct (select_user (dm_receiver_id m) d) as [|r [|? ?]]; try discriminate Hr.
  reflexivity.
Qed.

Lemma flat_map_join_resolved (d : Db) (l : list DirectMessage) :
  (forall m, In m l -> resolves d m = true) ->
  flat_map (join_users d) l = map (loaded_row d) l.
Proof.
  induction l as [|m l IH]; intros H; [reflexivity|].
  simpl. rewrite join_users_resolved by (apply H; left; reflexivity).
  rewrite IH by (intros x Hx; apply H; right; exact Hx). reflexivity.
Qed.

(** Under the keys, the query is the thread with the nicknames joined. *)
Lemma select_thread_resolved (rank : Z -> Z) (a b : string) (d : Db) :
  references_resolve d = true ->
  select_thread rank a b d = map (loaded_row d) (thread_between rank a b d).
Proof.
  intros H. unfold select_thread, thread_between.
  rewrite flat_map_join_resolved.
  - apply sorted_by_map; reflexivity.
  - intros m Hm. apply filter_In in Hm as [Hm _].
    unfold references_resolve in H. rewrite forallb_forall in H. apply H, Hm.
Qed.

(** [load_dms] for a target nickname the table knows, the store answering. *)
Lemma load_dms_known
  (env : Env) (s : Server) (uid targetNickname : string)
  (target : User) (rest : list User) :
  truthy_str uid = true ->
  (forall k, store_fails env k = false) ->
  select_nickname targetNickname (db s) = target :: rest ->
  run (load_dms targetNickname) env (Some uid) s
  = mkResult s (Some uid)
      [Suspend; Suspend;
       SocketEmit (loaded_dms targetNickname
                     (select_thread (dm_rank env 1) uid (user_id target) (db s)))].
Proof.
  intros Ht Hf Hsel. unfold_handlers. cbn. rewrite Ht. cbn. rewrite !Hf. cbn.
  rewrite Hsel. cbn. rewrite !Hf. cbn. reflexivity.
Qed.





(** The first draft runs one sorted query per direction and sorts the
    two results joined, sent messages first: when timestamps collide the
    two users are sent the thread in different orders. *)
Lemma legacy_load_dms_differs_on_ties :
  snd (Legacy.run (Legacy.load_dms "bob") alice_env (Some "alice") legacy_tie_server)
  = [Suspend; Suspend;
     SocketEmit (Legacy.loaded_dms "bob"
       [Legacy.mkDirectMessage 1 "alice" "bob" "hey" "text" 500;
        Legacy.mkDirectMessage 2 "bob" "alice" "hey yourself" "text" 500])]
  /\ snd (Legacy.run (Legacy.load_dms "alice") bob_env (Some "bob") legacy_tie_server)
     = [Suspend; Suspend;
        SocketEmit (Legacy.loaded_dms "alice"
          [Legacy.mkDirectMessage 2 "bob" "alice" "hey yourself" "text" 500;
           Legacy.mkDirectMessage 1 "alice" "bob" "hey" "text" 500])].
Proof. split; reflexivity. Qed.

(** ** Nicknames after a rename *)

Lemma distinct_In (x : string) (l : list string) : In x (distinct l) <-> In x l.
Proof.
  induction l as [|y l IH]; simpl; [tauto|].
  rewrite filter_In, IH, negb_true_iff, String.eqb_neq.
  destruct (string_dec y x) as [E|E]; [tauto|].
  split; [tauto|]. intros [H|H]; [tauto|]. right. split; [exact H|].
  intros E'. apply E. symmetry. exact E'.
Qed.

(** The IN (... UNION ...) test of the partner query. *)
Lemma partner_test (me p : string) (d : Db) :
  mem_str p
    (map dm_receiver_id
       (filter (fun m => String.eqb (dm_sender_id m) me) (direct_messages d))
     ++ map dm_sender_id
          (filter (fun m => String.eqb (dm_receiver_id m) me) (direct_messages d)))
  = exchanged me p d.
Proof.
  apply eq_true_iff_eq. rewrite mem_str_In. unfold exchanged.
  rewrite existsb_exists, in_app_iff, !in_map_iff. unfold between. split.
  - intros [(m & <- & Hm)|(m & <- & Hm)]; apply filter_In in Hm as [Hin Hme];
      exists m; (split; [exact Hin|]); rewrite Hme, String.eqb_refl; simpl.
    + reflexivity.
    + apply orb_true_r.
  - intros (m & Hin & Hb). apply orb_prop in Hb as [Hb|Hb];
      apply andb_prop in Hb as [H1 H2]; apply String.eqb_eq in H2.
    + left. exists m. split; [exact H2|]. apply filter_In. split; assumption.
    + right. apply String.eqb_eq in H1. exists m. split; [exact H1|].
      apply filter_In. split; [exact Hin|]. rewrite H2. apply String.eqb_refl.
Qed.

Lemma select_dm_partners_In (rank : string -> Z) (me x : string) (d : Db) :
  In x (select_dm_partners rank me d)
  <-> exists p, In p (users d) /\ exchanged me (user_id p) d = true /\ nickname p = x.
Proof.
  unfold select_dm_partners, as_found. rewrite order_by_In, distinct_In, in_map_iff.
  split.
  - intros (p & Hx & Hp). apply filter_In in Hp as [Hin Ht].
    rewrite partner_test in Ht. exists p. auto.
  - intros (p & Hin & Ht & Hx). exists p. split; [exact Hx|].
    apply filter_In. split; [exact Hin|]. rewrite partner_test. exact Ht.
Qed.

(** [get_dm_partners] on an identified socket, the store answering. *)
Lemma get_dm_partners_identified (env : Env) (s : Server) (uid : string) :
  truthy_str uid = true ->
  store_fails env 0 = false ->
  run get_dm_partners env (Some uid) s
  = mkResult s (Some uid)
      [Suspend;
       Callback (partner_list (select_dm_partners (nickname_rank env 0) uid (db s)))].
Proof.
  intros Ht Hf. unfold_handlers. cbn. rewrite Ht. cbn. rewrite Hf. cbn. reflexivity.
Qed.

(** The rows of any user after [uid] was renamed. *)
Lemma select_user_after_rename (v uid n sid : string) (now : Z) (s : Server) :
  select_user v (db (renamed_server uid n sid now s))
  = if String.eqb v uid then map (rename_row n now) (select_user uid (db s))
    else select_user v (db s).
Proof.
  destruct (String.eqb_spec v uid) as [->|Hne]; [apply select_user_renamed|].
  unfold renamed_server, select_user. simpl.
  rewrite has_id_update_where by reflexivity. unfold update_where.
  rewrite <- (map_id (filter (has_id v) (users (db s)))) at 2.
  apply map_ext_in. intros u Hu. apply filter_In in Hu as [_ Hu].
  unfold has_id in *. apply String.eqb_eq in Hu. rewrite Hu.
  destruct (String.eqb_spec v uid); [contradiction | reflexivity].
Qed.

Lemma nickname_of_after_rename (v uid n sid : string) (now : Z) (s : Server)
  (row : User) (rest : list User) :
  select_user uid (db s) = row :: rest ->
  nickname_of v (db (renamed_server uid n sid now s))
  = if String.eqb v uid then n else nickname_of v (db s).
Proof.
  intros Hsel. unfold nickname_of. rewrite select_user_after_rename.
  destruct (String.eqb v uid); [rewrite Hsel|]; reflexivity.
Qed.

Lemma references_resolve_after_rename (uid n sid : string) (now : Z) (s : Server) :
  references_resolve (db s) = true ->
  references_resolve (db (renamed_server uid n sid now s)) = true.
Proof.
  unfold references_resolve. rewrite !forallb_forall. simpl direct_messages.
  intros H m Hm. specialize (H m Hm). unfold resolves in *.
  rewrite !select_user_after_rename.
  apply andb_prop in H as [Hs Hr].
  assert (Hone : forall v,
    one_row (select_user v (db s)) = true ->
    one_row (if String.eqb v uid
             then map (rename_row n now) (select_user uid (db s))
             else select_user v (db s)) = true).
  { intros v Hv. destruct (String.eqb_spec v uid) as [->|_]; [|exact Hv].
    destruct (select_user uid (db s)) as [|? [|? ?]]; try discriminate Hv.
    reflexivity. }
  rewrite (Hone _ Hs), (Hone _ Hr). reflexivity.
Qed.

Lemma push_capped_In (feed : list GlobalMessage) (m : GlobalMessage) :
  In m (push_capped feed m).
Proof.
  unfold push_capped.
  destruct (Nat.ltb_spec 100 (List.length (feed ++ [m]))) as [Hfull|_].
  - destruct feed as [|x feed]; simpl in *; [lia|].
    apply in_or_app. right. left. reflexivity.
  - apply in_or_app. right. left. reflexivity.
Qed.

(** C10.  After a [change_nickname] that answered with success, on
    tables under their keys: the direct messages are the same rows as
    before; every identified socket that loads a thread (the store
    answering, whatever order it finds rows of one timestamp in) is sent
    the messages of the thread with the nicknames the users table holds
    after the rename, the new nickname for the renamed user whether
    sender or receiver; [get_dm_partners] answers with nicknames of the
    users table after the rename, the new nickname among them when the
    asking user and the renamed one have exchanged a message, and never
    the old one (when it differs, nicknames being unique); and the feed
    is untouched.  A [global_message] stores the very message it
    broadcasts, with the nickname of the presence entry at the time of
    posting; so after a post and a later rename of the poster the feed
    still holds the message under the old nickname, while the users
    table holds the new one. *)
Theorem nicknames_joined_live_feed_snapshot :
  (forall n env cur s u,
      In (Callback (success u)) (trace (run (change_nickname n) env cur s)) ->
      references_resolve (db s) = true ->
      let s' := server_after (run (change_nickname n) env cur s) in
      exists uid,
        cur = Some uid
        /\ direct_messages (db s') = direct_messages (db s)
        /\ (forall v, nickname_of v (db s')
                      = if String.eqb v uid then n else nickname_of v (db s))
        /\ (forall env2 me targetNickname target rest,
              truthy_str me = true ->
              (forall k, store_fails env2 k = false) ->
              select_nickname targetNickname (db s') = target :: rest ->
              trace (run (load_dms targetNickname) env2 (Some me) s')
              = [Suspend; Suspend;
                 SocketEmit
                   (loaded_dms targetNickname
                      (map (fun m =>
                              mkLoadedDm (dm_id m) (dm_message m) (dm_type m)
                                (dm_timestamp m)
                                (nickname_of (dm_sender_id m) (db s'))
                                (nickname_of (dm_receiver_id m) (db s')))
                         (thread_between (dm_rank env2 1) me (user_id target) (db s))))])
        /\ (forall env2 me,
              truthy_str me = true ->
              store_fails env2 0 = false ->
              exists names,
                trace (run get_dm_partners env2 (Some me) s')
                = [Suspend; Callback (partner_list names)]
                /\ (forall x, In x names ->
                              exists p, In p (users (db s')) /\ nickname p = x
                                        /\ exchanged me (user_id p) (db s) = true)
                /\ (exchanged me uid (db s) = true -> In n names)
                /\ (unique_nicknames (db s) = true ->
                    nickname_of uid (db s) <> n ->
                    ~ In (nickname_of uid (db s)) names))
        /\ globalMessages s' = globalMessages s)
  /\ (forall data env cur s m,
        In (IoEmit (new_global_message m)) (trace (run (global_message data) env cur s)) ->
        exists uid info,
          cur = Some uid
          /\ map_get uid (onlineUsers s) = Some info
          /\ gm_senderId m = uid
          /\ gm_senderNickname m = presence_nickname info
          /\ globalMessages (server_after (run (global_message data) env cur s))
             = push_capped (globalMessages s) m)
  /\ (forall data env1 n env2 uid s info u,
        truthy_str uid = true ->
        map_get uid (onlineUsers s) = Some info ->
        let s1 := server_after (run (global_message data) env1 (Some uid) s) in
        In (Callback (success u)) (trace (run (change_nickname n) env2 (Some uid) s1)) ->
        let s2 := server_after (run (change_nickname n) env2 (Some uid) s1) in
        nickname_of uid (db s2) = n
        /\ In (mkGlobalMessage (date_now env1) uid (presence_nickname info)
                 (data_message data) (or_text (data_type data)) (date_iso env1))
             (globalMessages s2)).
Proof.
  split.
  - intros n env cur s u Hin Href s'. subst s'.
    destruct (change_nickname_cases n env cur s)
      as [(msg0 & k & Ht & _)
         |(uid & row & rest & Hc & _ & Hsel & _ & _ & Hs & _ & _)].
    { rewrite Ht in Hin. apply in_suspends in Hin. discriminate Hin. }
    rewrite Hs. clear Hs Hin. exists uid.
    set (s' := renamed_server uid n (socket_id env) (db_now env) s).
    assert (Hnick : forall v, nickname_of v (db s')
                              = if String.eqb v uid then n else nickname_of v (db s))
      by (intros v; apply (nickname_of_after_rename _ _ _ _ _ _ _ _ Hsel)).
    split; [exact Hc|]. split; [reflexivity|]. split; [exact Hnick|].
    split; [|split; [|reflexivity]].
    + intros env2 me targetNickname target rest2 Hme Hf Htarget.
      rewrite (load_dms_known env2 s' me targetNickname target rest2 Hme Hf Htarget).
      rewrite select_thread_resolved
        by (apply references_resolve_after_rename, Href).
      reflexivity.
    + intros env2 me Hme Hf. exists (select_dm_partners (nickname_rank env2 0) me (db s')).
      split; [rewrite get_dm_partners_identified by assumption; reflexivity|].
      split; [|split].
      * intros x Hx. apply select_dm_partners_In in Hx as (p & Hp & He & Hx).
        exists p. auto.
      * intros He. apply select_dm_partners_In.
        exists (rename_row n (db_now env) row). split; [|split].
        -- assert (Hrow : In (rename_row n (db_now env) row) (select_user uid (db s')))
             by (subst s'; rewrite select_user_renamed, Hsel; left; reflexivity).
           unfold select_user in Hrow. apply filter_In in Hrow. apply Hrow.
        -- assert (Hid : In row (select_user uid (db s)))
             by (rewrite Hsel; left; reflexivity).
           apply select_user_has_id in Hid. unfold has_id in Hid.
           apply String.eqb_eq in Hid. simpl. rewrite Hid. exact He.
        -- reflexivity.
      * intros Huniq Hold Hx.
        apply select_dm_partners_In in Hx as (p & Hp & _ & Hx).
        unfold nickname_of in Hx, Hold. rewrite Hsel in Hx, Hold.
        simpl in Hp. unfold update_where in Hp.
        apply in_map_iff in Hp as (q & Hq & Hqin).
        destruct (has_id uid q) eqn:Hqid.
        -- subst p. simpl in Hx. apply Hold. symmetry. exact Hx.
        -- subst p.
           assert (Hrow : In row (select_user uid (db s)))
             by (rewrite Hsel; left; reflexivity).
           pose proof (select_user_has_id _ _ _ Hrow) as Hrid.
           unfold select_user in Hrow. apply filter_In in Hrow as [Hrow _].
           assert (q = row)
             by (apply (no_duplicates_inj nickname (users (db s))); assumption).
           subst q. rewrite Hrid in Hqid. discriminate Hqid.
  - split.
    + intros data env cur s m. unfold_handlers. cbn.
      destruct cur as [uid|]; cbn; [|intros []].
      destruct (truthy_str uid); cbn; [|intros []].
      destruct (map_get uid (onlineUsers s)) as [info|] eqn:Hinfo; cbn; [|intros []].
      intros [H|[]]. injection H as <-. exists uid, info. repeat split. exact Hinfo.
    + intros data env1 n env2 uid s info u Ht Hinfo s1 Hin s2. subst s2.
      destruct (change_nickname_cases n env2 (Some uid) s1)
        as [(msg0 & k & Htr & _)
           |(uid' & row & rest & Hc & _ & Hsel & _ & _ & Hs & _ & _)].
      { rewrite Htr in Hin. apply in_suspends in Hin. discriminate Hin. }
      injection Hc as <-. rewrite Hs. split.
      * rewrite (nickname_of_after_rename _ _ _ _ _ _ _ _ Hsel).
        rewrite String.eqb_refl. reflexivity.
      * simpl globalMessages. subst s1. unfold_handlers. cbn. rewrite Ht. cbn.
        rewrite Hinfo. cbn. apply push_capped_In.
Qed.

Lemma nicknames_joined_live_feed_snapshot_witness :
  trace (run (load_dms "alicia") bob_env (Some "u2") renamed_chatty_server)
  = [Suspend; Suspend;
     SocketEmit
       (loaded_dms "alicia"
          [mkLoadedDm 3 "earlier?" "text" 400 "alicia" "bob";
           mkLoadedDm 1 "hey" "text" 500 "alicia" "bob";
           mkLoadedDm 2 "hey yourself" "text" 500 "bob" "alicia"])]
  /\ map gm_senderNickname (globalMessages renamed_chatty_server) = ["alice"]
  /\ (exists uid info,
        map_get uid (onlineUsers sample_server) = Some info
        /\ presence_nickname info = "bob")
  /\ In (mkGlobalMessage 2000 "u2" "bob" "hello" "text" "1970-01-01T00:00:02.000Z")
       (globalMessages
          (server_after
             (run (change_nickname "robert") bob_env (Some "u2")
                (server_after
                   (run (global_message (mkGlobalPayload "hello" None)) sample_env
                      (Some "u2") sample_server))))).
Proof.
  destruct nicknames_joined_live_feed_snapshot as (Hrename & Hpost & Hkept).
  assert (Hok : In (Callback (success (mkUser "u1" "alicia" [3001] 0)))
                  (trace (run (change_nickname "alicia") alice_env (Some "u1")
                            chatty_server)))
    by (vm_compute; tauto).
  destruct (Hrename "alicia" alice_env (Some "u1") chatty_server
              (mkUser "u1" "alicia" [3001] 0) Hok eq_refl)
    as (uid & Hc & _ & _ & Hload & _ & Hfeed).
  split; [|split; [|split]].
  - exact (Hload bob_env "u2" "alicia" (mkUser "u1" "alicia" [3001] 0) []
             eq_refl (fun _ => eq_refl) eq_refl).
  - unfold renamed_chatty_server. rewrite Hfeed. reflexivity.
  - destruct (Hpost (mkGlobalPayload "hello" None) sample_env (Some "u2") sample_server
                (mkGlobalMessage 2000 "u2" "bob" "hello" "text"
                   "1970-01-01T00:00:02.000Z"))
      as (uid2 & info & _ & Hinfo & _ & Hnick & _).
    + vm_compute. tauto.
    + exists uid2, info. split; [exact Hinfo | symmetry; exact Hnick].
  - refine (proj2 (Hkept (mkGlobalPayload "hello" None) sample_env "robert" bob_env "u2"
                     sample_server (mkPresence "bob" "socket-2")
                     (mkUser "u2" "robert" [6001] 0) eq_refl eq_refl _)).
    vm_compute. tauto.
Defined.

(** ** The constraints hold whatever events arrive *)

Lemma no_duplicates_NoDup (l : list string) : no_duplicates l = true <-> NoDup l.
Proof.
  induction l as [|x l IH]; simpl.
  - split; [constructor | reflexivity].
  - rewrite andb_true_iff, negb_true_iff, IH. split.
    + intros [Hx Hl]. constructor; [|exact Hl].
      intros Hin. apply mem_str_In in Hin. rewrite Hin in Hx. discriminate Hx.
    + intros H. inversion H as [|? ? Hx Hl]; subst. split; [|exact Hl].
      destruct (mem_str x l) eqn:E; [|reflexivity].
      apply mem_str_In in E. contradiction.
Qed.

Lemma update_where_ids (uid : string) (set : User -> User) (us : list User) :
  (forall u, user_id (set u) = user_id u) ->
  map user_id (update_where uid set us) = map user_id us.
Proof.
  intros Hset. unfold update_where. rewrite map_map. apply map_ext.
  intros u. destruct (has_id uid u); [apply Hset | reflexivity].
Qed.

Lemma update_where_absent (uid : string) (set : User -> User) (us : list User) :
  ~ In uid (map user_id us) -> update_where uid set us = us.
Proof.
  intros H. unfold update_where. rewrite <- (map_id us) at 2.
  apply map_ext_in. intros u Hu. unfold has_id.
  destruct (String.eqb_spec (user_id u) uid) as [E|_]; [|reflexivity].
  exfalso. apply H. rewrite <- E. apply in_map, Hu.
Qed.

(** Writing [nick] to the rows of [uid] keeps nicknames unique when no
    other user holds [nick]. *)
Lemma update_where_nicknames (uid nick : string) (set : User -> User) (us : list User) :
  (forall u, nickname (set u) = nick) ->
  NoDup (map user_id us) ->
  NoDup (map nickname us) ->
  (forall u, In u us -> user_id u <> uid -> nickname u <> nick) ->
  NoDup (map nickname (update_where uid set us)).
Proof.
  intros Hset. induction us as [|u us IH]; intros Hids Hnicks Hfree; [constructor|].
  simpl in *. inversion Hids as [|? ? Hid Hids']; subst.
  inversion Hnicks as [|? ? Hnick Hnicks']; subst.
  unfold has_id at 1. destruct (String.eqb_spec (user_id u) uid) as [E|E].
  - fold (update_where uid set us).
    rewrite update_where_absent by (rewrite <- E; exact Hid).
    rewrite Hset. constructor; [|exact Hnicks'].
    intros Hin. apply in_map_iff in Hin as (v & Hv & Hvin).
    apply (Hfree v); [right; exact Hvin | | exact Hv].
    intros Ev. apply Hid. rewrite E, <- Ev. apply in_map, Hvin.
  - fold (update_where uid set us). constructor.
    + intros Hin. apply in_map_iff in Hin as (v & Hv & Hvin).
      unfold update_where in Hvin. apply in_map_iff in Hvin as (w & Hw & Hwin).
      destruct (has_id uid w); subst v.
      * rewrite Hset in Hv. apply (Hfree u); [left; reflexivity | exact E |].
        symmetry. exact Hv.
      * apply Hnick. rewrite <- Hv. apply in_map, Hwin.
    + apply IH; try assumption. intros v Hv. apply Hfree. right. exact Hv.
Qed.

Lemma filter_nil_all {A} (f : A -> bool) (l : list A) :
  filter f l = [] -> forall x, In x l -> f x = false.
Proof.
  intros H x Hx. destruct (f x) eqn:E; [|reflexivity].
  assert (Hin : In x (filter f l)) by (apply filter_In; split; assumption).
  rewrite H in Hin. destruct Hin.
Qed.

(** An UPDATE of the nickname that passes the UNIQUE index keeps the
    users table under its constraints. *)
Lemma update_where_unique (uid nick : string) (set : User -> User) (d : Db) :
  (forall u, user_id (set u) = user_id u) ->
  (forall u, nickname (set u) = nick) ->
  unique_violation nick uid d = false ->
  unique_ids d = true -> unique_nicknames d = true ->
  NoDup (map user_id (update_where uid set (users d)))
  /\ NoDup (map nickname (update_where uid set (users d))).
Proof.
  unfold unique_ids, unique_nicknames. rewrite !no_duplicates_NoDup.
  intros Hid Hnick Hv Hids Hnicks. split.
  - rewrite update_where_ids by exact Hid. exact Hids.
  - unfold unique_violation in Hv. apply andb_false_iff in Hv as [Hv|Hv];
      apply some_row_false in Hv.
    + rewrite update_where_absent; [exact Hnicks|].
      intros Hin. apply in_map_iff in Hin as (u & Hu & Huin).
      pose proof (filter_nil_all _ _ Hv u Huin) as Hf. unfold has_id in Hf.
      rewrite Hu, String.eqb_refl in Hf. discriminate Hf.
    + apply (update_where_nicknames uid nick); try assumption.
      intros u Hu Hne Hn.
      pose proof (filter_nil_all _ _ Hv u Hu) as Hf. simpl in Hf.
      unfold has_nickname, has_id in Hf. rewrite Hn, String.eqb_refl in Hf.
      destruct (String.eqb_spec (user_id u) uid); [contradiction | discriminate Hf].
Qed.

Lemma references_resolve_same_rows (d d' : Db) :
  direct_messages d' = direct_messages d ->
  (forall v, one_row (select_user v d) = true -> one_row (select_user v d') = true) ->
  references_resolve d = true -> references_resolve d' = true.
Proof.
  unfold references_resolve. intros -> Hrow. rewrite !forallb_forall.
  intros H m Hm. specialize (H m Hm). unfold resolves in *.
  apply andb_prop in H as [Hs Hr]. rewrite (Hrow _ Hs), (Hrow _ Hr). reflexivity.
Qed.

Lemma one_row_updated (v uid : string) (set : User -> User) (d : Db) :
  (forall u, user_id (set u) = user_id u) ->
  one_row (select_user v d) = true ->
  one_row (filter (has_id v) (update_where uid set (users d))) = true.
Proof.
  intros Hset. rewrite has_id_update_where by exact Hset.
  fold (select_user v d). unfold update_where.
  destruct (select_user v d) as [|? [|? ?]]; try discriminate. reflexivity.
Qed.

Lemma updated_consistent (uid nick : string) (set : User -> User) (d : Db) :
  (forall u, user_id (set u) = user_id u) ->
  (forall u, nickname (set u) = nick) ->
  unique_violation nick uid d = false ->
  consistent d = true ->
  consistent (mkDb (update_where uid set (users d)) (direct_messages d) (dm_seq d)) = true.
Proof.
  intros Hid Hnick Hv Hc. unfold consistent in *.
  apply andb_prop in Hc as [Hc Href]. apply andb_prop in Hc as [Hids Hnicks].
  destruct (update_where_unique uid nick set d Hid Hnick Hv Hids Hnicks) as [H1 H2].
  rewrite !andb_true_iff. repeat split.
  - apply no_duplicates_NoDup. exact H1.
  - apply no_duplicates_NoDup. exact H2.
  - apply (references_resolve_same_rows d); [reflexivity | | exact Href].
    intros v. apply one_row_updated. exact Hid.
Qed.

Lemma some_row_one_row (v : string) (d : Db) :
  unique_ids d = true ->
  some_row (select_user v d) = true -> one_row (select_user v d) = true.
Proof.
  unfold unique_ids, select_user. rewrite no_duplicates_NoDup.
  induction (users d) as [|u us IH]; simpl; [discriminate|].
  intros Hnd. inversion Hnd as [|? ? Hid Hnd']; subst.
  destruct (has_id v u) eqn:E.
  - intros _. destruct (filter (has_id v) us) as [|w ws] eqn:Hw; [reflexivity|].
    exfalso. assert (Hin : In w (filter (has_id v) us)) by (rewrite Hw; left; reflexivity).
    apply filter_In in Hin as [Hin Hwv]. unfold has_id in Hwv, E.
    apply String.eqb_eq in Hwv. apply String.eqb_eq in E.
    apply Hid. rewrite E, <- Hwv. apply in_map, Hin.
  - apply IH, Hnd'.
Qed.

Lemma insert_user_consistent (uid nick : string) (now : Z) (d d' : Db) (rows : list User) :
  insert_user uid nick now d = Some (rows, d') ->
  consistent d = true -> consistent d' = true.
Proof.
  unfold insert_user.
  destruct (some_row (select_user uid d)) eqn:Hid; [discriminate|].
  destruct (some_row (select_nickname nick d)) eqn:Hnick; [discriminate|].
  simpl. intros E. injection E as _ <-.
  apply some_row_false in Hid. apply some_row_false in Hnick.
  unfold consistent, unique_ids, unique_nicknames. rewrite !andb_true_iff.
  rewrite !no_duplicates_NoDup. simpl users. rewrite !map_app. simpl map.
  intros [[Hids Hnicks] Href]. repeat split.
  - apply NoDup_app; [exact Hids | repeat constructor; intros [] | ].
    intros x Hx [<-|[]]. apply in_map_iff in Hx as (u & Hu & Huin).
    pose proof (filter_nil_all _ _ Hid u Huin) as Hf. unfold has_id in Hf.
    rewrite Hu, String.eqb_refl in Hf. discriminate Hf.
  - apply NoDup_app; [exact Hnicks | repeat constructor; intros [] | ].
    intros x Hx [<-|[]]. apply in_map_iff in Hx as (u & Hu & Huin).
    pose proof (filter_nil_all _ _ Hnick u Huin) as Hf. unfold has_nickname in Hf.
    rewrite Hu, String.eqb_refl in Hf. discriminate Hf.
  - apply (references_resolve_same_rows d); [reflexivity | | exact Href].
    intros v Hv. unfold select_user in *. simpl users. rewrite filter_app. simpl.
    unfold has_id at 2. simpl.
    destruct (String.eqb_spec uid v) as [->|_]; [|rewrite app_nil_r; exact Hv].
    rewrite Hid in Hv. discriminate Hv.
Qed.

Lemma insert_dm_consistent (sender receiver msg ty : string) (now : Z) (d d' : Db)
  (rows : option (list (Z * Z))) :
  insert_dm sender receiver msg ty now d = (rows, d') ->
  consistent d = true -> consistent d' = true.
Proof.
  unfold insert_dm.
  destruct (some_row (select_user sender d)) eqn:Hs;
    [|simpl; intros E; injection E as _ <-; exact (fun H => H)].
  destruct (some_row (select_user receiver d)) eqn:Hr;
    [|simpl; intros E; injection E as _ <-; exact (fun H => H)].
  simpl. intros E. injection E as _ <-.
  unfold consistent. rewrite !andb_true_iff. intros [[Hids Hnicks] Href].
  repeat split; try assumption.
  unfold references_resolve in *. rewrite forallb_forall in *.
  simpl direct_messages. intros m Hm. apply in_app_or in Hm as [Hm|[<-|[]]].
  - change (resolves d m = true). apply Href, Hm.
  - change (resolves d (mkDirectMessage (dm_seq d + 1) sender receiver msg ty now)
            = true).
    unfold resolves. simpl.
    rewrite (some_row_one_row _ _ Hids Hs), (some_row_one_row _ _ Hids Hr).
    reflexivity.
Qed.

Lemma delete_dm_consistent (mid : Z) (uid : string) (d : Db) :
  consistent d = true -> consistent (snd (delete_dm_rows mid uid d)) = true.
Proof.
  unfold consistent. rewrite !andb_true_iff. intros [[Hids Hnicks] Href].
  repeat split; try assumption.
  unfold references_resolve in *. simpl. rewrite forallb_forall in *.
  intros m Hm. apply filter_In in Hm as [Hm _]. apply (Href m Hm).
Qed.

#[local] Arguments update_connect : simpl never.
#[local] Arguments update_rename : simpl never.
#[local] Arguments insert_user : simpl never.
#[local] Arguments insert_dm : simpl never.
#[local] Arguments delete_dm_rows : simpl never.

(** The store after any event is the store before, or the store after
    one of the five writing statements (the INSERT of a message
    accepted or rejected). *)
Lemma db_after (r : request) (env : Env) (cur : option string) (s : Server) :
  let d' := db (server_after (run (handle r) env cur s)) in
  d' = db s
  \/ (exists nick uid now, update_connect nick uid now (db s) = Some (tt, d'))
  \/ (exists nick uid now rows, insert_user uid nick now (db s) = Some (rows, d'))
  \/ (exists nick uid now rows, update_rename nick uid now (db s) = Some (rows, d'))
  \/ (exists a b msg ty now rows, insert_dm a b msg ty now (db s) = (rows, d'))
  \/ (exists mid uid, d' = snd (delete_dm_rows mid uid (db s))).
Proof.
  destruct r; unfold_handlers; cbn.
  all: break_all; try (left; reflexivity).
  all: try match goal with
           | H : update_connect _ _ _ _ = Some (?x, _) |- _ =>
               destruct x; right; left; do 3 eexists; exact H
           end.
  all: try match goal with
           | H : insert_user _ _ _ _ = Some _ |- _ =>
               do 2 right; left; do 4 eexists; exact H
           end.
  all: try match goal with
           | H : update_rename _ _ _ _ = Some _ |- _ =>
               do 3 right; left; do 4 eexists; exact H
           end.
  all: try match goal with
           | H : insert_dm _ _ _ _ _ _ = (_, _) |- _ =>
               do 4 right; left; do 6 eexists; exact H
           end.
  all: match goal with
       | H : delete_dm_rows ?m ?u _ = _ |- _ =>
           do 5 right; exists m, u; rewrite H; reflexivity
       end.
Qed.

Lemma update_connect_consistent (nick uid : string) (now : Z) (d d' : Db) :
  update_connect nick uid now d = Some (tt, d') ->
  consistent d = true -> consistent d' = true.
Proof.
  unfold update_connect. destruct (unique_violation nick uid d) eqn:Hv; [discriminate|].
  intros E. injection E as <-. apply (updated_consistent uid nick); auto.
Qed.

Lemma update_rename_consistent (nick uid : string) (now : Z) (d d' : Db) (rows : list User) :
  update_rename nick uid now d = Some (rows, d') ->
  consistent d = true -> consistent d' = true.
Proof.
  unfold update_rename. destruct (unique_violation nick uid d) eqn:Hv; [discriminate|].
  intros E. injection E as _ <-. apply (updated_consistent uid nick); auto.
Qed.

(** Every event leaves the tables under their constraints. *)
Lemma consistent_step (r : request) (env : Env) (cur : option string) (s : Server) :
  consistent (db s) = true ->
  consistent (db (server_after (run (handle r) env cur s))) = true.
Proof.
  intros Hc.
  destruct (db_after r env cur s)
    as [E|[(nick & uid & now & E)|[(nick & uid & now & rows & E)
       |[(nick & uid & now & rows & E)|[(a & b & msg & ty & now & rows & E)
       |(mid & uid & E)]]]]].
  - rewrite E. exact Hc.
  - exact (update_connect_consistent _ _ _ _ _ E Hc).
  - exact (insert_user_consistent _ _ _ _ _ _ E Hc).
  - exact (update_rename_consistent _ _ _ _ _ _ E Hc).
  - exact (insert_dm_consistent _ _ _ _ _ _ _ _ E Hc).
  - rewrite E. apply delete_dm_consistent, Hc.
Qed.

Lemma consistent_run_all (steps : list Step) (s : Server) :
  consistent (db s) = true -> consistent (db (fst (run_all steps s))) = true.
Proof.
  revert s. induction steps as [|st steps IH]; intros s Hc; [exact Hc|].
  simpl.
  specialize (IH (server_after
    (run (handle (step_request st)) (step_env st) (step_current st) s))
    (consistent_step _ _ _ _ Hc)).
  destruct (run_all steps _); exact IH.
Qed.

(** * Further properties of the current server *)

(** ** Who a socket is *)

Lemma user_connect_new_user
  (env : Env) (cur : option string) (s : Server) (userId nick : string) :
  (forall k, store_fails env k = false) ->
  select_user userId (db s) = [] ->
  select_nickname nick (db s) = [] ->
  run (user_connect userId nick) env cur s
  = mkResult
      (mkServer
         (mkDb (users (db s) ++ [mkUser userId nick [] (db_now env)])
            (direct_messages (db s)) (dm_seq (db s)))
         (map_set userId (mkPresence nick (socket_id env)) (onlineUsers s))
         (globalMessages s))
      (Some userId)
      [Suspend; Suspend; Suspend; PresenceWrite userId;
       IoEmit (online_users_update
                 (map_keys (map_set userId (mkPresence nick (socket_id env))
                              (onlineUsers s))));
       Callback (success (mkUser userId nick [] (db_now env)));
       SocketEmit (load_global_messages (globalMessages s))].
Proof.
  intros Hf Hid Hnick.
  unfold_handlers. cbn. rewrite !Hf. cbn. rewrite Hid. cbn. rewrite !Hf. cbn.
  rewrite Hnick. cbn. rewrite !Hf. cbn.
  unfold insert_user. rewrite Hid, Hnick. cbn. reflexivity.
Qed.





(** X2.  The socket's [currentUserId] is written by [user_connect] only,
    and only when it answers with success: every other event, a failed
    connect and even [disconnect] leave it as it was. *)
Theorem identity_bound_only_by_connect
  (r : request) (env : Env) (cur : option string) (s : Server) :
  current_after (run (handle r) env cur s) = cur
  \/ exists userId nick u,
       r = UserConnect userId nick
       /\ current_after (run (handle r) env cur s) = Some userId
       /\ In (Callback (success u)) (trace (run (handle r) env cur s)).
Proof.
  destruct r; unfold_handlers; cbn.
  all: break_all; try (left; reflexivity).
  all: right; do 3 eexists; split; [reflexivity|]; split; [reflexivity|];
    simpl; tauto.
Qed.

(** ** Connecting, continued *)

Lemma insert_user_some (uid nick : string) (now : Z) (d d' : Db) (rows : list User) :
  insert_user uid nick now d = Some (rows, d') ->
  rows = [mkUser uid nick [] now]
  /\ d' = mkDb (users d ++ [mkUser uid nick [] now]) (direct_messages d) (dm_seq d).
Proof.
  unfold insert_user.
  destruct (some_row (select_user uid d) || some_row (select_nickname nick d));
    [discriminate|].
  intros E. injection E as <- <-. split; reflexivity.
Qed.

(** X3.  [user_connect] for a user id the table does not know (the store
    answering).  When some user holds the requested nickname the
    callback gets the "nickname in use" failure and nothing changes.
    Otherwise a row with an empty change ledger and the store's time as
    last_seen is appended, the socket is bound, the presence entry is
    written, the roster is broadcast, the callback gets the new row, and
    the feed as it is goes to this socket. *)
Theorem user_connect_registers
  (env : Env) (cur : option string) (s : Server) (userId nick : string) :
  (forall k, store_fails env k = false) ->
  select_user userId (db s) = [] ->
  (select_nickname nick (db s) <> [] ->
   run (user_connect userId nick) env cur s
   = mkResult s cur [Suspend; Suspend; Callback (failure MSG_NICKNAME_IN_USE)])
  /\ (select_nickname nick (db s) = [] ->
      run (user_connect userId nick) env cur s
      = mkResult
          (mkServer
             (mkDb (users (db s) ++ [mkUser userId nick [] (db_now env)])
                (direct_messages (db s)) (dm_seq (db s)))
             (map_set userId (mkPresence nick (socket_id env)) (onlineUsers s))
             (globalMessages s))
          (Some userId)
          [Suspend; Suspend; Suspend; PresenceWrite userId;
           IoEmit (online_users_update
                     (map_keys (map_set userId (mkPresence nick (socket_id env))
                                  (onlineUsers s))));
           Callback (success (mkUser userId nick [] (db_now env)));
           SocketEmit (load_global_messages (globalMessages s))]).
Proof.
  intros Hf Hid. split; intros Hnick.
  - unfold_handlers. cbn. rewrite !Hf. cbn. rewrite Hid. cbn. rewrite !Hf. cbn.
    destruct (select_nickname nick (db s)); [contradiction|]. reflexivity.
  - apply user_connect_new_user; assumption.
Qed.

Lemma user_connect_registers_witness :
  trace (run (user_connect "u3" "alice") carol_env_soon None sample_server)
  = [Suspend; Suspend; Callback (failure MSG_NICKNAME_IN_USE)]
  /\ map_keys (onlineUsers
                 (server_after (run (user_connect "u3" "carol") carol_env_soon None
                                  sample_server)))
     = ["u1"; "u2"; "u3"].
Proof.
  destruct (user_connect_registers carol_env_soon None sample_server "u3" "alice"
              (fun _ => eq_refl) eq_refl) as [Htaken _].
  destruct (user_connect_registers carol_env_soon None sample_server "u3" "carol"
              (fun _ => eq_refl) eq_refl) as [_ Hfree].
  split.
  - rewrite Htaken; [reflexivity | discriminate].
  - rewrite (Hfree eq_refl). reflexivity.
Defined.

(** X4.  A [user_connect] that answers with a failure has changed
    nothing: the tables, the presence map, the feed and the socket's
    identity are what they were, nothing was broadcast and no presence
    entry was written; the failure is "nickname in use" or the connect
    error. *)
Theorem user_connect_failure_leaves_no_entry
  (userId nick : string) (env : Env) (cur : option string) (s : Server) (msg : string) :
  In (Callback (failure msg)) (trace (run (user_connect userId nick) env cur s)) ->
  server_after (run (user_connect userId nick) env cur s) = s
  /\ current_after (run (user_connect userId nick) env cur s) = cur
  /\ (forall e, In e (trace (run (user_connect userId nick) env cur s)) ->
                e = Suspend
                \/ (exists n, e = SocketEmit (force_nickname_update n))
                \/ e = Callback (failure msg))
  /\ In msg [MSG_NICKNAME_IN_USE; MSG_CONNECT_ERROR].
Proof.
  unfold_handlers. cbn. break_all.
  all: try match goal with
           | H : insert_user _ _ _ _ = Some _ |- _ =>
               apply insert_user_some in H as [H ?]; try discriminate H
           end.
  all: intros Hin; simpl in Hin;
    try (exfalso; intuition congruence).
  all: assert (Hmsg : In msg [MSG_NICKNAME_IN_USE; MSG_CONNECT_ERROR])
         by (simpl; intuition congruence).
  all: repeat split; try exact Hmsg.
  all: intros e He; simpl in He; intuition (subst; eauto; try congruence).
Qed.

Lemma user_connect_failure_leaves_no_entry_witness :
  server_after (run (user_connect "u3" "carol") store_down_env None sample_server)
  = sample_server.
Proof.
  apply (user_connect_failure_leaves_no_entry "u3" "carol" store_down_env None
           sample_server MSG_CONNECT_ERROR).
  vm_compute. tauto.
Defined.

(** ** The presence map and the roster *)

Lemma map_keys_set (k : string) (p : Presence) (m : list (string * Presence)) :
  map_keys (map_set k p m)
  = if mem_str k (map_keys m) then map_keys m else map_keys m ++ [k].
Proof.
  unfold map_keys, mem_str. induction m as [|[k' v'] m IH]; simpl; [reflexivity|].
  rewrite (String.eqb_sym k k').
  destruct (String.eqb k' k) eqn:E; simpl.
  - apply String.eqb_eq in E. subst k'. reflexivity.
  - rewrite IH. destruct (existsb (String.eqb k) (map fst m)); reflexivity.
Qed.

Lemma map_keys_delete (k : string) (m : list (string * Presence)) :
  map_keys (map_delete k m) = filter (fun x => negb (String.eqb x k)) (map_keys m).
Proof.
  unfold map_keys, map_delete. induction m as [|[k' v'] m IH]; simpl; [reflexivity|].
  destruct (String.eqb k' k); simpl; rewrite IH; reflexivity.
Qed.

Lemma map_get_delete_same {V} (k : string) (m : list (string * V)) :
  map_get k (map_delete k m) = None.
Proof.
  unfold map_delete. induction m as [|[k' v'] m IH]; simpl; [reflexivity|].
  destruct (String.eqb k' k) eqn:E; simpl; [exact IH|]. rewrite E. exact IH.
Qed.

Lemma map_get_delete_other {V} (k v : string) (m : list (string * V)) :
  v <> k -> map_get v (map_delete k m) = map_get v m.
Proof.
  intros Hne. unfold map_delete. induction m as [|[k' x] m IH]; simpl; [reflexivity|].
  destruct (String.eqb_spec k' k) as [->|Hk]; simpl.
  - destruct (String.eqb_spec k v) as [E|_]; [congruence | exact IH].
  - destruct (String.eqb k' v); [reflexivity | exact IH].
Qed.

Lemma NoDup_filter {A} (f : A -> bool) (l : list A) : NoDup l -> NoDup (filter f l).
Proof.
  induction 1 as [|x l Hx _ IH]; simpl; [constructor|].
  destruct (f x); [|exact IH]. constructor; [|exact IH].
  intros Hin. apply filter_In in Hin. tauto.
Qed.

(** What any event does to the presence map. *)
Lemma presence_after (r : request) (env : Env) (cur : option string) (s : Server) :
  let o' := onlineUsers (server_after (run (handle r) env cur s)) in
  o' = onlineUsers s
  \/ (exists uid p, o' = map_set uid p (onlineUsers s))
  \/ (exists uid, o' = map_delete uid (onlineUsers s)).
Proof.
  destruct r; unfold_handlers; cbn.
  all: break_all; try (left; reflexivity).
  all: try (right; left; do 2 eexists; reflexivity).
  all: right; right; eexists; reflexivity.
Qed.

Lemma roster_unique_step (r : request) (env : Env) (cur : option string) (s : Server) :
  NoDup (map_keys (onlineUsers s)) ->
  NoDup (map_keys (onlineUsers (server_after (run (handle r) env cur s)))).
Proof.
  intros H. destruct (presence_after r env cur s) as [E|[(uid & p & E)|(uid & E)]];
    rewrite E.
  - exact H.
  - rewrite map_keys_set. destruct (mem_str uid (map_keys (onlineUsers s))) eqn:Hm;
      [exact H|].
    apply NoDup_app; [exact H | repeat constructor; intros [] |].
    intros x Hx [<-|[]]. apply mem_str_In in Hx. rewrite Hx in Hm. discriminate Hm.
  - rewrite map_keys_delete. apply NoDup_filter, H.
Qed.

(** X5.  Every [online_users_update] carries exactly the keys the
    presence map has when the handler is done; a handler that writes to
    the presence map broadcasts that roster before it ends; and the
    roster never lists a user id twice, whatever events arrive. *)
Theorem roster_broadcasts_are_current :
  (forall r env cur s ids,
      In (IoEmit (online_users_update ids)) (trace (run (handle r) env cur s)) ->
      ids = map_keys (onlineUsers (server_after (run (handle r) env cur s))))
  /\ (forall r env cur s uid,
        In (PresenceWrite uid) (trace (run (handle r) env cur s)) ->
        In (IoEmit (online_users_update
                      (map_keys (onlineUsers (server_after (run (handle r) env cur s))))))
           (trace (run (handle r) env cur s)))
  /\ (forall steps s,
        NoDup (map_keys (onlineUsers s)) ->
        NoDup (map_keys (onlineUsers (fst (run_all steps s))))).
Proof.
  split; [|split].
  - intros r env cur s ids. destruct r; unfold_handlers; cbn.
    all: break_all; intros Hin; simpl in Hin.
    all: intuition (try discriminate).
    all: match goal with
         | H : IoEmit (online_users_update _) = _ |- _ =>
             injection H as <-; reflexivity
         end.
  - intros r env cur s uid. destruct r; unfold_handlers; cbn.
    all: break_all; intros Hin; simpl in Hin |- *.
    all: try (exfalso; intuition congruence).
    all: tauto.
  - intros steps. induction steps as [|st steps IH]; intros s H; [exact H|].
    simpl.
    specialize (IH (server_after
      (run (handle (step_request st)) (step_env st) (step_current st) s))
      (roster_unique_step _ _ _ _ H)).
    destruct (run_all steps _); exact IH.
Qed.

Lemma roster_broadcasts_are_current_witness :
  NoDup (map_keys (onlineUsers (fst (run_all busy_steps sample_server))))
  /\ In (IoEmit (online_users_update ["u1"; "u2"]))
        (trace (run (handle Disconnect) carol_env_soon (Some "u3")
                  (mkServer sample_db (sample_online ++ [("u3", mkPresence "carol" "socket-3")])
                     []))).
Proof.
  destruct roster_broadcasts_are_current as (_ & Hwrite & Hunique).
  split.
  - apply Hunique. repeat constructor; simpl; intuition discriminate.
  - apply (Hwrite Disconnect carol_env_soon (Some "u3")
             (mkServer sample_db (sample_online ++ [("u3", mkPresence "carol" "socket-3")])
                []) "u3").
    vm_compute. tauto.
Defined.

(** X6.  [disconnect] on an identified socket removes the user's presence
    entry, whichever socket wrote it, keeps every other entry, touches
    neither the tables nor the feed nor the socket's identity, and
    broadcasts the roster without the user. *)
Theorem disconnect_leaves_roster (env : Env) (uid : string) (s : Server) :
  truthy_str uid = true ->
  let r := run disconnect env (Some uid) s in
  ~ In uid (map_keys (onlineUsers (server_after r)))
  /\ map_get uid (onlineUsers (server_after r)) = None
  /\ (forall v, v <> uid ->
                map_get v (onlineUsers (server_after r)) = map_get v (onlineUsers s))
  /\ db (server_after r) = db s
  /\ globalMessages (server_after r) = globalMessages s
  /\ current_after r = Some uid
  /\ trace r = [PresenceWrite uid;
                IoEmit (online_users_update (map_keys (onlineUsers (server_after r))))].
Proof.
  intros Ht r. subst r. unfold_handlers. cbn. rewrite Ht. cbn.
  repeat split.
  - fold (map_keys (map_delete uid (onlineUsers s))). rewrite map_keys_delete.
    intros Hin. apply filter_In in Hin as [_ Hin].
    rewrite String.eqb_refl in Hin. discriminate Hin.
  - apply map_get_delete_same.
  - intros v Hv. apply map_get_delete_other, Hv.
Qed.

Lemma disconnect_leaves_roster_witness :
  map_keys (onlineUsers (server_after (run disconnect sample_env (Some "u2") sample_server)))
  = ["u1"]
  /\ map_get "u2"
       (onlineUsers (server_after (run disconnect sample_env (Some "u2") sample_server)))
     = None.
Proof.
  split; [reflexivity|].
  exact (proj1 (proj2 (disconnect_leaves_roster sample_env "u2" sample_server eq_refl))).
Defined.

(** X7.  The presence entry is per user, not per socket.  When one
    socket of a user disconnects, another socket still bound to the same
    user has no presence entry any more: its [global_message] is dropped
    without any answer, until a [user_connect] writes the entry again. *)
Theorem other_socket_goes_mute
  (env1 env2 : Env) (uid : string) (s : Server) (data : GlobalPayload) :
  truthy_str uid = true ->
  let s1 := server_after (run disconnect env1 (Some uid) s) in
  run (global_message data) env2 (Some uid) s1 = mkResult s1 (Some uid) [].
Proof.
  intros Ht s1.
  assert (Hgone : map_get uid (onlineUsers s1) = None).
  { subst s1. unfold_handlers. cbn. rewrite Ht. cbn. apply map_get_delete_same. }
  clearbody s1. unfold_handlers. cbn. rewrite Ht. cbn. rewrite Hgone. reflexivity.
Qed.

Lemma other_socket_goes_mute_witness :
  trace (run (global_message (mkGlobalPayload "still here" None)) bob_env (Some "u2")
           (server_after (run disconnect sample_env (Some "u2") sample_server)))
  = [].
Proof.
  rewrite (other_socket_goes_mute sample_env bob_env "u2" sample_server
             (mkGlobalPayload "still here" None) eq_refl).
  reflexivity.
Defined.

(** X8.  The empty string is a user id the table takes, but a falsy
    one.  A socket that registered it is bound to it and has a presence
    entry, yet every handler treats the socket as unidentified, and its
    [disconnect] removes nothing: the id stays in the roster. *)
Theorem empty_user_id_stays_in_roster
  (env env2 : Env) (cur : option string) (s : Server) (nick : string) (data : GlobalPayload) :
  (forall k, store_fails env k = false) ->
  select_user "" (db s) = [] ->
  select_nickname nick (db s) = [] ->
  let r := run (user_connect "" nick) env cur s in
  current_after r = Some ""
  /\ In "" (map_keys (onlineUsers (server_after r)))
  /\ run (global_message data) env2 (current_after r) (server_after r)
     = mkResult (server_after r) (Some "") []
  /\ run disconnect env2 (current_after r) (server_after r)
     = mkResult (server_after r) (Some "") [].
Proof.
  intros Hf Hid Hnick r. subst r.
  rewrite (user_connect_new_user env cur s "" nick Hf Hid Hnick). simpl server_after.
  simpl current_after.
  repeat split. apply map_keys_set_In.
Qed.

Lemma empty_user_id_stays_in_roster_witness :
  map_keys
    (onlineUsers
       (server_after
          (run disconnect sample_env (Some "")
             (server_after (run (user_connect "" "ghost") carol_env_soon None sample_server)))))
  = ["u1"; "u2"; ""].
Proof.
  destruct (empty_user_id_stays_in_roster carol_env_soon sample_env None sample_server
              "ghost" (mkGlobalPayload "boo" None) (fun _ => eq_refl) eq_refl eq_refl)
    as (Hc & _ & _ & Hd).
  rewrite Hc in Hd. rewrite Hd. reflexivity.
Defined.

(** ** Direct messages *)

Lemma select_nickname_In (n : string) (d : Db) (u : User) (rest : list User) :
  select_nickname n d = u :: rest -> In u (users d) /\ nickname u = n.
Proof.
  intros H. assert (Hin : In u (select_nickname n d)) by (rewrite H; left; reflexivity).
  unfold select_nickname in Hin. apply filter_In in Hin as [Hin Hn].
  unfold has_nickname in Hn. apply String.eqb_eq in Hn. auto.
Qed.

Lemma some_row_select_user (u : User) (d : Db) :
  In u (users d) -> some_row (select_user (user_id u) d) = true.
Proof.
  intros H. assert (Hin : In u (select_user (user_id u) d)).
  { unfold select_user. apply filter_In. split; [exact H|].
    unfold has_id. apply String.eqb_refl. }
  destruct (select_user (user_id u) d); [destruct Hin | reflexivity].
Qed.

(** The store after [send_dm] has written. *)
Lemma send_dm_written
  (env : Env) (uid : string) (s : Server) (receiverNickname message : string)
  (type : option string) (receiver : User) (rest : list User) :
  select_nickname receiverNickname (db s) = receiver :: rest ->
  some_row (select_user uid (db s)) = true ->
  insert_dm uid (user_id receiver) message (or_text type) (db_now env) (db s)
  = (Some [(dm_seq (db s) + 1, db_now env)],
     mkDb (users (db s))
       (direct_messages (db s)
        ++ [mkDirectMessage (dm_seq (db s) + 1) uid (user_id receiver) message
              (or_text type) (db_now env)])
       (dm_seq (db s) + 1)).
Proof.
  intros Hsel Hsender. unfold insert_dm. rewrite Hsender.
  rewrite (some_row_select_user receiver (db s)
             (proj1 (select_nickname_In _ _ _ _ Hsel))).
  reflexivity.
Qed.

Lemma send_dm_delivered
  (env : Env) (uid : string) (s : Server) (receiverNickname message : string)
  (type : option string) (receiver : User) (rest : list User) (senderInfo : Presence) :
  truthy_str uid = true ->
  (forall k, store_fails env k = false) ->
  select_nickname receiverNickname (db s) = receiver :: rest ->
  some_row (select_user uid (db s)) = true ->
  map_get uid (onlineUsers s) = Some senderInfo ->
  let newDM :=
    mkNewDm (dm_seq (db s) + 1) uid (user_id receiver)
      (presence_nickname senderInfo) receiverNickname message (or_text type)
      (db_now env) in
  run (send_dm receiverNickname message type) env (Some uid) s
  = mkResult
      (mkServer
         (mkDb (users (db s))
            (direct_messages (db s)
             ++ [mkDirectMessage (dm_seq (db s) + 1) uid (user_id receiver) message
                   (or_text type) (db_now env)])
            (dm_seq (db s) + 1))
         (onlineUsers s) (globalMessages s))
      (Some uid)
      ([Suspend; Suspend; SocketEmit (new_dm newDM)]
       ++ match find (fun e => String.eqb (presence_nickname (snd e)) receiverNickname)
                  (onlineUsers s) with
          | Some (_, info) =>
              if truthy_str (socketId info)
              then [ToEmit (socketId info) (new_dm newDM)]
              else []
          | None => []
          end).
Proof.
  intros Ht Hf Hsel Hsender Hinfo newDM. subst newDM.
  unfold_handlers. cbn. rewrite Ht. cbn. rewrite !Hf. cbn. rewrite Hsel. cbn.
  rewrite !Hf. cbn.
  rewrite (send_dm_written env uid s receiverNickname message type receiver rest
             Hsel Hsender).
  cbn. rewrite Hinfo. cbn.
  destruct (find _ (onlineUsers s)) as [[k info]|]; cbn; [|reflexivity].
  destruct (truthy_str (socketId info)); reflexivity.
Qed.

(** The server after a [send_dm] whose INSERT was accepted, whether or
    not the sender has a presence entry. *)
Lemma send_dm_stored
  (env : Env) (uid : string) (s : Server) (receiverNickname message : string)
  (type : option string) (receiver : User) (rest : list User) :
  truthy_str uid = true ->
  (forall k, store_fails env k = false) ->
  select_nickname receiverNickname (db s) = receiver :: rest ->
  some_row (select_user uid (db s)) = true ->
  server_after (run (send_dm receiverNickname message type) env (Some uid) s)
  = mkServer
      (mkDb (users (db s))
         (direct_messages (db s)
          ++ [mkDirectMessage (dm_seq (db s) + 1) uid (user_id receiver) message
                (or_text type) (db_now env)])
         (dm_seq (db s) + 1))
      (onlineUsers s) (globalMessages s).
Proof.
  intros Ht Hf Hsel Hsender.
  unfold_handlers. cbn. rewrite Ht. cbn. rewrite !Hf. cbn. rewrite Hsel. cbn.
  rewrite !Hf. cbn.
  rewrite (send_dm_written env uid s receiverNickname message type receiver rest
             Hsel Hsender).
  cbn. destruct (map_get uid (onlineUsers s)); cbn; [|reflexivity].
  destruct (find _ (onlineUsers s)) as [[k info]|]; cbn; [|reflexivity].
  destruct (truthy_str (socketId info)); reflexivity.
Qed.

(** [send_dm] by a user without a row: the foreign key rejects the row,
    the id is gone. *)
Lemma send_dm_rejected
  (env : Env) (uid : string) (s : Server) (receiverNickname message : string)
  (type : option string) (receiver : User) (rest : list User) :
  truthy_str uid = true ->
  (forall k, store_fails env k = false) ->
  select_nickname receiverNickname (db s) = receiver :: rest ->
  some_row (select_user uid (db s)) = false ->
  run (send_dm receiverNickname message type) env (Some uid) s
  = mkResult
      (mkServer (mkDb (users (db s)) (direct_messages (db s)) (dm_seq (db s) + 1))
         (onlineUsers s) (globalMessages s))
      (Some uid)
      [Suspend; Suspend; SocketEmit (dm_send_failed MSG_DM_ERROR)].
Proof.
  intros Ht Hf Hsel Hsender.
  unfold_handlers. cbn. rewrite Ht. cbn. rewrite !Hf. cbn. rewrite Hsel. cbn.
  rewrite !Hf. cbn. unfold insert_dm. rewrite Hsender. reflexivity.
Qed.

Lemma send_dm_unannounced
  (env : Env) (uid : string) (s : Server) (receiverNickname message : string)
  (type : option string) (receiver : User) (rest : list User) :
  truthy_str uid = true ->
  (forall k, store_fails env k = false) ->
  select_nickname receiverNickname (db s) = receiver :: rest ->
  some_row (select_user uid (db s)) = true ->
  map_get uid (onlineUsers s) = None ->
  run (send_dm receiverNickname message type) env (Some uid) s
  = mkResult
      (mkServer
         (mkDb (users (db s))
            (direct_messages (db s)
             ++ [mkDirectMessage (dm_seq (db s) + 1) uid (user_id receiver) message
                   (or_text type) (db_now env)])
            (dm_seq (db s) + 1))
         (onlineUsers s) (globalMessages s))
      (Some uid)
      [Suspend; Suspend; SocketEmit (dm_send_failed MSG_DM_ERROR)].
Proof.
  intros Ht Hf Hsel Hsender Hinfo.
  unfold_handlers. cbn. rewrite Ht. cbn. rewrite !Hf. cbn. rewrite Hsel. cbn.
  rewrite !Hf. cbn.
  rewrite (send_dm_written env uid s receiverNickname message type receiver rest
             Hsel Hsender).
  cbn. rewrite Hinfo. reflexivity.
Qed.

(** X9.  [send_dm] on an identified socket, the store answering, has
    four outcomes.  (1) No user has the receiver's nickname: the socket
    gets [dm_send_failed] with the no-receiver text and nothing is
    written.  (2) The receiver exists but the sender's user id has no
    row: the INSERT is rejected, no message is stored, the id it drew
    from the sequence is gone, and the socket gets [dm_send_failed] with
    the server-error text.  (3) Both have a row but the sender has no
    presence entry: the message is stored under the next id and the
    socket gets [dm_send_failed] with the server-error text.  (4) Both
    have a row and the sender has a presence entry: the message is
    stored under the next id with the sender's user id and the
    receiver's; the sender's socket gets [new_dm] with the nickname of
    the sender's presence entry, and so does the socket of the first
    presence entry that carries the receiver's nickname, if there is one
    with a non-empty socket id. *)
Theorem send_dm_stores_and_delivers
  (env : Env) (uid : string) (s : Server) (receiverNickname message : string)
  (type : option string) :
  truthy_str uid = true ->
  (forall k, store_fails env k = false) ->
  let r := run (send_dm receiverNickname message type) env (Some uid) s in
  let stored receiver :=
    mkServer
      (mkDb (users (db s))
         (direct_messages (db s)
          ++ [mkDirectMessage (dm_seq (db s) + 1) uid (user_id receiver) message
                (or_text type) (db_now env)])
         (dm_seq (db s) + 1))
      (onlineUsers s) (globalMessages s) in
  (select_nickname receiverNickname (db s) = [] ->
   r = mkResult s (Some uid) [Suspend; SocketEmit (dm_send_failed MSG_NO_RECEIVER)])
  /\ (forall receiver rest,
        select_nickname receiverNickname (db s) = receiver :: rest ->
        some_row (select_user uid (db s)) = false ->
        r = mkResult
              (mkServer
                 (mkDb (users (db s)) (direct_messages (db s)) (dm_seq (db s) + 1))
                 (onlineUsers s) (globalMessages s))
              (Some uid)
              [Suspend; Suspend; SocketEmit (dm_send_failed MSG_DM_ERROR)])
  /\ (forall receiver rest,
        select_nickname receiverNickname (db s) = receiver :: rest ->
        some_row (select_user uid (db s)) = true ->
        map_get uid (onlineUsers s) = None ->
        r = mkResult (stored receiver) (Some uid)
              [Suspend; Suspend; SocketEmit (dm_send_failed MSG_DM_ERROR)])
  /\ (forall receiver rest senderInfo,
        select_nickname receiverNickname (db s) = receiver :: rest ->
        some_row (select_user uid (db s)) = true ->
        map_get uid (onlineUsers s) = Some senderInfo ->
        let newDM :=
          mkNewDm (dm_seq (db s) + 1) uid (user_id receiver)
            (presence_nickname senderInfo) receiverNickname message (or_text type)
            (db_now env) in
        r = mkResult (stored receiver) (Some uid)
              ([Suspend; Suspend; SocketEmit (new_dm newDM)]
               ++ match find (fun e => String.eqb (presence_nickname (snd e))
                                         receiverNickname)
                          (onlineUsers s) with
                  | Some (_, info) =>
                      if truthy_str (socketId info)
                      then [ToEmit (socketId info) (new_dm newDM)]
                      else []
                  | None => []
                  end)).
Proof.
  intros Ht Hf r stored. subst r stored. split; [|split; [|split]].
  - intros Hnone. unfold_handlers. cbn. rewrite Ht. cbn. rewrite !Hf. cbn.
    rewrite Hnone. reflexivity.
  - intros receiver rest Hsel Hsender.
    exact (send_dm_rejected env uid s receiverNickname message type receiver rest
             Ht Hf Hsel Hsender).
  - intros receiver rest Hsel Hsender Hinfo.
    exact (send_dm_unannounced env uid s receiverNickname message type receiver rest
             Ht Hf Hsel Hsender Hinfo).
  - intros receiver rest senderInfo Hsel Hsender Hinfo.
    exact (send_dm_delivered env uid s receiverNickname message type receiver rest
             senderInfo Ht Hf Hsel Hsender Hinfo).
Qed.

Lemma send_dm_stores_and_delivers_witness :
  trace (run (send_dm "nobody" "hello" None) alice_env (Some "u1") sample_server)
  = [Suspend; SocketEmit (dm_send_failed MSG_NO_RECEIVER)]
  /\ trace (run (send_dm "bob" "hello" None) alice_env (Some "u1") sample_server)
     = [Suspend; Suspend;
        SocketEmit (new_dm (mkNewDm 1 "u1" "u2" "alice" "bob" "hello" "text" 3001));
        ToEmit "socket-2" (new_dm (mkNewDm 1 "u1" "u2" "alice" "bob" "hello" "text" 3001))]
  /\ db (server_after (run (send_dm "bob" "hello" None) carol_env_soon (Some "u3")
                         sample_server))
     = mkDb [alice; bob] [] 1.
Proof.
  destruct (send_dm_stores_and_delivers alice_env "u1" sample_server "nobody" "hello" None
              eq_refl (fun _ => eq_refl)) as (Hnone & _).
  destruct (send_dm_stores_and_delivers alice_env "u1" sample_server "bob" "hello" None
              eq_refl (fun _ => eq_refl)) as (_ & _ & _ & Hsome).
  destruct (send_dm_stores_and_delivers carol_env_soon "u3" sample_server "bob" "hello"
              None eq_refl (fun _ => eq_refl)) as (_ & Hrejected & _).
  split; [|split].
  - rewrite (Hnone eq_refl). reflexivity.
  - rewrite (Hsome bob [] (mkPresence "alice" "socket-1") eq_refl eq_refl eq_refl).
    reflexivity.
  - rewrite (Hrejected bob [] eq_refl eq_refl). reflexivity.
Defined.

(** X10.  [send_dm] reads the sender's nickname from the presence map
    after the INSERT.  On an identified socket whose user has no
    presence entry (another socket of the user disconnected) the message
    is stored all the same, and then the socket is told [dm_send_failed]
    with the server-error text; nobody gets [new_dm]. *)
Theorem send_dm_without_presence_stores_and_fails
  (env : Env) (uid : string) (s : Server) (receiverNickname message : string)
  (type : option string) (receiver : User) (rest : list User) :
  truthy_str uid = true ->
  (forall k, store_fails env k = false) ->
  select_nickname receiverNickname (db s) = receiver :: rest ->
  some_row (select_user uid (db s)) = true ->
  map_get uid (onlineUsers s) = None ->
  run (send_dm receiverNickname message type) env (Some uid) s
  = mkResult
      (mkServer
         (mkDb (users (db s))
            (direct_messages (db s)
             ++ [mkDirectMessage (dm_seq (db s) + 1) uid (user_id receiver) message
                   (or_text type) (db_now env)])
            (dm_seq (db s) + 1))
         (onlineUsers s) (globalMessages s))
      (Some uid)
      [Suspend; Suspend; SocketEmit (dm_send_failed MSG_DM_ERROR)].
Proof.
  intros Ht Hf Hsel Hsender Hinfo.
  unfold_handlers. cbn. rewrite Ht. cbn. rewrite !Hf. cbn. rewrite Hsel. cbn.
  rewrite !Hf. cbn.
  rewrite (send_dm_written env uid s receiverNickname message type receiver rest
             Hsel Hsender).
  cbn. rewrite Hinfo. reflexivity.
Qed.

Lemma send_dm_without_presence_stores_and_fails_witness :
  map dm_message
    (direct_messages
       (db (server_after
              (run (send_dm "alice" "are you there" None) bob_env (Some "u2")
                 (server_after (run disconnect sample_env (Some "u2") sample_server))))))
  = ["are you there"]
  /\ trace (run (send_dm "alice" "are you there" None) bob_env (Some "u2")
              (server_after (run disconnect sample_env (Some "u2") sample_server)))
     = [Suspend; Suspend; SocketEmit (dm_send_failed MSG_DM_ERROR)].
Proof.
  rewrite (send_dm_without_presence_stores_and_fails bob_env "u2"
             (server_after (run disconnect sample_env (Some "u2") sample_server))
             "alice" "are you there" None alice []
             eq_refl (fun _ => eq_refl) eq_refl eq_refl eq_refl).
  split; reflexivity.
Defined.

Lemma users_same_id (d : Db) (u v : User) :
  unique_ids d = true -> In u (users d) -> In v (users d) ->
  user_id u = user_id v -> u = v.
Proof. intros H. apply (no_duplicates_inj user_id (users d)). exact H. Qed.

Lemma nickname_of_row (d : Db) (u : User) :
  unique_ids d = true -> In u (users d) -> nickname_of (user_id u) d = nickname u.
Proof.
  intros Hids Hu. unfold nickname_of.
  pose proof (some_row_select_user u d Hu) as Hsome.
  destruct (select_user (user_id u) d) as [|v vs] eqn:Hsel; [discriminate Hsome|].
  assert (Hv : In v (select_user (user_id u) d)) by (rewrite Hsel; left; reflexivity).
  pose proof (select_user_has_id _ _ _ Hv) as Hid.
  unfold select_user in Hv. apply filter_In in Hv as [Hv _].
  unfold has_id in Hid. apply String.eqb_eq in Hid.
  rewrite (users_same_id d v u Hids Hv Hu Hid). reflexivity.
Qed.

(** X11.  What was sent is loaded.  After a [send_dm] on an identified
    socket whose INSERT was accepted (the receiver's nickname is known
    and the sender has a row; user ids unique; the store answering),
    whether or not the sender has a presence entry, the sender's
    [load_dms] for that nickname (the store answering) is sent one list,
    ascending in timestamp: the thread between the two as it was plus
    one row with the new id, the body, the type, the store's time, the
    sender's current nickname and the receiver's. *)
Theorem sent_dm_is_loaded
  (env env2 : Env) (uid : string) (s : Server) (receiverNickname message : string)
  (type : option string) (receiver : User) (rest : list User) :
  truthy_str uid = true ->
  (forall k, store_fails env k = false) ->
  (forall k, store_fails env2 k = false) ->
  select_nickname receiverNickname (db s) = receiver :: rest ->
  some_row (select_user uid (db s)) = true ->
  unique_ids (db s) = true ->
  let s' := server_after (run (send_dm receiverNickname message type) env (Some uid) s) in
  exists rows,
    trace (run (load_dms receiverNickname) env2 (Some uid) s')
    = [Suspend; Suspend; SocketEmit (loaded_dms receiverNickname rows)]
    /\ Sorted (key_le ld_timestamp) rows
    /\ Permutation rows
         (mkLoadedDm (dm_seq (db s) + 1) message (or_text type) (db_now env)
            (nickname_of uid (db s)) receiverNickname
          :: select_thread (dm_rank env2 1) uid (user_id receiver) (db s)).
Proof.
  intros Ht Hf Hf2 Hsel Hsender Hids s'. subst s'.
  rewrite (send_dm_stored env uid s receiverNickname message type receiver rest
             Ht Hf Hsel Hsender).
  set (m := mkDirectMessage (dm_seq (db s) + 1) uid (user_id receiver) message
              (or_text type) (db_now env)).
  set (s' := mkServer _ _ _).
  exists (select_thread (dm_rank env2 1) uid (user_id receiver) (db s')).
  split;
    [rewrite (load_dms_known env2 s' uid receiverNickname receiver rest Ht Hf2 Hsel);
     reflexivity|].
  split; [apply sorted_by_sorted|].
  destruct (select_nickname_In _ _ _ _ Hsel) as [Hrin Hrn].
  assert (Hjoin : join_users (db s) m
                  = [mkLoadedDm (dm_seq (db s) + 1) message (or_text type) (db_now env)
                       (nickname_of uid (db s)) receiverNickname]).
  { rewrite join_users_resolved.
    - unfold loaded_row. simpl. rewrite (nickname_of_row _ _ Hids Hrin), Hrn.
      reflexivity.
    - unfold resolves. simpl.
      rewrite (some_row_one_row _ _ Hids Hsender).
      rewrite (some_row_one_row _ _ Hids (some_row_select_user _ _ Hrin)).
      reflexivity. }
  assert (Hsame : forall x, join_users (db s') x = join_users (db s) x) by reflexivity.
  assert (Hb : between uid (user_id receiver) m = true).
  { unfold between. simpl. rewrite !String.eqb_refl. reflexivity. }
  unfold select_thread. eapply perm_trans; [apply sorted_by_perm|].
  rewrite (flat_map_ext _ _ Hsame).
  replace (direct_messages (db s')) with (direct_messages (db s) ++ [m]) by reflexivity.
  rewrite filter_app, flat_map_app.
  replace (flat_map (join_users (db s)) (filter (between uid (user_id receiver)) [m]))
    with (join_users (db s) m ++ [])
    by (cbn [filter]; rewrite Hb; reflexivity).
  rewrite Hjoin, app_nil_r.
  eapply perm_trans; [apply Permutation_app_comm|]. simpl. apply perm_skip.
  apply Permutation_sym. apply sorted_by_perm.
Qed.

Lemma sent_dm_is_loaded_witness :
  exists rows,
    trace (run (load_dms "bob") alice_env_4 (Some "u1")
             (server_after (run (send_dm "bob" "once more" None) alice_env (Some "u1")
                              tie_server)))
    = [Suspend; Suspend; SocketEmit (loaded_dms "bob" rows)]
    /\ In (mkLoadedDm 4 "once more" "text" 3001 "alice" "bob") rows.
Proof.
  destruct (sent_dm_is_loaded alice_env alice_env_4 "u1" tie_server "bob" "once more" None
              bob []
              eq_refl (fun _ => eq_refl) (fun _ => eq_refl) eq_refl eq_refl eq_refl)
    as (rows & Htrace & _ & Hperm).
  exists rows. split; [exact Htrace|].
  apply (Permutation_in _ (Permutation_sym Hperm)). left. reflexivity.
Defined.

Lemma delete_dm_rows_eq (mid : Z) (uid : string) (d : Db) :
  delete_dm_rows mid uid d
  = (map (fun m => (dm_sender_id m, dm_receiver_id m))
       (filter (delete_dm_where mid uid) (direct_messages d)),
     mkDb (users d)
       (filter (fun m => negb (delete_dm_where mid uid m)) (direct_messages d))
       (dm_seq d)).
Proof. reflexivity. Qed.

Lemma filter_all {A} (f : A -> bool) (l : list A) :
  (forall x, In x l -> f x = true) -> filter f l = l.
Proof.
  induction l as [|x l IH]; intros H; [reflexivity|].
  simpl. rewrite (H x (or_introl eq_refl)). f_equal. apply IH.
  intros y Hy. apply H. right. exact Hy.
Qed.

(** X12.  [delete_dm] removes nothing but direct messages with the id
    asked for in which the socket's user is sender or receiver: whatever
    the socket, the payload and the store do, every message after the
    event was there before, every message that is gone had that id and
    that user as a party, and the users, the sequence, the presence map,
    the feed and the socket's identity are untouched.  All it ever
    emits is [dm_deleted] with that id, to single sockets. *)
Theorem delete_dm_only_own
  (messageId : Z) (env : Env) (cur : option string) (s : Server) :
  let r := run (delete_dm messageId) env cur s in
  users (db (server_after r)) = users (db s)
  /\ dm_seq (db (server_after r)) = dm_seq (db s)
  /\ onlineUsers (server_after r) = onlineUsers s
  /\ globalMessages (server_after r) = globalMessages s
  /\ current_after r = cur
  /\ (forall m, In m (direct_messages (db (server_after r))) ->
                In m (direct_messages (db s)))
  /\ (forall m, In m (direct_messages (db s)) ->
                ~ In m (direct_messages (db (server_after r))) ->
                dm_id m = messageId
                /\ exists uid, cur = Some uid
                               /\ (dm_sender_id m = uid \/ dm_receiver_id m = uid))
  /\ (forall e, In e (trace r) ->
                e = Suspend \/ exists sid, e = ToEmit sid (dm_deleted messageId)).
Proof.
  intros r. subst r. unfold_handlers. cbn.
  destruct cur as [uid|]; cbn.
  2:{ repeat split; auto; try contradiction;
      try (intros e He; simpl in He; intuition (subst; eauto)). }
  destruct (truthy_str uid); cbn.
  2:{ repeat split; auto; try contradiction;
      try (intros e He; simpl in He; intuition (subst; eauto)). }
  destruct (store_fails env 0); cbn.
  { repeat split; auto; try contradiction;
      try (intros e He; simpl in He; intuition (subst; eauto)). }
  rewrite delete_dm_rows_eq. cbn.
  assert (Hkept : forall m,
    In m (filter (fun m => negb (delete_dm_where messageId uid m))
            (direct_messages (db s))) -> In m (direct_messages (db s)))
    by (intros m Hm; apply filter_In in Hm; tauto).
  assert (Hgone : forall m,
    In m (direct_messages (db s)) ->
    ~ In m (filter (fun m => negb (delete_dm_where messageId uid m))
              (direct_messages (db s))) ->
    dm_id m = messageId
    /\ exists u, Some uid = Some u /\ (dm_sender_id m = u \/ dm_receiver_id m = u)).
  { intros m Hm Hn. destruct (delete_dm_where messageId uid m) eqn:Hw.
    - unfold delete_dm_where in Hw. apply andb_prop in Hw as [Hid Hparty].
      apply Z.eqb_eq in Hid. split; [exact Hid|]. exists uid. split; [reflexivity|].
      apply orb_prop in Hparty as [H|H]; apply String.eqb_eq in H; auto.
    - exfalso. apply Hn. apply filter_In. rewrite Hw. auto. }
  destruct (map _ (filter (delete_dm_where messageId uid) (direct_messages (db s))))
    as [|[sender_id receiver_id] rows]; cbn.
  { repeat split; auto;
      try (match goal with
           | Hm : In ?x _, Hn : ~ In ?x _ |- _ =>
               destruct (Hgone x Hm Hn) as [? ?]; assumption
           end);
      try (intros e He; simpl in He; intuition (subst; eauto)). }
  destruct (map_get sender_id (onlineUsers s)) as [senderInfo|];
    destruct (map_get receiver_id (onlineUsers s)) as [receiverInfo|];
    try destruct (negb (String.eqb receiver_id sender_id)); cbn.
  all: repeat split; auto.
  all: try (match goal with
            | Hm : In ?x _, Hn : ~ In ?x _ |- _ =>
                destruct (Hgone x Hm Hn) as [? ?]; assumption
            end).
  all: try (intros e He; simpl in He; intuition (subst; eauto)).
Qed.

(** The store after a [delete_dm] that reached it. *)
Lemma delete_dm_store (messageId : Z) (env : Env) (uid : string) (s : Server) :
  truthy_str uid = true ->
  store_fails env 0 = false ->
  db (server_after (run (delete_dm messageId) env (Some uid) s))
  = snd (delete_dm_rows messageId uid (db s)).
Proof.
  intros Ht Hf. unfold_handlers. cbn. rewrite Ht. cbn. rewrite Hf. cbn.
  rewrite delete_dm_rows_eq. cbn.
  destruct (map _ (filter (delete_dm_where messageId uid) (direct_messages (db s))))
    as [|[a b] rows]; cbn; [reflexivity|].
  destruct (map_get a (onlineUsers s)); destruct (map_get b (onlineUsers s));
    try destruct (negb (String.eqb b a)); reflexivity.
Qed.

Lemma delete_dm_trace
  (messageId : Z) (env : Env) (uid : string) (s : Server)
  (m : DirectMessage) (rest : list DirectMessage) :
  truthy_str uid = true ->
  store_fails env 0 = false ->
  filter (delete_dm_where messageId uid) (direct_messages (db s)) = m :: rest ->
  trace (run (delete_dm messageId) env (Some uid) s)
  = [Suspend]
    ++ notify_deleted (onlineUsers s) (dm_sender_id m) messageId
    ++ (if String.eqb (dm_receiver_id m) (dm_sender_id m) then []
        else notify_deleted (onlineUsers s) (dm_receiver_id m) messageId).
Proof.
  intros Ht Hf Hm. unfold_handlers. cbn. rewrite Ht. cbn. rewrite Hf. cbn.
  rewrite delete_dm_rows_eq. cbn. rewrite Hm. cbn. unfold notify_deleted.
  destruct (map_get (dm_sender_id m) (onlineUsers s));
    destruct (map_get (dm_receiver_id m) (onlineUsers s));
    destruct (String.eqb (dm_receiver_id m) (dm_sender_id m)); reflexivity.
Qed.

(** X13.  [delete_dm] by a party of the message, the store answering:
    after the one round trip, [dm_deleted] goes to the socket of the
    sender's presence entry and to the socket of the receiver's, each if
    there is one, and once only when the message was to oneself. *)
Theorem delete_dm_notifies_parties
  (messageId : Z) (env : Env) (uid : string) (s : Server)
  (m : DirectMessage) (rest : list DirectMessage) :
  truthy_str uid = true ->
  store_fails env 0 = false ->
  filter (delete_dm_where messageId uid) (direct_messages (db s)) = m :: rest ->
  trace (run (delete_dm messageId) env (Some uid) s)
  = [Suspend]
    ++ notify_deleted (onlineUsers s) (dm_sender_id m) messageId
    ++ (if String.eqb (dm_receiver_id m) (dm_sender_id m) then []
        else notify_deleted (onlineUsers s) (dm_receiver_id m) messageId)
  /\ ~ In m (direct_messages (db (server_after (run (delete_dm messageId) env (Some uid) s)))).
Proof.
  intros Ht Hf Hm. split; [apply (delete_dm_trace messageId env uid s m rest Ht Hf Hm)|].
  unfold_handlers. cbn. rewrite Ht. cbn. rewrite Hf. cbn.
  rewrite delete_dm_rows_eq. cbn. rewrite Hm. cbn.
  assert (Hw : delete_dm_where messageId uid m = true).
  { assert (Hin : In m (filter (delete_dm_where messageId uid) (direct_messages (db s))))
      by (rewrite Hm; left; reflexivity).
    apply filter_In in Hin. tauto. }
  assert (Hnot : ~ In m (filter (fun x => negb (delete_dm_where messageId uid x))
                           (direct_messages (db s)))).
  { intros Hin. apply filter_In in Hin as [_ Hin]. rewrite Hw in Hin.
    discriminate Hin. }
  destruct (map_get (dm_sender_id m) (onlineUsers s));
    destruct (map_get (dm_receiver_id m) (onlineUsers s));
    destruct (String.eqb (dm_receiver_id m) (dm_sender_id m)); exact Hnot.
Qed.

Lemma delete_dm_notifies_parties_witness :
  trace (run (delete_dm 2) alice_env (Some "u1") tie_server)
  = [Suspend; ToEmit "socket-2" (dm_deleted 2); ToEmit "socket-1" (dm_deleted 2)]
  /\ map dm_id (direct_messages (db (server_after (run (delete_dm 2) alice_env (Some "u1")
                                                      tie_server))))
     = [1; 3].
Proof.
  destruct (delete_dm_notifies_parties 2 alice_env "u1" tie_server
              (mkDirectMessage 2 "u2" "u1" "hey yourself" "text" 500) []
              eq_refl eq_refl eq_refl) as [Htrace _].
  split; [rewrite Htrace; reflexivity | reflexivity].
Defined.

(** X14.  Send, then delete.  On a table whose ids are at most the
    sequence, a [send_dm] on an identified socket whose INSERT was
    accepted (the receiver's nickname is known, the sender has a row,
    the store answering), followed by the sender's [delete_dm] of the id
    the message was given (the store answering again), leaves the table
    of direct messages as it was before the two;
    the sequence has moved on by one, so the id is not given out again;
    and [dm_deleted] goes to the socket of the sender's presence entry
    and to the socket of the receiver's, each only if there is such an
    entry, and once only when the message was to oneself. *)
Theorem send_then_delete_dm
  (env env2 : Env) (uid : string) (s : Server) (receiverNickname message : string)
  (type : option string) (receiver : User) (rest : list User) :
  truthy_str uid = true ->
  (forall k, store_fails env k = false) ->
  store_fails env2 0 = false ->
  select_nickname receiverNickname (db s) = receiver :: rest ->
  some_row (select_user uid (db s)) = true ->
  ids_from_sequence (db s) = true ->
  let s1 := server_after (run (send_dm receiverNickname message type) env (Some uid) s) in
  let r2 := run (delete_dm (dm_seq (db s) + 1)) env2 (Some uid) s1 in
  direct_messages (db (server_after r2)) = direct_messages (db s)
  /\ dm_seq (db (server_after r2)) = dm_seq (db s) + 1
  /\ trace r2
     = [Suspend]
       ++ notify_deleted (onlineUsers s) uid (dm_seq (db s) + 1)
       ++ (if String.eqb (user_id receiver) uid then []
           else notify_deleted (onlineUsers s) (user_id receiver) (dm_seq (db s) + 1)).
Proof.
  intros Ht Hf Hf2 Hsel Hsender Hseq s1 r2. subst r2 s1.
  rewrite (send_dm_stored env uid s receiverNickname message type receiver rest
             Ht Hf Hsel Hsender).
  set (m := mkDirectMessage (dm_seq (db s) + 1) uid (user_id receiver) message
              (or_text type) (db_now env)).
  set (s1 := mkServer _ _ _).
  assert (Hold : forall x, In x (direct_messages (db s)) ->
                           delete_dm_where (dm_seq (db s) + 1) uid x = false).
  { intros x Hx. unfold ids_from_sequence in Hseq. rewrite forallb_forall in Hseq.
    specialize (Hseq x Hx). apply Z.leb_le in Hseq. unfold delete_dm_where.
    destruct (Z.eqb_spec (dm_id x) (dm_seq (db s) + 1)); [lia | reflexivity]. }
  assert (Hnew : delete_dm_where (dm_seq (db s) + 1) uid m = true).
  { unfold delete_dm_where. simpl. rewrite Z.eqb_refl, String.eqb_refl. reflexivity. }
  assert (Hmatch : filter (delete_dm_where (dm_seq (db s) + 1) uid)
                     (direct_messages (db s1)) = [m]).
  { subst s1. simpl direct_messages. rewrite filter_app. cbn [filter]. rewrite Hnew.
    replace (filter (delete_dm_where (dm_seq (db s) + 1) uid) (direct_messages (db s)))
      with (@nil DirectMessage); [reflexivity|].
    symmetry. destruct (filter _ (direct_messages (db s))) as [|x xs] eqn:E;
      [reflexivity|].
    assert (Hx : In x (filter (delete_dm_where (dm_seq (db s) + 1) uid)
                         (direct_messages (db s)))) by (rewrite E; left; reflexivity).
    apply filter_In in Hx as [Hx Hw]. rewrite (Hold x Hx) in Hw. discriminate Hw. }
  pose proof (delete_dm_trace (dm_seq (db s) + 1) env2 uid s1 m [] Ht Hf2 Hmatch)
    as Htrace.
  assert (Hdb : filter (fun x => negb (delete_dm_where (dm_seq (db s) + 1) uid x))
                  (direct_messages (db s) ++ [m]) = direct_messages (db s)).
  { rewrite filter_app. cbn [filter]. rewrite Hnew. simpl. rewrite app_nil_r.
    apply filter_all. intros x Hx. rewrite (Hold x Hx). reflexivity. }
  rewrite (delete_dm_store _ env2 uid s1 Ht Hf2), delete_dm_rows_eq.
  split; [exact Hdb|]. split; [reflexivity|]. exact Htrace.
Qed.

Lemma send_then_delete_dm_witness :
  direct_messages
    (db (server_after
           (run (delete_dm 4) alice_env_4 (Some "u1")
              (server_after (run (send_dm "bob" "oops" None) alice_env (Some "u1")
                               tie_server)))))
  = direct_messages tie_db
  /\ trace (run (delete_dm 4) alice_env_4 (Some "u1")
              (server_after (run (send_dm "bob" "oops" None) alice_env (Some "u1")
                               tie_server)))
     = [Suspend; ToEmit "socket-1" (dm_deleted 4); ToEmit "socket-2" (dm_deleted 4)].
Proof.
  destruct (send_then_delete_dm alice_env alice_env_4 "u1" tie_server "bob" "oops" None
              bob [] eq_refl (fun _ => eq_refl) eq_refl eq_refl eq_refl eq_refl)
    as (Hdms & _ & Htrace).
  split; [exact Hdms | exact Htrace].
Defined.

(** ** What the handlers leave alone *)

Lemma update_connect_some (n uid : string) (now : Z) (d d' : Db) (x : unit) :
  update_connect n uid now d = Some (x, d') ->
  d' = mkDb (update_where uid (connect_row n now) (users d))
         (direct_messages d) (dm_seq d).
Proof.
  unfold update_connect. destruct (unique_violation n uid d); [discriminate|].
  intros E. injection E as _ E. symmetry. exact E.
Qed.

(** X15.  Each store has its writers and no others, whatever the socket,
    the payload and the store faults: only [user_connect] and
    [change_nickname] write to the users table, only [send_dm] and
    [delete_dm] to the direct messages and their sequence, only
    [user_connect], [change_nickname] and [disconnect] to the presence
    map, only [global_message] and [delete_global_message] to the feed.
    [get_dm_partners] and [load_dms] write nothing at all. *)
Theorem handlers_keep_to_their_stores
  (r : request) (env : Env) (cur : option string) (s : Server) :
  let s' := server_after (run (handle r) env cur s) in
  (writes_users r = false -> users (db s') = users (db s))
  /\ (writes_direct_messages r = false ->
      direct_messages (db s') = direct_messages (db s) /\ dm_seq (db s') = dm_seq (db s))
  /\ (writes_presence r = false -> onlineUsers s' = onlineUsers s)
  /\ (writes_feed r = false -> globalMessages s' = globalMessages s).
Proof.
  assert (Hdm : forall a b msg ty now d rows d',
             insert_dm a b msg ty now d = (rows, d') -> users d' = users d).
  { intros a b msg ty now d rows d'. unfold insert_dm.
    destruct (some_row (select_user a d) && some_row (select_user b d));
      intros E; injection E as _ <-; reflexivity. }
  assert (Hren : forall n uid now d rows d',
             update_rename n uid now d = Some (rows, d') ->
             direct_messages d' = direct_messages d /\ dm_seq d' = dm_seq d).
  { intros n uid now d rows d' E. apply update_rename_some in E as [_ ->].
    split; reflexivity. }
  assert (Hcon : forall n uid now d x d',
             update_connect n uid now d = Some (x, d') ->
             direct_messages d' = direct_messages d /\ dm_seq d' = dm_seq d).
  { intros n uid now d x d' E. apply update_connect_some in E. subst d'.
    split; reflexivity. }
  assert (Hins : forall uid n now d rows d',
             insert_user uid n now d = Some (rows, d') ->
             direct_messages d' = direct_messages d /\ dm_seq d' = dm_seq d).
  { intros uid n now d rows d' E. apply insert_user_some in E as [_ ->].
    split; reflexivity. }
  intros s'. subst s'. destruct r; unfold_handlers; cbn.
  all: break_all.
  all: repeat split; try intros Hw; try congruence.
  all: try match goal with
           | H : insert_dm _ _ _ _ _ _ = (_, _) |- _ => exact (Hdm _ _ _ _ _ _ _ _ H)
           end.
  all: try match goal with
           | H : update_rename _ _ _ _ = Some _ |- _ =>
               first [exact (proj1 (Hren _ _ _ _ _ _ H)) | exact (proj2 (Hren _ _ _ _ _ _ H))]
           end.
  all: try match goal with
           | H : update_connect _ _ _ _ = Some _ |- _ =>
               first [exact (proj1 (Hcon _ _ _ _ _ _ H)) | exact (proj2 (Hcon _ _ _ _ _ _ H))]
           end.
  all: try match goal with
           | H : insert_user _ _ _ _ = Some _ |- _ =>
               first [exact (proj1 (Hins _ _ _ _ _ _ H)) | exact (proj2 (Hins _ _ _ _ _ _ H))]
           end.
  all: match goal with
       | H : delete_dm_rows _ _ _ = (_, _) |- _ =>
           rewrite delete_dm_rows_eq in H; injection H as _ <-; reflexivity
       end.
Qed.

Lemma handlers_keep_to_their_stores_witness :
  direct_messages
    (db (server_after (run (handle (LoadDms "bob")) store_down_env (Some "u1") tie_server)))
  = direct_messages tie_db
  /\ globalMessages
       (server_after (run (handle (SendDm "bob" "hi" None)) alice_env (Some "u1")
                        sample_server))
     = [hi_from_alice].
Proof.
  split.
  - destruct (handlers_keep_to_their_stores (LoadDms "bob") store_down_env (Some "u1")
                tie_server) as (_ & Hd & _).
    exact (proj1 (Hd eq_refl)).
  - destruct (handlers_keep_to_their_stores (SendDm "bob" "hi" None) alice_env (Some "u1")
                sample_server) as (_ & _ & _ & Hfeed).
    exact (Hfeed eq_refl).
Defined.

Lemma update_where_keeps (uid : string) (set : User -> User) (us : list User) (u : User) :
  (forall v, user_id (set v) = user_id v) ->
  (forall v, exists extra, change_timestamps (set v) = change_timestamps v ++ extra) ->
  In u us ->
  exists u', In u' (update_where uid set us)
             /\ user_id u' = user_id u
             /\ exists extra, change_timestamps u' = change_timestamps u ++ extra.
Proof.
  intros Hid Hts Hu. exists (if has_id uid u then set u else u). split; [|split].
  - unfold update_where. apply in_map_iff. exists u. auto.
  - destruct (has_id uid u); [apply Hid | reflexivity].
  - destruct (has_id uid u); [apply Hts|]. exists []. symmetry. apply app_nil_r.
Qed.

Lemma users_kept_step (r : request) (env : Env) (cur : option string) (s : Server) (u : User) :
  In u (users (db s)) ->
  exists u', In u' (users (db (server_after (run (handle r) env cur s))))
             /\ user_id u' = user_id u
             /\ exists extra, change_timestamps u' = change_timestamps u ++ extra.
Proof.
  intros Hu.
  assert (Hsame : exists u', In u' (users (db s)) /\ user_id u' = user_id u
                             /\ exists extra, change_timestamps u' = change_timestamps u ++ extra).
  { exists u. split; [exact Hu|]. split; [reflexivity|]. exists []. symmetry.
    apply app_nil_r. }
  destruct (db_after r env cur s)
    as [E|[(nick & uid & now & E)|[(nick & uid & now & rows & E)
       |[(nick & uid & now & rows & E)|[(a & b & msg & ty & now & rows & E)
       |(mid & uid & E)]]]]].
  - rewrite E. exact Hsame.
  - apply update_connect_some in E. rewrite E. simpl users.
    apply update_where_keeps; [reflexivity | | exact Hu].
    intros v. exists []. simpl. symmetry. apply app_nil_r.
  - apply insert_user_some in E as [_ E]. rewrite E. simpl users.
    exists u. split; [apply in_or_app; left; exact Hu|]. split; [reflexivity|].
    exists []. symmetry. apply app_nil_r.
  - apply update_rename_some in E as [_ E]. rewrite E. simpl users.
    apply update_where_keeps; [reflexivity | | exact Hu].
    intros v. exists [now]. reflexivity.
  - unfold insert_dm in E.
    destruct (some_row (select_user a (db s)) && some_row (select_user b (db s)));
      injection E as _ E; rewrite <- E; exact Hsame.
  - rewrite E, delete_dm_rows_eq. exact Hsame.
Qed.

(** X16.  No event deletes a user or shortens a change ledger: a user
    row of the table has, after any events on any sockets, a row with
    the same user id whose change_timestamps begin with the ones it had. *)
Theorem users_are_never_deleted (steps : list Step) (s : Server) (u : User) :
  In u (users (db s)) ->
  exists u', In u' (users (db (fst (run_all steps s))))
             /\ user_id u' = user_id u
             /\ exists extra, change_timestamps u' = change_timestamps u ++ extra.
Proof.
  revert s u. induction steps as [|st steps IH]; intros s u Hu.
  - exists u. split; [exact Hu|]. split; [reflexivity|]. exists []. symmetry.
    apply app_nil_r.
  - simpl.
    destruct (users_kept_step (step_request st) (step_env st) (step_current st) s u Hu)
      as (u1 & Hu1 & Hid1 & extra1 & Hts1).
    destruct (IH _ u1 Hu1) as (u2 & Hu2 & Hid2 & extra2 & Hts2).
    destruct (run_all steps _) as [s' t]. simpl in *.
    exists u2. split; [exact Hu2|]. split; [congruence|].
    exists (extra1 ++ extra2). rewrite Hts2, Hts1, app_assoc. reflexivity.
Qed.

Lemma users_are_never_deleted_witness :
  exists u', In u' (users (db (fst (run_all busy_steps carol_server))))
             /\ user_id u' = "u3"
             /\ exists extra, change_timestamps u' = [1000; 2000] ++ extra.
Proof.
  apply (users_are_never_deleted busy_steps carol_server carol).
  simpl. tauto.
Defined.

(** ** The feed, continued *)

Lemma filter_shorter {A} (f : A -> bool) (l : list A) (x : A) :
  In x l -> f x = false -> (List.length (filter f l) < List.length l)%nat.
Proof.
  induction l as [|y l IH]; intros Hin Hx; [destruct Hin|].
  simpl. destruct Hin as [->|Hin].
  - rewrite Hx. pose proof (filter_length_le f l). lia.
  - specialize (IH Hin Hx). destruct (f y); simpl; lia.
Qed.

Lemma without_id_last (id : Z) (l : list GlobalMessage) (m : GlobalMessage) :
  gm_id m = id -> without_id id (l ++ [m]) = without_id id l.
Proof.
  intros E. unfold without_id. rewrite filter_app. simpl.
  rewrite E, Z.eqb_refl. simpl. apply app_nil_r.
Qed.

(** X17.  Post, then delete.  An identified user with a presence entry
    posts, then deletes the id the message was given (the millisecond of
    the post) naming the own user id.  The deletion is broadcast, and
    the feed is the feed from before the post (after the eviction the
    post caused, if it was full) without any message that carries this
    id: messages of other users posted in the same millisecond go too. *)
Theorem post_then_delete
  (env1 env2 : Env) (uid : string) (s : Server) (data : GlobalPayload) (info : Presence) :
  truthy_str uid = true ->
  map_get uid (onlineUsers s) = Some info ->
  let r1 := run (global_message data) env1 (Some uid) s in
  let r2 := run (delete_global_message (date_now env1) (js_str uid)) env2 (Some uid)
              (server_after r1) in
  trace r2 = [IoEmit (global_message_deleted (date_now env1))]
  /\ globalMessages (server_after r2)
     = without_id (date_now env1)
         (if (100 <=? List.length (globalMessages s))%nat
          then tl (globalMessages s) else globalMessages s).
Proof.
  intros Ht Hinfo r1 r2. subst r2 r1.
  set (m := mkGlobalMessage (date_now env1) uid (presence_nickname info)
              (data_message data) (or_text (data_type data)) (date_iso env1)).
  assert (H1 : server_after (run (global_message data) env1 (Some uid) s)
               = mkServer (db s) (onlineUsers s) (push_capped (globalMessages s) m)).
  { unfold_handlers. cbn. rewrite Ht. cbn. rewrite Hinfo. reflexivity. }
  rewrite H1. clear H1.
  assert (Hpush : exists kept,
             push_capped (globalMessages s) m = kept ++ [m]
             /\ kept = if (100 <=? List.length (globalMessages s))%nat
                       then tl (globalMessages s) else globalMessages s).
  { unfold push_capped. rewrite length_app. simpl.
    destruct (Nat.ltb_spec 100 (List.length (globalMessages s) + 1));
      destruct (Nat.leb_spec 100 (List.length (globalMessages s))); try lia.
    - exists (tl (globalMessages s)). split; [|reflexivity].
      destruct (globalMessages s); [simpl in *; lia | reflexivity].
    - exists (globalMessages s). split; reflexivity. }
  destruct Hpush as (kept & Hpush & Hkept). rewrite <- Hkept.
  set (s1 := mkServer (db s) (onlineUsers s) (push_capped (globalMessages s) m)).
  assert (Hfeed : globalMessages
                    (server_after (run (delete_global_message (date_now env1) (js_str uid))
                                     env2 (Some uid) s1))
                  = without_id (date_now env1) kept).
  { rewrite delete_global_message_own_id. subst s1. simpl globalMessages.
    rewrite Hpush. apply without_id_last. reflexivity. }
  split; [|exact Hfeed].
  destruct (delete_global_message_broadcast (date_now env1) (js_str uid) env2 (Some uid) s1)
    as [[Htrace _]|[_ Hsame]]; [exact Htrace|].
  exfalso. rewrite Hfeed in Hsame. subst s1. simpl globalMessages in Hsame.
  rewrite Hpush in Hsame. apply (f_equal (@List.length _)) in Hsame.
  rewrite length_app in Hsame. simpl in Hsame. unfold without_id in Hsame.
  pose proof (filter_length_le (fun msg => negb (gm_id msg =? date_now env1)) kept).
  lia.
Qed.

Lemma post_then_delete_witness :
  globalMessages
    (server_after
       (run (delete_global_message 3000 (js_str "u1")) alice_env_4 (Some "u1")
          (server_after (run (global_message (mkGlobalPayload "typo" None)) alice_env
                           (Some "u1") sample_server))))
  = [hi_from_alice].
Proof.
  destruct (post_then_delete alice_env alice_env_4 "u1" sample_server
              (mkGlobalPayload "typo" None) (mkPresence "alice" "socket-1")
              eq_refl eq_refl) as [_ Hfeed].
  exact Hfeed.
Defined.

(** * Properties of the user-registry draft *)

Lemma registry_insert_user_some (uid n : string) (now : Z) (d d' : Registry.Db)
  (rows : list Registry.User) :
  Registry.insert_user uid n now d = Some (rows, d') ->
  Registry.select_user uid d = [] /\ Registry.select_nickname n d = []
  /\ rows = [Registry.mkUser uid n None []]
  /\ d' = d ++ [Registry.mkUser uid n None []].
Proof.
  unfold Registry.insert_user.
  destruct (some_row (Registry.select_user uid d)) eqn:Hu; [discriminate|].
  destruct (some_row (Registry.select_nickname n d)) eqn:Hn; [discriminate|].
  simpl. intros E. injection E as <- <-.
  repeat split; apply some_row_false; assumption.
Qed.

Lemma registry_updated_rows (n previous uid : string) (now : Z) (d : Registry.Db) :
  filter (Registry.has_id uid)
    (map (fun u => if Registry.has_id uid u
                   then Registry.mkUser (Registry.user_id u) n (Some previous)
                          (Registry.change_timestamps u ++ [now])
                   else u) d)
  = map (fun u => Registry.mkUser (Registry.user_id u) n (Some previous)
                    (Registry.change_timestamps u ++ [now]))
      (Registry.select_user uid d).
Proof.
  unfold Registry.select_user. induction d as [|u d IH]; [reflexivity|].
  simpl. destruct (Registry.has_id uid u) eqn:E; simpl.
  - unfold Registry.has_id at 1. simpl. unfold Registry.has_id in E. rewrite E.
    rewrite IH. reflexivity.
  - rewrite E. exact IH.
Qed.

#[local] Arguments Registry.insert_user : simpl never.
#[local] Arguments Registry.update_rename : simpl never.
#[local] Arguments Registry.select_nickname : simpl never.

Ltac unfold_registry :=
  unfold Registry.run, Registry.request_user_data, Registry.setup_nickname,
    Registry.change_nickname, Registry.chat, Registry.disconnect, Registry.callback,
    Registry.differs, Registry.reading, bind, ret, try_catch, throw, ask, get_world,
    put_world, get_current, set_current, tell, query.

(** X18.  [request_user_data] never writes, and binds the socket to
    known users only: afterwards the socket's identity is what it was,
    or it is the user id asked for and the table has a row for it.  For
    a non-empty id with a row, the store answering, the socket is bound
    and the callback gets the row. *)
Theorem registry_request_binds_known_users
  (env : Env) (cur : option string) (d : Registry.Db) (userId : string) :
  let r := Registry.run (Registry.request_user_data userId) env cur d in
  Registry.db_after r = d
  /\ (Registry.current_after r = cur
      \/ (Registry.current_after r = Some userId
          /\ Registry.select_user userId d <> []))
  /\ (forall row rest,
        truthy_str userId = true ->
        store_fails env 0 = false ->
        Registry.select_user userId d = row :: rest ->
        r = Registry.mkResult d (Some userId)
              [Suspend; Callback (Registry.success (Some row))]).
Proof.
  intros r. subst r. split; [|split].
  - unfold_registry. cbn. break_all; reflexivity.
  - unfold_registry. cbn. break_all; try (left; reflexivity).
    right. split; [reflexivity|]. congruence.
  - intros row rest Ht Hf Hsel. unfold_registry. cbn. rewrite Ht. cbn.
    rewrite Hf. cbn. rewrite Hsel. reflexivity.
Qed.

Lemma registry_request_binds_known_users_witness :
  Registry.current_after
    (Registry.run (Registry.request_user_data "u2") sample_env None registry_db)
  = Some "u2"
  /\ Registry.current_after
       (Registry.run (Registry.request_user_data "u9") sample_env None registry_db)
     = None.
Proof.
  split; [|reflexivity].
  destruct (registry_request_binds_known_users sample_env None registry_db "u2")
    as (_ & _ & Hbound).
  rewrite (Hbound registry_bob [] eq_refl eq_refl eq_refl). reflexivity.
Defined.

(** X19.  [setup_nickname] never changes a row that is there: the table
    afterwards is the table before, or the table before with one row
    appended, for a user id and a nickname that no row had, with no
    previous nickname and an empty change ledger.  The socket is bound
    only to a user id that has a row afterwards.  For a user id that has
    a row already (the store answering) nothing is written, the
    requested nickname is ignored, and the callback gets the stored
    row. *)
Theorem registry_setup_only_appends
  (env : Env) (cur : option string) (d : Registry.Db) (userId n : string) :
  let r := Registry.run (Registry.setup_nickname userId n) env cur d in
  (Registry.db_after r = d
   \/ (Registry.db_after r = d ++ [Registry.mkUser userId n None []]
       /\ Registry.select_user userId d = []
       /\ Registry.select_nickname n d = []
       /\ truthy_str userId = true /\ truthy_str n = true))
  /\ (Registry.current_after r = cur
      \/ (Registry.current_after r = Some userId
          /\ Registry.select_user userId (Registry.db_after r) <> []))
  /\ (forall row rest,
        truthy_str userId = true -> truthy_str n = true ->
        store_fails env 0 = false -> store_fails env 1 = false ->
        Registry.select_user userId d = row :: rest ->
        r = Registry.mkResult d (Some userId)
              [Suspend; Suspend; Callback (Registry.success (Some row))]).
Proof.
  intros r. subst r. split; [|split].
  - unfold_registry. cbn.
    destruct (truthy_str userId) eqn:Hu; cbn; [|left; reflexivity].
    destruct (truthy_str n) eqn:Hn; cbn; [|left; reflexivity].
    break_all; try (left; reflexivity).
    all: match goal with
         | H : Registry.insert_user _ _ _ _ = Some _ |- _ =>
             apply registry_insert_user_some in H as (? & ? & ? & ->)
         end.
    all: right; repeat split; assumption.
  - unfold_registry. cbn. break_all; try (left; reflexivity).
    all: right; split; [reflexivity|].
    all: try match goal with
             | H : Registry.insert_user _ _ _ _ = Some _ |- _ =>
                 apply registry_insert_user_some in H as (? & ? & ? & ->)
             end.
    all: try (apply some_row_true; assumption).
    all: unfold Registry.select_user; rewrite filter_app; simpl;
      unfold Registry.has_id at 2; simpl; rewrite String.eqb_refl;
      intros E; apply app_eq_nil in E as [_ E]; discriminate E.
  - intros row rest Hu Hn Hf0 Hf1 Hsel. unfold_registry. cbn. rewrite Hu, Hn. cbn.
    rewrite Hf0. cbn. rewrite Hsel. cbn. rewrite Hf1. cbn. rewrite Hsel. reflexivity.
Qed.

Lemma registry_setup_only_appends_witness :
  Registry.run (Registry.setup_nickname "u2" "robert") sample_env None registry_db
  = Registry.mkResult registry_db (Some "u2")
      [Suspend; Suspend; Callback (Registry.success (Some registry_bob))].
Proof.
  destruct (registry_setup_only_appends sample_env None registry_db "u2" "robert")
    as (_ & _ & Hknown).
  exact (Hknown registry_bob [] eq_refl eq_refl eq_refl eq_refl eq_refl).
Defined.

(** All the ways the draft's [change_nickname] can go. *)
Lemma registry_change_nickname_cases
  (env : Env) (cur : option string) (d : Registry.Db) (userId newNickname : string) :
  let r := Registry.run (Registry.change_nickname userId newNickname) env cur d in
  (exists msg k,
      Registry.trace r = repeat Suspend k ++ [Callback (Registry.failure msg)]
      /\ Registry.db_after r = d
      /\ Registry.current_after r = cur)
  \/ (exists row rest,
        cur = Some userId
        /\ truthy_str userId = true /\ truthy_str newNickname = true
        /\ Registry.select_user userId d = row :: rest
        /\ Registry.nickname row <> newNickname
        /\ (List.length (recent_changes (date_now env - Registry.TWO_WEEKS_MS)
                           (Registry.change_timestamps row)) < 2)%nat
        /\ Registry.select_nickname_other newNickname userId d = []
        /\ Registry.current_after r = cur
        /\ Registry.select_user userId (Registry.db_after r)
           = map (fun u => Registry.mkUser (Registry.user_id u) newNickname
                             (Some (Registry.nickname row))
                             (Registry.change_timestamps u ++ [db_now env]))
               (row :: rest)
        /\ Registry.trace r
           = [Suspend; Suspend; Suspend;
              Callback (Registry.success
                          (Some (Registry.mkUser (Registry.user_id row) newNickname
                                   (Some (Registry.nickname row))
                                   (Registry.change_timestamps row ++ [db_now env]))));
              IoEmit (Registry.user_renamed (Registry.nickname row) newNickname)]).
Proof.
  unfold_registry. cbn.
  destruct (truthy_str userId) eqn:Hu; cbn.
  2:{ left. exists Registry.MSG_ID_OR_NEW_NICKNAME, 0%nat. repeat split. }
  destruct (truthy_str newNickname) eqn:Hn; cbn.
  2:{ left. exists Registry.MSG_ID_OR_NEW_NICKNAME, 0%nat. repeat split. }
  destruct cur as [c|]; cbn.
  2:{ left. exists Registry.MSG_BAD_REQUEST, 0%nat. repeat split. }
  destruct (String.eqb_spec userId c) as [<-|Hc]; cbn.
  2:{ left. exists Registry.MSG_BAD_REQUEST, 0%nat. repeat split. }
  destruct (store_fails env 0); cbn.
  { left. exists Registry.MSG_RENAME_ERROR, 1%nat. repeat split. }
  destruct (Registry.select_user userId d) as [|row rest] eqn:Hsel; cbn.
  { left. exists Registry.MSG_USER_NOT_FOUND, 1%nat. repeat split. }
  destruct (String.eqb_spec (Registry.nickname row) newNickname) as [Hsame|Hdiff]; cbn.
  { left. exists Registry.MSG_SAME_NICKNAME, 1%nat. repeat split. }
  destruct (Nat.leb_spec 2 (List.length
              (recent_changes (date_now env - Registry.TWO_WEEKS_MS)
                 (Registry.change_timestamps row)))) as [Hlim|Hlim]; cbn.
  { left. exists Registry.MSG_RATE_LIMITED, 1%nat. repeat split. }
  destruct (store_fails env 1); cbn.
  { left. exists Registry.MSG_RENAME_ERROR, 2%nat. repeat split. }
  destruct (some_row (Registry.select_nickname_other newNickname userId d)) eqn:Hother;
    cbn.
  { left. exists (Registry.MSG_NICKNAME_TAKEN newNickname), 2%nat. repeat split. }
  apply some_row_false in Hother.
  destruct (store_fails env 2); cbn.
  { left. exists Registry.MSG_RENAME_ERROR, 3%nat. repeat split. }
  unfold Registry.update_rename. rewrite Hother, andb_false_r. cbn.
  rewrite registry_updated_rows, Hsel. cbn.
  right. exists row, rest. repeat split; try assumption.
  fold (Registry.select_user userId
          (map (fun u => if Registry.has_id userId u
                         then Registry.mkUser (Registry.user_id u) newNickname
                                (Some (Registry.nickname row))
                                (Registry.change_timestamps u ++ [db_now env])
                         else u) d)).
  unfold Registry.select_user at 1. rewrite registry_updated_rows, Hsel. reflexivity.
Qed.

(** X20.  In the draft a socket renames the user it is bound to and no
    other.  When [change_nickname] answers with success, the user id of
    the payload is the socket's identity, the new nickname differs from
    the stored one, fewer than two changes are younger than two weeks
    and no other user holds the nickname; the user's row then carries the
    new nickname, the old one as previous_nickname and the store's time
    at the end of its ledger; the callback is called first and
    [user_renamed] with the old and the new name is broadcast after. *)
Theorem registry_rename_own_user_only
  (env : Env) (cur : option string) (d : Registry.Db) (userId newNickname : string)
  (u : option Registry.User) :
  let r := Registry.run (Registry.change_nickname userId newNickname) env cur d in
  In (Callback (Registry.success u)) (Registry.trace r) ->
  exists row rest,
    cur = Some userId
    /\ Registry.select_user userId d = row :: rest
    /\ Registry.nickname row <> newNickname
    /\ (List.length (recent_changes (date_now env - Registry.TWO_WEEKS_MS)
                       (Registry.change_timestamps row)) < 2)%nat
    /\ Registry.select_nickname_other newNickname userId d = []
    /\ u = Some (Registry.mkUser (Registry.user_id row) newNickname
                   (Some (Registry.nickname row))
                   (Registry.change_timestamps row ++ [db_now env]))
    /\ hd_error (Registry.select_user userId (Registry.db_after r)) = u
    /\ Registry.trace r
       = [Suspend; Suspend; Suspend; Callback (Registry.success u);
          IoEmit (Registry.user_renamed (Registry.nickname row) newNickname)].
Proof.
  intros r Hin. subst r.
  destruct (registry_change_nickname_cases env cur d userId newNickname)
    as [(msg & k & Ht & _)
       |(row & rest & Hc & _ & _ & Hsel & Hdiff & Hlim & Hother & _ & Hrows & Ht)].
  - rewrite Ht in Hin. apply in_app_or in Hin as [Hin|[Hin|[]]].
    + apply repeat_spec in Hin. discriminate Hin.
    + discriminate Hin.
  - exists row, rest. rewrite Ht in Hin. simpl in Hin.
    assert (Hu : u = Some (Registry.mkUser (Registry.user_id row) newNickname
                             (Some (Registry.nickname row))
                             (Registry.change_timestamps row ++ [db_now env])))
      by intuition congruence.
    rewrite Hrows, Ht, Hu. repeat split; assumption.
Qed.

Lemma registry_rename_own_user_only_witness :
  hd_error
    (Registry.select_user "u1"
       (Registry.db_after
          (Registry.run (Registry.change_nickname "u1" "alicia") alice_env (Some "u1")
             registry_db)))
  = Some (Registry.mkUser "u1" "alicia" (Some "alice") [3001]).
Proof.
  destruct (registry_rename_own_user_only alice_env (Some "u1") registry_db "u1" "alicia"
              (Some (Registry.mkUser "u1" "alicia" (Some "alice") [3001])))
    as (row & rest & _ & _ & _ & _ & _ & _ & Hrow & _).
  - vm_compute. tauto.
  - exact Hrow.
Defined.

(** X21.  Whenever the draft's [change_nickname] answers with a failure
    (missing field, another user's id, unknown user, same nickname, rate
    limit, nickname taken, store error), the table and the socket's
    identity are what they were and, apart from the store round trips,
    the callback is all that happened: nothing is broadcast. *)
Theorem registry_rename_failure_is_silent
  (env : Env) (cur : option string) (d : Registry.Db) (userId newNickname msg : string) :
  let r := Registry.run (Registry.change_nickname userId newNickname) env cur d in
  In (Callback (Registry.failure msg)) (Registry.trace r) ->
  Registry.db_after r = d
  /\ Registry.current_after r = cur
  /\ exists k, Registry.trace r = repeat Suspend k ++ [Callback (Registry.failure msg)].
Proof.
  intros r Hin. subst r.
  destruct (registry_change_nickname_cases env cur d userId newNickname)
    as [(msg0 & k & Ht & Hd & Hc)
       |(row & rest & _ & _ & _ & _ & _ & _ & _ & _ & _ & Ht)].
  - rewrite Ht in Hin. apply in_app_or in Hin as [Hin|[Hin|[]]].
    + apply repeat_spec in Hin. discriminate Hin.
    + injection Hin as <-. repeat split; try assumption. exists k. exact Ht.
  - rewrite Ht in Hin. simpl in Hin. exfalso. intuition congruence.
Qed.

Lemma registry_rename_failure_is_silent_witness :
  Registry.db_after
    (Registry.run (Registry.change_nickname "u1" "bobby") sample_env (Some "u2") registry_db)
  = registry_db.
Proof.
  apply (registry_rename_failure_is_silent sample_env (Some "u2") registry_db "u1" "bobby"
           Registry.MSG_BAD_REQUEST).
  vm_compute. tauto.
Defined.

(** X22.  In the draft [disconnect] unbinds the socket.  Whatever the
    socket was bound to, after its [disconnect] a chat message is
    relayed to nobody and a [change_nickname] for any user gets the "bad
    request" failure without a store round trip; before, a bound socket's
    complete chat message is broadcast as it came. *)
Theorem registry_disconnect_unbinds
  (env1 env2 : Env) (cur : option string) (d : Registry.Db) :
  let c := Registry.current_after (Registry.run Registry.disconnect env1 cur d) in
  (forall msg, Registry.run (Registry.chat msg) env2 c d = Registry.mkResult d None [])
  /\ (forall userId newNickname,
        truthy_str userId = true -> truthy_str newNickname = true ->
        Registry.run (Registry.change_nickname userId newNickname) env2 c d
        = Registry.mkResult d None [Callback (Registry.failure Registry.MSG_BAD_REQUEST)])
  /\ (forall m,
        truthy cur = true ->
        truthy_str (Registry.nick m) = true -> truthy_str (Registry.text m) = true ->
        truthy_str (Registry.timestamp m) = true ->
        Registry.run (Registry.chat (Some m)) env2 cur d
        = Registry.mkResult d cur [IoEmit (Registry.chat_message m)]).
Proof.
  intros c. subst c. split; [|split].
  - intros [m|]; unfold_registry; cbn; [|reflexivity].
    rewrite andb_false_r. reflexivity.
  - intros userId newNickname Hu Hn. unfold_registry. cbn. rewrite Hu, Hn. reflexivity.
  - intros m Hc Hnick Htext Hts. unfold_registry. cbn.
    rewrite Hnick, Htext, Hts, Hc. reflexivity.
Qed.

Lemma registry_disconnect_unbinds_witness :
  Registry.trace
    (Registry.run (Registry.chat (Some (Registry.mkChatMessage "alice" "hi" "12:00")))
       sample_env (Some "u1") registry_db)
  = [IoEmit (Registry.chat_message (Registry.mkChatMessage "alice" "hi" "12:00"))]
  /\ Registry.trace
       (Registry.run (Registry.change_nickname "u1" "alicia") sample_env
          (Registry.current_after (Registry.run Registry.disconnect sample_env (Some "u1")
                                     registry_db))
          registry_db)
     = [Callback (Registry.failure Registry.MSG_BAD_REQUEST)].
Proof.
  destruct (registry_disconnect_unbinds sample_env sample_env (Some "u1") registry_db)
    as (_ & Hrename & Hchat).
  split.
  - rewrite (Hchat (Registry.mkChatMessage "alice" "hi" "12:00")
               eq_refl eq_refl eq_refl eq_refl). reflexivity.
  - rewrite (Hrename "u1" "alicia" eq_refl eq_refl). reflexivity.
Defined.

(** * Properties of the first draft *)

Lemma legacy_post_step (p : LegacyPost) (s : Legacy.Server) :
  fst (Legacy.run (Legacy.global_message (post_data p)) (post_env p) (post_nickname p) s)
  = Legacy.mkServer (Legacy.direct_messages s)
      (Legacy.globalMessages s ++ [legacy_message p]).
Proof. reflexivity. Qed.

(** X23.  The first draft's feed takes every [global_message], from a
    socket with or without nickname, stores as sender what the payload
    says, and never drops anything: after any posts the feed is the feed
    before followed by one message per post, in order. *)
Theorem legacy_feed_keeps_everything (posts : list LegacyPost) (s : Legacy.Server) :
  Legacy.globalMessages (legacy_posts posts s)
  = Legacy.globalMessages s ++ map legacy_message posts
  /\ Legacy.direct_messages (legacy_posts posts s) = Legacy.direct_messages s.
Proof.
  revert s. induction posts as [|p posts IH]; intros s.
  - simpl. rewrite app_nil_r. split; reflexivity.
  - change (legacy_posts (p :: posts) s)
      with (legacy_posts posts
              (fst (Legacy.run (Legacy.global_message (post_data p)) (post_env p)
                      (post_nickname p) s))).
    rewrite legacy_post_step.
    destruct (IH (Legacy.mkServer (Legacy.direct_messages s)
                    (Legacy.globalMessages s ++ [legacy_message p]))) as [Hfeed Hdm].
    rewrite Hfeed, Hdm. simpl. rewrite <- app_assoc. split; reflexivity.
Qed.

Lemma legacy_load_dms_run
  (env : Env) (nick target : string) (s : Legacy.Server) :
  truthy_str nick = true -> truthy_str target = true ->
  (forall k, store_fails env k = false) ->
  Legacy.run (Legacy.load_dms target) env (Some nick) s
  = (s, [Suspend; Suspend;
         SocketEmit
           (Legacy.loaded_dms target
              (order_by Legacy.dm_timestamp
                 (Legacy.select_sent (dm_rank env 0) nick target s
                  ++ Legacy.select_sent (dm_rank env 1) target nick s)))]).
Proof.
  intros Hn Ht Hf.
  unfold Legacy.run, Legacy.load_dms, Legacy.reading, bind, ret, try_catch, get_current,
    ask, next_query, tell, query.
  cbn. rewrite Hn, Ht. cbn. rewrite !Hf. cbn. rewrite ?Hf. reflexivity.
Qed.

Lemma filter_disjoint_union {A} (f g : A -> bool) (l : list A) :
  (forall x, f x = true -> g x = true -> False) ->
  Permutation (filter f l ++ filter g l) (filter (fun x => f x || g x) l).
Proof.
  intros Hd. induction l as [|x l IH]; [constructor|].
  simpl. destruct (f x) eqn:Ef; destruct (g x) eqn:Eg; simpl.
  - exfalso. exact (Hd x Ef Eg).
  - apply perm_skip, IH.
  - eapply perm_trans; [apply Permutation_sym, Permutation_middle|].
    apply perm_skip, IH.
  - exact IH.
Qed.

(** X24.  The first draft's [load_dms], on a socket with a nickname, for
    a non-empty target, the store answering, sends the socket one list:
    ascending in timestamp, and made of the messages from the socket's
    nickname to the target together with those from the target to the
    nickname.  For two different names these are the messages between
    the two, each once; a thread with oneself lists every message
    twice. *)
Theorem legacy_load_dms_sorted_union
  (env : Env) (nick target : string) (s : Legacy.Server) :
  truthy_str nick = true -> truthy_str target = true ->
  (forall k, store_fails env k = false) ->
  let from a b :=
    filter (fun m => String.eqb (Legacy.dm_sender m) a && String.eqb (Legacy.dm_receiver m) b)
      (Legacy.direct_messages s) in
  exists rows,
    snd (Legacy.run (Legacy.load_dms target) env (Some nick) s)
    = [Suspend; Suspend; SocketEmit (Legacy.loaded_dms target rows)]
    /\ Sorted (key_le Legacy.dm_timestamp) rows
    /\ Permutation rows (from nick target ++ from target nick)
    /\ (nick <> target ->
        Permutation rows
          (filter (fun m =>
                     (String.eqb (Legacy.dm_sender m) nick
                      && String.eqb (Legacy.dm_receiver m) target)
                     || (String.eqb (Legacy.dm_sender m) target
                         && String.eqb (Legacy.dm_receiver m) nick))
             (Legacy.direct_messages s)))
    /\ (nick = target -> Permutation rows (from nick nick ++ from nick nick)).
Proof.
  intros Hn Ht Hf from.
  exists (order_by Legacy.dm_timestamp
            (Legacy.select_sent (dm_rank env 0) nick target s
             ++ Legacy.select_sent (dm_rank env 1) target nick s)).
  rewrite (legacy_load_dms_run env nick target s Hn Ht Hf).
  assert (Hperm : Permutation
            (order_by Legacy.dm_timestamp
               (Legacy.select_sent (dm_rank env 0) nick target s
                ++ Legacy.select_sent (dm_rank env 1) target nick s))
            (from nick target ++ from target nick)).
  { eapply perm_trans; [apply order_by_perm|].
    apply Permutation_app; apply sorted_by_perm. }
  split; [reflexivity|]. split; [apply order_by_sorted|]. split; [exact Hperm|]. split.
  - intros Hne. eapply perm_trans; [exact Hperm|].
    apply filter_disjoint_union. intros m H1 H2.
    apply andb_prop in H1 as [H1 _]. apply andb_prop in H2 as [H2 _].
    apply String.eqb_eq in H1. apply String.eqb_eq in H2. congruence.
  - intros <-. exact Hperm.
Qed.

Lemma legacy_load_dms_sorted_union_witness :
  exists rows,
    snd (Legacy.run (Legacy.load_dms "alice") alice_env (Some "alice") legacy_self_server)
    = [Suspend; Suspend; SocketEmit (Legacy.loaded_dms "alice" rows)]
    /\ Permutation rows
         [Legacy.mkDirectMessage 1 "alice" "alice" "remember" "text" 100;
          Legacy.mkDirectMessage 1 "alice" "alice" "remember" "text" 100].
Proof.
  destruct (legacy_load_dms_sorted_union alice_env "alice" "alice" legacy_self_server
              eq_refl eq_refl (fun _ => eq_refl)) as (rows & Htrace & _ & _ & _ & Hself).
  exists rows. split; [exact Htrace | exact (Hself eq_refl)].
Defined.

Lemma legacy_push_reaches_nobody
  (sockets : list string) (rcv : string) (newDM : Legacy.DirectMessage) (env : Env)
  (m : Machine LegacyDm.Store) :
  LegacyDm.push_to_receiver sockets rcv newDM env m = (Normal tt, m, []).
Proof.
  induction sockets as [|sid rest IH]; [reflexivity|].
  simpl. unfold bind. simpl. rewrite IH. reflexivity.
Qed.

(** X25.  The first draft's [send_dm], on a socket with a nickname, for a
    non-empty receiver and body, the store answering: the row appended
    carries the socket's nickname as sender, whatever the payload says,
    and the next id of the sequence; [new_dm] goes to the sending socket
    and to no other, whichever sockets are connected: the loop that
    looks for the receiver compares a property that no socket has. *)
Theorem legacy_send_dm_reaches_sender_only
  (sockets : list string) (data : LegacyDm.DmPayload) (env : Env) (nick : string)
  (d : LegacyDm.Store) :
  truthy_str nick = true ->
  truthy_str (LegacyDm.receiver data) = true ->
  truthy_str (LegacyDm.message data) = true ->
  store_fails env 0 = false ->
  let row := Legacy.mkDirectMessage (LegacyDm.seq d + 1) nick (LegacyDm.receiver data)
               (LegacyDm.message data) (or_text (LegacyDm.type data)) (db_now env) in
  LegacyDm.run (LegacyDm.send_dm sockets data) env (Some nick) d
  = (LegacyDm.mkStore (LegacyDm.table d ++ [row]) (LegacyDm.seq d + 1),
     [Suspend; ToEmit (socket_id env) (LegacyDm.new_dm row)]).
Proof.
  intros Hn Hr Hm Hf row. subst row.
  unfold LegacyDm.run, LegacyDm.send_dm, bind, ret, try_catch, get_current, ask, tell,
    query.
  cbn. rewrite Hn, Hr, Hm. cbn. rewrite Hf. cbn.
  rewrite legacy_push_reaches_nobody. reflexivity.
Qed.

Lemma legacy_send_dm_reaches_sender_only_witness :
  snd (LegacyDm.run
         (LegacyDm.send_dm ["socket-1"; "socket-2"] (LegacyDm.mkDmPayload "bob" "psst" None))
         alice_env (Some "alice") legacy_dm_store)
  = [Suspend;
     ToEmit "socket-1"
       (LegacyDm.new_dm (Legacy.mkDirectMessage 3 "alice" "bob" "psst" "text" 3001))].
Proof.
  rewrite (legacy_send_dm_reaches_sender_only ["socket-1"; "socket-2"]
             (LegacyDm.mkDmPayload "bob" "psst" None) alice_env "alice" legacy_dm_store
             eq_refl eq_refl eq_refl eq_refl).
  reflexivity.
Defined.

(** X26.  The first draft's [delete_dm] removes nothing but messages with
    the id asked for that the socket's nickname sent or received, and a
    socket without nickname removes nothing; every message that stays
    was there before; the sequence is untouched.  When something was
    removed, [dm_deleted] with the id goes to every connection, not to
    the two parties only; otherwise nothing is emitted. *)
Theorem legacy_delete_dm_only_own
  (messageId : Z) (env : Env) (cur : option string) (d : LegacyDm.Store) :
  let r := LegacyDm.run (LegacyDm.delete_dm messageId) env cur d in
  LegacyDm.seq (fst r) = LegacyDm.seq d
  /\ (forall m, In m (LegacyDm.table (fst r)) -> In m (LegacyDm.table d))
  /\ (forall m, In m (LegacyDm.table d) -> ~ In m (LegacyDm.table (fst r)) ->
                Legacy.dm_id m = messageId
                /\ exists n, cur = Some n
                             /\ (Legacy.dm_sender m = n \/ Legacy.dm_receiver m = n))
  /\ (snd r = [Suspend; IoEmit (LegacyDm.dm_deleted messageId)]
      /\ (exists m, In m (LegacyDm.table d) /\ ~ In m (LegacyDm.table (fst r)))
      \/ snd r = [Suspend] /\ fst r = d).
Proof.
  intros r. subst r.
  unfold LegacyDm.run, LegacyDm.delete_dm, LegacyDm.delete_rows, bind, ret, try_catch,
    get_current, tell, query.
  cbn. destruct (store_fails env 0); cbn.
  { repeat split; auto; try contradiction. }
  assert (Hgone : forall m,
    In m (LegacyDm.table d) ->
    ~ In m (filter (fun x => negb (LegacyDm.delete_where messageId cur x))
              (LegacyDm.table d)) ->
    LegacyDm.delete_where messageId cur m = true).
  { intros m Hm Hn. destruct (LegacyDm.delete_where messageId cur m) eqn:Hw;
      [reflexivity|].
    exfalso. apply Hn. apply filter_In. rewrite Hw. auto. }
  assert (Hparty : forall m,
    LegacyDm.delete_where messageId cur m = true ->
    Legacy.dm_id m = messageId
    /\ exists n, cur = Some n /\ (Legacy.dm_sender m = n \/ Legacy.dm_receiver m = n)).
  { intros m Hw. unfold LegacyDm.delete_where in Hw. destruct cur as [n|];
      [|discriminate Hw].
    apply andb_prop in Hw as [Hid Hp]. apply Z.eqb_eq in Hid. split; [exact Hid|].
    exists n. split; [reflexivity|].
    apply orb_prop in Hp as [H|H]; apply String.eqb_eq in H; auto. }
  destruct (filter (LegacyDm.delete_where messageId cur) (LegacyDm.table d))
    as [|m0 ms] eqn:Hmatch; cbn.
  - repeat split.
    + intros m Hm. apply filter_In in Hm. tauto.
    + apply (Hparty m), Hgone; assumption.
    + apply (Hparty m), Hgone; assumption.
    + right. split; [reflexivity|]. destruct d as [tb sq]. simpl in *. f_equal.
      apply filter_all. intros x Hx.
      destruct (LegacyDm.delete_where messageId cur x) eqn:Hw; [|reflexivity].
      exfalso. assert (Hin : In x (filter (LegacyDm.delete_where messageId cur) tb))
        by (apply filter_In; auto).
      rewrite Hmatch in Hin. destruct Hin.
  - repeat split.
    + intros m Hm. apply filter_In in Hm. tauto.
    + apply (Hparty m), Hgone; assumption.
    + apply (Hparty m), Hgone; assumption.
    + left. split; [reflexivity|]. exists m0.
      assert (Hin : In m0 (filter (LegacyDm.delete_where messageId cur) (LegacyDm.table d)))
        by (rewrite Hmatch; left; reflexivity).
      apply filter_In in Hin as [Hin Hw]. split; [exact Hin|].
      intros Hk. apply filter_In in Hk as [_ Hk]. rewrite Hw in Hk. discriminate Hk.
Qed.

(** ** The primary key of direct_messages *)

Lemma NoDup_map_filter {A B} (key : A -> B) (keep : A -> bool) (rows : list A) :
  NoDup (map key rows) -> NoDup (map key (filter keep rows)).
Proof.
  induction rows as [|x rows IH]; simpl; intros H; [constructor|].
  inversion H as [|y ys Hx Hl]; subst. destruct (keep x); [|apply IH; exact Hl].
  simpl. constructor; [|apply IH; exact Hl].
  intros Hin. apply Hx. apply in_map_iff in Hin as (z & Hz & Hin).
  apply filter_In in Hin as [Hin _]. apply in_map_iff. exists z. auto.
Qed.

Lemma message_keys_step (r : request) (env : Env) (cur : option string) (s : Server) :
  ids_from_sequence (db s) = true ->
  NoDup (map dm_id (direct_messages (db s))) ->
  let d' := db (server_after (run (handle r) env cur s)) in
  ids_from_sequence d' = true
  /\ NoDup (map dm_id (direct_messages d'))
  /\ dm_seq (db s) <= dm_seq d'.
Proof.
  intros Hseq Hnd d'. subst d'.
  assert (Hsame : ids_from_sequence (db s) = true
                  /\ NoDup (map dm_id (direct_messages (db s)))
                  /\ dm_seq (db s) <= dm_seq (db s)) by (repeat split; auto; lia).
  destruct (db_after r env cur s)
    as [E|[(nick & uid & now & E)|[(nick & uid & now & rows & E)
       |[(nick & uid & now & rows & E)|[(a & b & msg & ty & now & rows & E)
       |(mid & uid & E)]]]]].
  - rewrite E. exact Hsame.
  - apply update_connect_some in E. rewrite E. exact Hsame.
  - apply insert_user_some in E as [_ E]. rewrite E. exact Hsame.
  - apply update_rename_some in E as [_ E]. rewrite E. exact Hsame.
  - unfold insert_dm in E.
    destruct (some_row (select_user a (db s)) && some_row (select_user b (db s)));
      injection E as _ E; rewrite <- E;
      unfold ids_from_sequence in *; simpl; rewrite forallb_forall in Hseq.
    2:{ split; [|split; [exact Hnd | lia]].
        apply forallb_forall. intros m Hm. apply Hseq in Hm.
        apply Z.leb_le in Hm. apply Z.leb_le. lia. }
    split; [|split; [|lia]].
    + rewrite forallb_app. simpl. rewrite andb_true_r, Z.leb_refl, andb_true_r.
      apply forallb_forall. intros m Hm. apply Hseq in Hm.
      apply Z.leb_le in Hm. apply Z.leb_le. lia.
    + rewrite map_app. simpl. apply NoDup_app; [exact Hnd | repeat constructor; auto |].
      intros x Hx [Hy|[]]. subst x. apply in_map_iff in Hx as (m & Hid & Hm).
      apply Hseq in Hm. apply Z.leb_le in Hm. lia.
  - rewrite E, delete_dm_rows_eq. unfold ids_from_sequence in *. simpl.
    split; [|split; [|lia]].
    + rewrite forallb_forall in *. intros m Hm. apply filter_In in Hm as [Hm _].
      apply Hseq; exact Hm.
    + apply NoDup_map_filter; exact Hnd.
Qed.

(** X27.  The ids of direct_messages stay a key: when no stored message
    has an id above the sequence and no two share an id, the same holds
    after any events on any sockets, and the sequence never goes back: a
    deleted message's id is not given to a later one. *)
Theorem message_ids_stay_unique (steps : list Step) (s : Server) :
  ids_from_sequence (db s) = true ->
  NoDup (map dm_id (direct_messages (db s))) ->
  let d' := db (fst (run_all steps s)) in
  ids_from_sequence d' = true
  /\ NoDup (map dm_id (direct_messages d'))
  /\ dm_seq (db s) <= dm_seq d'.
Proof.
  revert s. induction steps as [|st steps IH]; intros s Hseq Hnd.
  - simpl. repeat split; auto; lia.
  - simpl.
    destruct (message_keys_step (step_request st) (step_env st) (step_current st) s
                Hseq Hnd) as (Hseq1 & Hnd1 & Hle1).
    specialize (IH _ Hseq1 Hnd1). simpl in IH. destruct IH as (Hseq2 & Hnd2 & Hle2).
    destruct (run_all steps _) as [s' t]. simpl in *.
    repeat split; auto; lia.
Qed.

Lemma message_ids_stay_unique_witness :
  ids_from_sequence (db (fst (run_all busy_steps carol_server))) = true
  /\ NoDup (map dm_id (direct_messages (db (fst (run_all busy_steps carol_server)))))
  /\ dm_seq (db carol_server) <= dm_seq (db (fst (run_all busy_steps carol_server))).
Proof.
  apply (message_ids_stay_unique busy_steps carol_server).
  - reflexivity.
  - simpl. repeat constructor; simpl; intuition discriminate.
Defined.
